(** * excel-processor: column selection, row projection, batching and the
      LLM orchestration of [ExcelProcessor.tsx]

    The component exists in two iterations in the repository.  Module
    [Later] embeds the current one (Ark backend, batches of 300 rows),
    module [Earlier] the first one (DeepSeek backend, one request per
    table), and module [EarlierClassification] the classification of the
    first one, whose requests are not awaited one by one.  All share the
    small JavaScript layer below. *)

From Stdlib Require Import ZArith String Ascii List Lia Bool.
From stdpp Require Import base option list strings gmap pretty.

Open Scope string_scope.
Open Scope list_scope.
Open Scope nat_scope.

(* ================================================================== *)
(** ** JavaScript values and objects *)
(* ================================================================== *)

(** A cell of [ExcelData]: [string | number].  Numbers are integers here;
    [sheet_to_json] is called with [raw: false], which makes it return the
    formatted text of every cell. *)
Inductive cell : Type :=
| CStr (s : string)
| CNum (n : Z).

#[global] Instance cell_eq_dec : EqDecision cell.
Proof. solve_decision. Defined.

(** [interface ExcelData { [key: string]: string | number }]: an object used
    as a map.  A key that is not bound reads as [undefined], which is [None]
    of the lookup. *)
Abbreviation ExcelData := (gmap string cell).

(** ECMAScript [ToBoolean] on a property read: [undefined], the empty string
    and the number 0 are falsy. *)
Definition truthy (v : option cell) : bool :=
  match v with
  | None => false
  | Some (CStr s) => negb (bool_decide (s = ""))
  | Some (CNum n) => negb (bool_decide (n = 0%Z))
  end.

(** [a || b] *)
Definition js_or (a b : option cell) : option cell :=
  if truthy a then a else b.

(** [String(value)] and the conversion made by a template literal. *)
Definition ToString (v : option cell) : string :=
  match v with
  | None => "undefined"
  | Some (CStr s) => s
  | Some (CNum n) => pretty n
  end.

(** Strings are UTF-8 byte strings.  [String.prototype.trim] removes the
    characters of WhiteSpace and LineTerminator from both ends; in UTF-8 they
    are one, two or three bytes long. *)
Definition ws1 (a : ascii) : bool :=
  let n := nat_of_ascii a in
  ((9 <=? n) && (n <=? 13)) || (n =? 32).

(** U+00A0 *)
Definition ws2 (a b : ascii) : bool :=
  (nat_of_ascii a =? 194) && (nat_of_ascii b =? 160).

(** U+1680, U+2000..U+200A, U+2028, U+2029, U+202F, U+205F, U+3000, U+FEFF *)
Definition ws3 (a b c : ascii) : bool :=
  let x := nat_of_ascii a in
  let y := nat_of_ascii b in
  let z := nat_of_ascii c in
  ((x =? 225) && (y =? 154) && (z =? 128))
  || ((x =? 226) && (y =? 128)
      && (((128 <=? z) && (z <=? 138)) || (z =? 168) || (z =? 169) || (z =? 175)))
  || ((x =? 226) && (y =? 129) && (z =? 159))
  || ((x =? 227) && (y =? 128) && (z =? 128))
  || ((x =? 239) && (y =? 187) && (z =? 191)).

Fixpoint trimStart (s : string) : string :=
  match s with
  | String a r1 =>
      if ws1 a then trimStart r1 else
      match r1 with
      | String b r2 =>
          if ws2 a b then trimStart r2 else
          match r2 with
          | String c r3 => if ws3 a b c then trimStart r3 else s
          | EmptyString => s
          end
      | EmptyString => s
      end
  | EmptyString => s
  end.

(** The same scan on the reversed string, bytes of a character read last to
    first. *)
Fixpoint trimStart_rev (s : string) : string :=
  match s with
  | String c r1 =>
      if ws1 c then trimStart_rev r1 else
      match r1 with
      | String b r2 =>
          if ws2 b c then trimStart_rev r2 else
          match r2 with
          | String a r3 => if ws3 a b c then trimStart_rev r3 else s
          | EmptyString => s
          end
      | EmptyString => s
      end
  | EmptyString => s
  end.

Definition trimEnd (s : string) : string :=
  String.rev (trimStart_rev (String.rev s)).

Definition trim (s : string) : string := trimEnd (trimStart s).

(** [toLowerCase], on the letters A..Z.  No other character lowercases to a
    letter of "text", so [includes('text')] after the full Unicode mapping and
    after this one agree. *)
Definition lower_ascii (a : ascii) : ascii :=
  let n := nat_of_ascii a in
  if (65 <=? n) && (n <=? 90) then ascii_of_nat (n + 32) else a.

Fixpoint toLowerCase (s : string) : string :=
  match s with
  | EmptyString => EmptyString
  | String a r => String (lower_ascii a) (toLowerCase r)
  end.

(** [hay.includes(needle)] *)
Fixpoint includes (needle hay : string) : bool :=
  String.prefix needle hay
  || match hay with
     | EmptyString => false
     | String _ r => includes needle r
     end.

(** The message of a thrown [Error]; [response] is set on an axios error
    that carries an HTTP response. *)
Record js_error : Type := mk_error {
  err_message : string;
  err_is_axios : bool;
  err_status : option Z;
  err_server_message : option string
}.

Definition Error (msg : string) : js_error := mk_error msg false None None.

(** What an asynchronous function settles with. *)
Inductive result (A : Type) : Type :=
| Ok (a : A)
| Thrown (e : js_error).
Arguments Ok {A} a.
Arguments Thrown {A} e.

(* ================================================================== *)
(** ** The text-generation backend *)
(* ================================================================== *)

(** The decoded body [{choices: [{message: {content}}], error: {message}}];
    every field may be missing. *)
Record chat_message : Type := { content : option string }.
Record choice : Type := { message : option chat_message }.
Record body : Type := {
  choices : option (list (option choice));
  error_message : option string
}.

(** One HTTP exchange.  [payload = None]: the body is not a JSON object. *)
Inductive http_outcome : Type :=
| NetworkError (msg : string)
| HttpResponse (status : Z) (statusText : string) (payload : option body).

Definition status_ok (status : Z) : bool :=
  (200 <=? status)%Z && (status <=? 299)%Z.

(** [choices[0].message], when every link of the chain is there. *)
Definition first_message (b : body) : option chat_message :=
  match choices b with
  | Some (Some c :: _) => message c
  | _ => None
  end.

(** [data?.choices?.[0]?.message?.content] *)
Definition reply_content (data : option body) : option string :=
  match data with
  | Some b =>
      match first_message b with
      | Some m => content m
      | None => None
      end
  | None => None
  end.

(** What the network sees of a request: it is sent, and later the handler
    that awaits its promise resumes with the answer.  Requests are numbered
    in the order in which they are sent. *)
Inductive event : Type :=
| Sent (id : nat)
| Answered (id : nat).

#[global] Instance event_eq_dec : EqDecision event.
Proof. solve_decision. Defined.

(** The number of requests in flight after each event of a log, from
    [n] requests in flight before it. *)
Fixpoint inFlight (n : nat) (log : list event) : list nat :=
  match log with
  | [] => []
  | Sent _ :: rest => S n :: inFlight (S n) rest
  | Answered _ :: rest => Nat.pred n :: inFlight (Nat.pred n) rest
  end.

(** The largest number of requests in flight at once. *)
Definition peakInFlight (log : list event) : nat :=
  foldr Nat.max 0 (inFlight 0 log).

Definition success_body (text : string) : body :=
  {| choices := Some [Some {| message := Some {| content := Some text |} |}];
     error_message := None |}.

(** [s.slice(n)] on bytes *)
Fixpoint string_drop (n : nat) (s : string) : string :=
  match n, s with
  | S n', String _ r => string_drop n' r
  | _, _ => s
  end.

(** [s.replace(/^p/, '')] for a literal [p] *)
Definition strip_prefix (p s : string) : string :=
  if String.prefix p s then string_drop (String.length p) s else s.

Definition is_digit (a : ascii) : bool :=
  let n := nat_of_ascii a in (48 <=? n) && (n <=? 57).

Fixpoint drop_digits (s : string) : string :=
  match s with
  | String a r => if is_digit a then drop_digits r else s
  | EmptyString => s
  end.

(** Every character is a decimal digit. *)
Fixpoint all_digits (s : string) : bool :=
  match s with
  | EmptyString => true
  | String a r => is_digit a && all_digits r
  end.

(** [s.replace(/（共 \d+ 条数据）$/, '')].  A match ends at the end of the
    string, so it is found from the right: the literal tail, then the whole
    run of digits before it (at least one), then the literal head. *)
Definition strip_count_suffix (s : string) : string :=
  let r := String.rev s in
  let tail := String.rev " 条数据）" in
  let head := String.rev "（共 " in
  if String.prefix tail r then
    let r1 := string_drop (String.length tail) r in
    let r2 := drop_digits r1 in
    if (String.length r2 <? String.length r1) && String.prefix head r2
    then String.rev (string_drop (String.length head) r2)
    else s
  else s.

(** [name.replace(/^表格 - /, '').replace(/（共 \d+ 条数据）$/, '')] *)
Definition columnNameOf (name : string) : string :=
  strip_count_suffix (strip_prefix "表格 - " name).

(** [input.split(/[、,，\n]/)]: the separators are U+3001, the comma, U+FF0C
    and the line feed.  [cur] is the piece being read, last byte first. *)
Definition sep1 (a : ascii) : bool :=
  let n := nat_of_ascii a in (n =? 44) || (n =? 10).

Definition sep3 (a b c : ascii) : bool :=
  let x := nat_of_ascii a in
  let y := nat_of_ascii b in
  let z := nat_of_ascii c in
  ((x =? 227) && (y =? 128) && (z =? 129))
  || ((x =? 239) && (y =? 188) && (z =? 140)).

Fixpoint split_go (s : string) (cur : string) : list string :=
  match s with
  | EmptyString => [String.rev cur]
  | String a r =>
      if sep1 a then String.rev cur :: split_go r EmptyString else
      match r with
      | String b (String c r3) =>
          if sep3 a b c then String.rev cur :: split_go r3 EmptyString
          else split_go r (String a cur)
      | _ => split_go r (String a cur)
      end
  end.

Definition split_topics (input : string) : list string :=
  split_go input EmptyString.

(** Antd column definition built for a table. *)
Record column_def : Type := {
  title : string;
  dataIndex : string;
  col_key : string;
  width : Z;
  ellipsis : option bool;
  fixed : option string
}.

(** [allColumns.slice(0, 3)] and [allColumns.slice(3)] *)
Definition firstThree (allColumns : list string) : list string :=
  take 3 allColumns.
Definition afterThree (allColumns : list string) : list string :=
  drop 3 allColumns.

(** [value !== undefined && value !== null && value !== '' && value !== '无'],
    the row filter of the current iteration. *)
Definition is_answer (v : option cell) : bool :=
  match v with
  | None => false
  | Some (CStr s) => negb (bool_decide (s = "")) && negb (bool_decide (s = "无"))
  | Some (CNum _) => true
  end.

(** [value !== undefined && value !== null && value !== ''], the row filter
    of the first iteration. *)
Definition is_nonempty (v : option cell) : bool :=
  match v with
  | None => false
  | Some (CStr s) => negb (bool_decide (s = ""))
  | Some (CNum _) => true
  end.

(** [row[col] || ''], the value written for an identity column. *)
Definition identityValue (row : ExcelData) (col : string) : cell :=
  default (CStr "") (js_or (row !! col) (Some (CStr ""))).

(** The object literal [newRow] of [processExcelFile]: [key: index], then one
    assignment per identity column, then the analysed column.  Assignments
    to the same property overwrite each other. *)
Definition newRow (firstThreeColumns : list string) (column : string)
    (row : ExcelData) (index : nat) : ExcelData :=
  let r0 : ExcelData := {[ "key" := CNum (Z.of_nat index) ]} in
  let r1 :=
    foldl (fun (acc : ExcelData) col => <[ col := identityValue row col ]> acc)
          r0 firstThreeColumns in
  match row !! column with
  | Some v => <[ column := v ]> r1
  | None => delete column r1
  end.

(** [columns] of a table: the identity columns, then the analysed one. *)
Definition tableColumns (firstThreeColumns : list string) (column : string)
    : list column_def :=
  map (fun col =>
         {| title := col; dataIndex := col; col_key := col; width := 150;
            ellipsis := Some true;
            fixed := if bool_decide (Some col = head firstThreeColumns)
                     then Some "left" else None |})
      firstThreeColumns
  ++ [ {| title := column; dataIndex := column; col_key := column;
          width := 300; ellipsis := None; fixed := None |} ].

(** [`表格 - ${column}（共 ${tableData.length} 条数据）`] *)
Definition tableName (column : string) (n : nat) : string :=
  "表格 - " +:+ column +:+ "（共 " +:+ pretty n +:+ " 条数据）".

(** The Batcher: [for (let i = 0; i < data.length; i += n)
    batches.push(data.slice(i, i + n))].  With [n = 0] the source loop does
    not end; the loop below then runs out of fuel and yields [None]. *)
Definition slice {A} (i j : nat) (l : list A) : list A :=
  take (j - i) (drop i l).

Fixpoint batch_loop {A} (fuel n : nat) (data : list A) (i : nat)
    (batches : list (list A)) : option (list (list A)) :=
  if i <? length data then
    match fuel with
    | 0 => None
    | S fuel' =>
        batch_loop fuel' n data (i + n) (batches ++ [slice i (i + n) data])
    end
  else Some batches.

Definition chunk {A} (n : nat) (data : list A) : option (list (list A)) :=
  batch_loop (length data) n data 0 [].

Definition BATCH_SIZE : nat := 300.

(** The batches of a handler; [BATCH_SIZE] is positive, so the loop ends
    (lemma [chunk_total]) and the default is never taken. *)
Definition createBatches {A} (data : list A) : list (list A) :=
  default [] (chunk BATCH_SIZE data).

(** Number of batches: the ceiling of [len / n]. *)
Definition ceil_div (len n : nat) : nat := (len + n - 1) / n.

(** The batches in closed form: batch [b] is [data.slice(b * n, b * n + n)]. *)
Definition batches_of {A} (n : nat) (data : list A) (from count : nat)
    : list (list A) :=
  map (fun b => slice (b * n) (b * n + n) data) (seq from count).

(* ================================================================== *)
(** ** Handlers as state transformers that may throw *)
(* ================================================================== *)

(** A handler body over a store [W]: it ends normally or throws, and the
    store written before a throw is kept. *)
Definition M (W A : Type) : Type := W -> result A * W.

Definition ret {W A} (a : A) : M W A := fun w => (Ok a, w).

Definition bind {W A B} (m : M W A) (k : A -> M W B) : M W B :=
  fun w => match m w with
           | (Ok a, w') => k a w'
           | (Thrown e, w') => (Thrown e, w')
           end.

Definition throw {W A} (e : js_error) : M W A := fun w => (Thrown e, w).

(** [try { m } catch (e) { h e }] *)
Definition try_catch {W A} (m : M W A) (h : js_error -> M W A) : M W A :=
  fun w => match m w with
           | (Ok a, w') => (Ok a, w')
           | (Thrown e, w') => h e w'
           end.

Notation "'let!' x ':=' m 'in' k" := (bind m (fun x => k))
  (at level 10, x name, m at level 100, k at level 200).
Notation "'do!' m 'in' k" := (bind m (fun _ => k))
  (at level 10, m at level 100, k at level 200).

(** [for (let i = start; ...; i++) body(i, l[i - start])] *)
Fixpoint forM_from {W A} (i : nat) (l : list A) (body : nat -> A -> M W unit)
    : M W unit :=
  match l with
  | [] => ret tt
  | x :: l' => do! body i x in forM_from (S i) l' body
  end.

(* ================================================================== *)
(** ** The current iteration *)
(* ================================================================== *)

Module Later.

Inductive api_status : Type := success | error | analyzing.

#[global] Instance api_status_eq_dec : EqDecision api_status.
Proof. solve_decision. Defined.

Record ProcessedTable : Type := mkTable {
  name : string;
  data : list ExcelData;
  columns : list column_def;
  analysis : option string;
  isAnalyzing : bool;
  commonTopics : list string;
  isAnalyzingTopics : bool;
  topicsAnalysis : option string;
  topicsApiStatus : option api_status;
  topicsApiMessage : option string;
  analysisApiStatus : option api_status;
  analysisApiMessage : option string
}.

(** *** Column Selector *)

(** Marker policy: keep a header that contains "text" or "分列". *)
Definition shouldSkipColumn (columnName : string) : bool :=
  let lowerColumnName := toLowerCase columnName in
  negb (includes "text" lowerColumnName) && negb (includes "分列" lowerColumnName).

(** [typeof value === 'string' ? value.trim() : String(value)] *)
Definition normalize (v : option cell) : string :=
  match v with
  | Some (CStr s) => trim s
  | _ => ToString v
  end.

(** The values that enter the [Set] of [hasEnoughUniqueValues]. *)
Definition validValues (data : list ExcelData) (columnName : string)
    : list string :=
  let validRows := List.filter (fun row : ExcelData => is_answer (row !! columnName)) data in
  List.filter (fun value => negb (bool_decide (value = "")))
    (map (fun row : ExcelData => normalize (row !! columnName)) validRows).

Definition uniqueCount (data : list ExcelData) (columnName : string) : nat :=
  length (remove_dups (validValues data columnName)).

Definition hasEnoughUniqueValues (data : list ExcelData) (columnName : string)
    : bool :=
  10 <=? uniqueCount data columnName.

(** [allColumns.slice(3).filter(col => !shouldSkipColumn(col) &&
    hasEnoughUniqueValues(jsonData, col))] *)
Definition remainingColumns (allColumns : list string)
    (jsonData : list ExcelData) : list string :=
  List.filter (fun col => negb (shouldSkipColumn col)
                          && hasEnoughUniqueValues jsonData col)
    (afterThree allColumns).

(** A value that [hasEnoughUniqueValues] counts for a column: a non-empty
    string that is the normalized value of some row whose raw value passes
    the row filter. *)
Definition countedValue (data : list ExcelData) (columnName : string)
    (v : string) : Prop :=
  v <> "" /\
  exists row : ExcelData,
    In row data /\ is_answer (row !! columnName) = true
    /\ v = normalize (row !! columnName).

(** The count as the specification words it (4.1, rule 2): discard the rows
    whose value is empty or the sentinel, then count the distinct trimmed,
    stringified values.  It differs from [uniqueCount] on answers of white
    space only. *)
Definition claimedDistinctCount (data : list ExcelData) (columnName : string)
    : nat :=
  length (remove_dups
    (map (fun row : ExcelData => normalize (row !! columnName))
       (List.filter (fun row : ExcelData => is_answer (row !! columnName)) data))).

(** *** Row Projector *)

Definition tableData (firstThreeColumns : list string) (column : string)
    (jsonData : list ExcelData) : list ExcelData :=
  imap (fun index row => newRow firstThreeColumns column row index)
    (List.filter (fun row : ExcelData => is_answer (row !! column)) jsonData).

(** One table per remaining column.  [allColumns] is
    [Object.keys(jsonData[0])], the keys of the first row in the order of the
    engine: the headers that are canonical array indices come first, in
    ascending order, then the other headers in the order of the sheet.  A
    [gmap] does not record an order of its keys, so this list is given with
    the rows. *)
Definition buildTable (firstThreeColumns : list string)
    (jsonData : list ExcelData) (column : string) : ProcessedTable :=
  let td := tableData firstThreeColumns column jsonData in
  {| name := tableName column (length td);
     data := td;
     columns := tableColumns firstThreeColumns column;
     analysis := None;
     isAnalyzing := false;
     commonTopics := [];
     isAnalyzingTopics := false;
     topicsAnalysis := None;
     topicsApiStatus := None;
     topicsApiMessage := None;
     analysisApiStatus := None;
     analysisApiMessage := None |}.

(** [processExcelFile] after the sheet is read: an empty sheet leaves the
    tables as they are ([None]), otherwise the tables are replaced. *)
Definition processExcelFile (allColumns : list string)
    (jsonData : list ExcelData) : option (list ProcessedTable) :=
  match jsonData with
  | [] => None
  | _ => Some (map (buildTable (firstThree allColumns) jsonData)
                   (remainingColumns allColumns jsonData))
  end.

(** *** Component state and the effects of a handler *)

(** The variable part of each prompt; the persona and the output template
    around it are constant text. *)
Record batch_item : Type := {
  userInfo : string;              (* 用户信息 *)
  questionContent : option cell   (* 问题内容 *)
}.

Record analysis_item : Type := {
  a_userInfo : string;            (* 用户信息 *)
  a_questionContent : option cell;(* 问题内容 *)
  a_topicAnalysis : option cell   (* 共性内容分析 *)
}.

Inductive request : Type :=
| BatchRequest (batchData : list batch_item)
| SummaryRequest (batchResults : list (option string))
| TopicRequest (columnName : string) (content : string) (topics : list string)
| TopicsSummaryRequest (topics : list string) (analysisData : list analysis_item).

Inductive toast : Type :=
| ToastSuccess (text : string)
| ToastError (text : string).

(** [tables] and [commonTopicsInput] are the React state; [calls] is the
    list of requests sent to the backend, oldest first; [toasts] the
    [message.*] pop-ups.  [batchResults] is the local array of a running
    [handleAnalyze]: it lives here because a [push] made inside a [try] block
    is kept when the block throws.  [events] is the log of the network:
    which request was sent and which answer was awaited, in time order. *)
Record world : Type := mkWorld {
  tables : list ProcessedTable;
  commonTopicsInput : string;
  calls : list request;
  toasts : list toast;
  batchResults : list (option string);
  events : list event
}.

Abbreviation M := (M world).

Definition getTables : M (list ProcessedTable) := fun w => (Ok (tables w), w).

(** [setTables(prev => f(prev))] *)
Definition setTables (f : list ProcessedTable -> list ProcessedTable) : M unit :=
  fun w => (Ok tt, mkWorld (f (tables w)) (commonTopicsInput w) (calls w)
                     (toasts w) (batchResults w) (events w)).

Definition getCommonTopicsInput : M string :=
  fun w => (Ok (commonTopicsInput w), w).

Definition setCommonTopicsInput (s : string) : M unit :=
  fun w => (Ok tt, mkWorld (tables w) s (calls w) (toasts w) (batchResults w)
                     (events w)).

Definition message_toast (t : toast) : M unit :=
  fun w => (Ok tt, mkWorld (tables w) (commonTopicsInput w) (calls w)
                     (toasts w ++ [t]) (batchResults w) (events w)).

Definition getBatchResults : M (list (option string)) :=
  fun w => (Ok (batchResults w), w).

Definition newBatchResults : M unit :=
  fun w => (Ok tt, mkWorld (tables w) (commonTopicsInput w) (calls w)
                     (toasts w) [] (events w)).

Definition pushBatchResult (r : option string) : M unit :=
  fun w => (Ok tt, mkWorld (tables w) (commonTopicsInput w) (calls w)
                     (toasts w) (batchResults w ++ [r]) (events w)).

(** [prev.map((t, i) => i === index ? f(t) : t)] *)
Definition updateAt (index : nat) (f : ProcessedTable -> ProcessedTable)
    (prev : list ProcessedTable) : list ProcessedTable :=
  imap (fun i t => if bool_decide (i = index) then f t else t) prev.

(** Object spreads [{...t, field: v}]. *)
Definition set_data (v : list ExcelData) (t : ProcessedTable) : ProcessedTable :=
  mkTable (name t) v (columns t) (analysis t) (isAnalyzing t) (commonTopics t)
    (isAnalyzingTopics t) (topicsAnalysis t) (topicsApiStatus t)
    (topicsApiMessage t) (analysisApiStatus t) (analysisApiMessage t).
Definition set_analysis (v : option string) (t : ProcessedTable) : ProcessedTable :=
  mkTable (name t) (data t) (columns t) v (isAnalyzing t) (commonTopics t)
    (isAnalyzingTopics t) (topicsAnalysis t) (topicsApiStatus t)
    (topicsApiMessage t) (analysisApiStatus t) (analysisApiMessage t).
Definition set_isAnalyzing (v : bool) (t : ProcessedTable) : ProcessedTable :=
  mkTable (name t) (data t) (columns t) (analysis t) v (commonTopics t)
    (isAnalyzingTopics t) (topicsAnalysis t) (topicsApiStatus t)
    (topicsApiMessage t) (analysisApiStatus t) (analysisApiMessage t).
Definition set_commonTopics (v : list string) (t : ProcessedTable) : ProcessedTable :=
  mkTable (name t) (data t) (columns t) (analysis t) (isAnalyzing t) v
    (isAnalyzingTopics t) (topicsAnalysis t) (topicsApiStatus t)
    (topicsApiMessage t) (analysisApiStatus t) (analysisApiMessage t).
Definition set_isAnalyzingTopics (v : bool) (t : ProcessedTable) : ProcessedTable :=
  mkTable (name t) (data t) (columns t) (analysis t) (isAnalyzing t)
    (commonTopics t) v (topicsAnalysis t) (topicsApiStatus t)
    (topicsApiMessage t) (analysisApiStatus t) (analysisApiMessage t).
Definition set_topicsAnalysis (v : option string) (t : ProcessedTable) : ProcessedTable :=
  mkTable (name t) (data t) (columns t) (analysis t) (isAnalyzing t)
    (commonTopics t) (isAnalyzingTopics t) v (topicsApiStatus t)
    (topicsApiMessage t) (analysisApiStatus t) (analysisApiMessage t).
Definition set_topicsApiStatus (v : option api_status) (t : ProcessedTable) : ProcessedTable :=
  mkTable (name t) (data t) (columns t) (analysis t) (isAnalyzing t)
    (commonTopics t) (isAnalyzingTopics t) (topicsAnalysis t) v
    (topicsApiMessage t) (analysisApiStatus t) (analysisApiMessage t).
Definition set_topicsApiMessage (v : option string) (t : ProcessedTable) : ProcessedTable :=
  mkTable (name t) (data t) (columns t) (analysis t) (isAnalyzing t)
    (commonTopics t) (isAnalyzingTopics t) (topicsAnalysis t)
    (topicsApiStatus t) v (analysisApiStatus t) (analysisApiMessage t).
Definition set_analysisApiStatus (v : option api_status) (t : ProcessedTable) : ProcessedTable :=
  mkTable (name t) (data t) (columns t) (analysis t) (isAnalyzing t)
    (commonTopics t) (isAnalyzingTopics t) (topicsAnalysis t)
    (topicsApiStatus t) (topicsApiMessage t) v (analysisApiMessage t).
Definition set_analysisApiMessage (v : option string) (t : ProcessedTable) : ProcessedTable :=
  mkTable (name t) (data t) (columns t) (analysis t) (isAnalyzing t)
    (commonTopics t) (isAnalyzingTopics t) (topicsAnalysis t)
    (topicsApiStatus t) (topicsApiMessage t) (analysisApiStatus t) v.

(** *** The backend as the handlers reach it *)

Section Handlers.

(** The outcome of the n-th request of the session, counted from 0. *)
Variable backend : nat -> http_outcome.

Record Response : Type := {
  ok : bool;
  status : Z;
  statusText : string;
  resp_payload : option body
}.

(** The call [fetch(url, ...)] or [axios.post(url, ...)] itself: the
    request is sent and the call returns its promise at once.  The promise
    is the number of the request. *)
Definition send (req : request) : M nat :=
  fun w => (Ok (length (calls w)),
            mkWorld (tables w) (commonTopicsInput w) (calls w ++ [req])
              (toasts w) (batchResults w)
              (events w ++ [Sent (length (calls w))])).

(** [await promise]: the handler stops until the exchange is over. *)
Definition await (promise : nat) : M http_outcome :=
  fun w => (Ok (backend promise),
            mkWorld (tables w) (commonTopicsInput w) (calls w) (toasts w)
              (batchResults w) (events w ++ [Answered promise])).

(** The store after a request was sent and its answer awaited. *)
Definition log_call (req : request) (w : world) : world :=
  mkWorld (tables w) (commonTopicsInput w) (calls w ++ [req]) (toasts w)
    (batchResults w)
    (events w ++ [Sent (length (calls w)); Answered (length (calls w))]).

(** [await fetch(url, {method: 'POST', ...})]: rejects when the exchange
    fails, resolves with any status otherwise. *)
Definition fetch (req : request) : M Response :=
  let! promise := send req in
  let! outcome := await promise in
  match outcome with
  | NetworkError msg => throw (Error msg)
  | HttpResponse st txt p =>
      ret {| ok := status_ok st; status := st; statusText := txt;
             resp_payload := p |}
  end.

(** [await response.json()].  The text thrown for a body that cannot be
    decoded stands for the message of the engine's [SyntaxError], which
    depends on the body and on the engine. *)
Definition json (r : Response) : M body :=
  match resp_payload r with
  | Some b => ret b
  | None => throw (Error "Unexpected token in JSON")
  end.

(** [await axios.post(url, data, config)]: rejects on a failed exchange and
    on a status outside 2xx; resolves with [response.data]. *)
Definition axios_post (req : request) : M (option body) :=
  let! promise := send req in
  let! outcome := await promise in
  match outcome with
  | NetworkError msg => throw (mk_error msg true None None)
  | HttpResponse st txt p =>
      if status_ok st then ret p
      else throw (mk_error ("Request failed with status code " +:+ pretty st)
                    true (Some st) (p ≫= error_message))
  end.

(** [row[columnName] || row[currentTable.name] || ''] *)
Definition rowContent (currentTable : ProcessedTable) (row : ExcelData)
    : option cell :=
  js_or (js_or (row !! columnNameOf (name currentTable))
               (row !! name currentTable))
        (Some (CStr "")).

(** [`${row['姓名'] || ''}-${row['系统号'] || ''}`] *)
Definition rowUserInfo (row : ExcelData) : string :=
  ToString (js_or (row !! "姓名") (Some (CStr ""))) +:+ "-"
  +:+ ToString (js_or (row !! "系统号") (Some (CStr ""))).

(** *** handleAnalyze *)

(** The body of the batch loop. *)
Definition analyzeBatch (index : nat) (currentTable : ProcessedTable)
    (nbatches : nat) (batchIndex : nat) (batch : list ExcelData) : M unit :=
  do! setTables (updateAt index (set_analysisApiMessage
        (Some ("正在处理第" +:+ pretty (batchIndex + 1) +:+ "/"
               +:+ pretty nbatches +:+ "批数据...")))) in
  let batchData :=
    map (fun row => {| userInfo := rowUserInfo row;
                       questionContent := rowContent currentTable row |}) batch in
  try_catch
    (let! response := fetch (BatchRequest batchData) in
     if negb (ok response) then
       throw (Error ("批次" +:+ pretty (batchIndex + 1) +:+ "API请求失败: "
                     +:+ pretty (status response) +:+ " " +:+ statusText response))
     else
       let! result := json response in
       match first_message result with
       | None =>
           throw (Error ("批次" +:+ pretty (batchIndex + 1) +:+ "API返回数据格式错误"))
       | Some msg =>
           do! pushBatchResult (content msg) in
           (* console.log(`... ${result.choices[0].message.content.length}`) *)
           match content msg with
           | Some _ => ret tt
           | None =>
               throw (Error "Cannot read properties of undefined (reading 'length')")
           end
       end)
    (fun batchError =>
       pushBatchResult
         (Some ("批次" +:+ pretty (batchIndex + 1) +:+ "分析失败: "
                +:+ err_message batchError))).

Definition handleAnalyze (index : nat) : M unit :=
  let! tables := getTables in
  match tables !! index with
  | None =>
      throw (Error "Cannot read properties of undefined (reading 'isAnalyzing')")
  | Some currentTable =>
      if isAnalyzing currentTable then ret tt else
      do! setTables (updateAt index (fun table =>
            set_analysisApiMessage (Some "正在进行整体分析...")
              (set_analysisApiStatus (Some analyzing)
                 (set_isAnalyzing true table)))) in
      try_catch
        (let batches := createBatches (data currentTable) in
         do! setTables (updateAt index (set_analysisApiMessage
               (Some ("开始批量处理，共" +:+ pretty (length batches) +:+ "批，每批最多"
                      +:+ pretty BATCH_SIZE +:+ "条数据")))) in
         do! newBatchResults in
         do! forM_from 0 batches
               (analyzeBatch index currentTable (length batches)) in
         do! setTables (updateAt index (set_analysisApiMessage
               (Some "批量处理完成，正在进行最终汇总..."))) in
         let! batchResults := getBatchResults in
         let! finalResponse := fetch (SummaryRequest batchResults) in
         if negb (ok finalResponse) then
           throw (Error ("最终汇总API请求失败: " +:+ pretty (status finalResponse)
                         +:+ " " +:+ statusText finalResponse))
         else
           let! finalResult := json finalResponse in
           match first_message finalResult with
           | None => throw (Error "最终汇总API返回数据格式错误")
           | Some msg =>
               match content msg with
               | None =>
                   (* console.log(..., analysisResult.length) *)
                   throw (Error "Cannot read properties of undefined (reading 'length')")
               | Some analysisResult =>
                   do! setTables (updateAt index (fun table =>
                         set_analysisApiMessage (Some "整体分析完成！")
                           (set_analysisApiStatus (Some success)
                              (set_analysis (Some analysisResult)
                                 (set_isAnalyzing false table))))) in
                   message_toast (ToastSuccess "整体分析完成！")
               end
           end)
        (fun error_ =>
           do! setTables (updateAt index (fun table =>
                 set_analysisApiMessage
                   (Some ("分析失败: " +:+ err_message error_))
                   (set_analysisApiStatus (Some error)
                      (set_isAnalyzing false table)))) in
           message_toast (ToastError "整体分析失败，请重试"))
  end.

(** The "整体分析" button: [disabled={table.isAnalyzing || !!table.analysis}];
    a disabled button does not call [onClick]. *)
Definition analyzeDisabled (table : ProcessedTable) : bool :=
  isAnalyzing table
  || match analysis table with
     | Some s => negb (bool_decide (s = ""))
     | None => false
     end.

Definition clickAnalyze (index : nat) : M unit :=
  let! tables := getTables in
  match tables !! index with
  | None => ret tt
  | Some table =>
      if analyzeDisabled table then ret tt else handleAnalyze index
  end.

(** *** analyzeTopicWithDeepSeek and handleTopicsAnalysis *)

(** [value] is the argument [content], declared a string; a numeric cell
    reaches the function unchanged, and [content.trim] is then not a
    function. *)
Definition analyzeTopicWithDeepSeek (value : option cell)
    (topics : list string) (columnName : string) : M string :=
  try_catch
    (if negb (truthy value) then ret "内容为空" else
     match value with
     | Some (CStr text) =>
         if bool_decide (trim text = "") then ret "内容为空" else
         let! data := axios_post (TopicRequest columnName text topics) in
         match reply_content data with
         | Some answer =>
             if bool_decide (answer = "") then throw (Error "API返回数据格式错误")
             else ret answer
         | None => throw (Error "API返回数据格式错误")
         end
     | _ => throw (Error "content.trim is not a function")
     end)
    (fun error_ =>
       if bool_decide (err_status error_ = Some 401%Z) then
         throw (Error "API认证失败，请检查API密钥")
       else if bool_decide (err_status error_ = Some 429%Z) then
         throw (Error "API请求过于频繁，请稍后重试")
       else throw (Error ("分析失败: " +:+ err_message error_))).

(** [newData[globalIndex] = { ...newData[globalIndex], 共性内容分析: v }] on a
    copy of the array.  Past the end JavaScript extends the array; the holes
    it leaves are empty objects here. *)
Definition annotate (globalIndex : nat) (v : string) (d : list ExcelData)
    : list ExcelData :=
  match d !! globalIndex with
  | Some row => <[ globalIndex := <[ "共性内容分析" := CStr v ]> row ]> d
  | None =>
      d ++ replicate (globalIndex - length d) (∅ : ExcelData)
        ++ [ ({[ "共性内容分析" := CStr v ]} : ExcelData) ]
  end.

(** The body of the row loop. *)
Definition classifyRow (index : nat) (currentTable : ProcessedTable)
    (topics : list string) (batchIndex batchLength : nat)
    (rowIndex : nat) (row : ExcelData) : M unit :=
  let globalIndex := batchIndex * BATCH_SIZE + rowIndex in
  let content := rowContent currentTable row in
  if truthy content then
    try_catch
      (let! result := analyzeTopicWithDeepSeek content topics
                        (columnNameOf (name currentTable)) in
       do! setTables (updateAt index (fun t =>
             set_data (annotate globalIndex result (data t)) t)) in
       if (rowIndex + 1) mod 5 =? 0 then
         setTables (updateAt index (set_topicsApiMessage
           (Some ("第" +:+ pretty (batchIndex + 1) +:+ "批：已处理"
                  +:+ pretty (rowIndex + 1) +:+ "/" +:+ pretty batchLength
                  +:+ "行数据"))))
       else ret tt)
      (fun error_ =>
         setTables (updateAt index (fun t =>
           set_data (annotate globalIndex "分析失败" (data t)) t)))
  else ret tt.

Definition classifyBatch (index : nat) (currentTable : ProcessedTable)
    (topics : list string) (nbatches : nat)
    (batchIndex : nat) (batch : list ExcelData) : M unit :=
  do! setTables (updateAt index (set_topicsApiMessage
        (Some ("正在处理第" +:+ pretty (batchIndex + 1) +:+ "/"
               +:+ pretty nbatches +:+ "批数据...")))) in
  forM_from 0 batch
    (classifyRow index currentTable topics batchIndex (length batch)).

(** The payload of the closing request, read from [currentTable]: the table
    as it was when the handler was called. *)
Definition analysisDataOf (currentTable : ProcessedTable) : list analysis_item :=
  map (fun row : ExcelData =>
         {| a_userInfo := rowUserInfo row;
            a_questionContent := rowContent currentTable row;
            a_topicAnalysis := js_or (row !! "共性内容分析") (Some (CStr "")) |})
      (data currentTable).

Definition handleTopicsAnalysis (index : nat) : M unit :=
  let! tables := getTables in
  match tables !! index with
  | None =>
      throw (Error "Cannot read properties of undefined (reading 'isAnalyzingTopics')")
  | Some currentTable =>
      if isAnalyzingTopics currentTable then ret tt else
      let! input := getCommonTopicsInput in
      let topics :=
        List.filter (fun topic => negb (bool_decide (trim topic = "")))
          (split_topics input) in
      if bool_decide (length topics = 0) then
        message_toast (ToastError "请输入至少一个共性内容")
      else
      do! setTables (updateAt index (fun table =>
            set_topicsApiMessage (Some "正在进行共性内容分析...")
              (set_topicsApiStatus (Some analyzing)
                 (set_commonTopics topics
                    (set_isAnalyzingTopics true table))))) in
      try_catch
        (let batches := createBatches (data currentTable) in
         do! setTables (updateAt index (set_topicsApiMessage
               (Some ("开始批量处理，共" +:+ pretty (length batches) +:+ "批，每批最多"
                      +:+ pretty BATCH_SIZE +:+ "条数据")))) in
         do! forM_from 0 batches
               (classifyBatch index currentTable topics (length batches)) in
         do! setTables (updateAt index (set_topicsApiMessage
               (Some "数据处理完成，正在进行汇总分析..."))) in
         (* tables.map((t, i) => i === index ? { ...t, data: currentTable.data } : t)[index] *)
         let updatedTable := set_data (data currentTable) currentTable in
         let analysisData := analysisDataOf updatedTable in
         let! response := fetch (TopicsSummaryRequest topics analysisData) in
         if negb (ok response) then
           throw (Error ("API请求失败: " +:+ pretty (status response) +:+ " "
                         +:+ statusText response))
         else
           let! result := json response in
           match first_message result with
           | None => throw (Error "API返回数据格式错误")
           | Some msg =>
               let analysisResult := content msg in
               do! setTables (updateAt index (fun table =>
                     set_topicsApiMessage (Some "共性内容分析完成！")
                       (set_topicsApiStatus (Some success)
                          (set_topicsAnalysis analysisResult
                             (set_isAnalyzingTopics false table))))) in
               do! message_toast (ToastSuccess "共性内容分析完成！") in
               setCommonTopicsInput ""
           end)
        (fun error_ =>
           do! setTables (updateAt index (fun table =>
                 set_topicsApiMessage
                   (Some ("分析失败: " +:+ err_message error_))
                   (set_topicsApiStatus (Some error)
                      (set_isAnalyzingTopics false table)))) in
           message_toast (ToastError "共性内容分析失败，请重试"))
  end.

End Handlers.

End Later.

(* ================================================================== *)
(** ** The first iteration *)
(* ================================================================== *)

Module Earlier.

Record ProcessedTable : Type := mkTable {
  name : string;
  data : list ExcelData;
  columns : list column_def;
  analysis : option string;
  isAnalyzing : bool;
  commonTopics : list string;
  isAnalyzingTopics : bool
}.

(** *** Column Selector *)

(** [columnName.replace(/[单多]选/, '')]: the leftmost match is removed. *)
Fixpoint remove_choice_mark (s : string) : string :=
  if String.prefix "单选" s || String.prefix "多选" s
  then string_drop (String.length "单选") s
  else match s with
       | EmptyString => EmptyString
       | String a r => String a (remove_choice_mark r)
       end.

(** Blacklist policy.  [/ucid/i] folds the letters A..Z only. *)
Definition shouldSkipColumn (columnName : string) : bool :=
  let skipPatterns :=
    [ includes "单选"; includes "多选"; includes "开始时间"; includes "结束时间";
      includes "组织编码"; includes "组织信息";
      (fun s => includes "ucid" (toLowerCase s));
      includes "岗位名称"; includes "公司所在城市"; includes "工作所在城市";
      includes "品牌"; includes "门店信息"; includes "条线"; includes "所属组织" ] in
  if (includes "单选" columnName || includes "多选" columnName)
     && bool_decide (trim (remove_choice_mark columnName) = "")
  then true
  else existsb (fun pattern => pattern columnName) skipPatterns.

(** [Array.from(new Set(nonEmptyValues)).length > 10]: the values are
    compared as they are, a number and its text being different. *)
Definition hasEnoughUniqueValues (data : list ExcelData) (columnName : string)
    : bool :=
  let nonEmptyValues :=
    List.filter is_nonempty (map (fun row : ExcelData => row !! columnName) data) in
  let uniqueValues := remove_dups nonEmptyValues in
  10 <? length uniqueValues.

Definition remainingColumns (allColumns : list string)
    (jsonData : list ExcelData) : list string :=
  List.filter (fun col => negb (shouldSkipColumn col)
                          && hasEnoughUniqueValues jsonData col)
    (afterThree allColumns).

(** A value that [hasEnoughUniqueValues] counts for a column: the value of
    some row as the sheet has it, neither missing nor the empty string.  A
    text is not trimmed, and the sentinel and a text of white space are
    values like any other. *)
Definition countedValue (data : list ExcelData) (columnName : string)
    (v : option cell) : Prop :=
  is_nonempty v = true /\
  exists row : ExcelData, In row data /\ v = row !! columnName.

(** *** Row Projector *)

Definition tableData (firstThreeColumns : list string) (column : string)
    (jsonData : list ExcelData) : list ExcelData :=
  imap (fun index row => newRow firstThreeColumns column row index)
    (List.filter (fun row : ExcelData => is_nonempty (row !! column)) jsonData).

(** *** Component state *)

Inductive status_type : Type := info | success | error | blank.

(** The text of the banner.  [Finished] is [`分析完成！用时：${duration}秒`], whose
    duration is read off the clock. *)
Inductive status_text : Type :=
| Text (s : string)
| Finished.

Inductive request : Type :=
| AnalysisRequest (columnName : string) (data : list ExcelData).

Inductive toast : Type :=
| ToastInfo (text : string)
| ToastError (text : string).

Record world : Type := mkWorld {
  processedTables : list ProcessedTable;
  apiStatus : status_text * status_type;
  calls : list request;
  toasts : list toast
}.

Abbreviation M := (M world).

Definition getProcessedTables : M (list ProcessedTable) :=
  fun w => (Ok (processedTables w), w).

(** [setProcessedTables(tables)] *)
Definition setProcessedTables (v : list ProcessedTable) : M unit :=
  fun w => (Ok tt, mkWorld v (apiStatus w) (calls w) (toasts w)).

Definition setApiStatus (text : status_text) (type : status_type) : M unit :=
  fun w => (Ok tt, mkWorld (processedTables w) (text, type) (calls w) (toasts w)).

Definition message_toast (t : toast) : M unit :=
  fun w => (Ok tt, mkWorld (processedTables w) (apiStatus w) (calls w)
                     (toasts w ++ [t])).

Definition set_isAnalyzing (v : bool) (t : ProcessedTable) : ProcessedTable :=
  mkTable (name t) (data t) (columns t) (analysis t) v (commonTopics t)
    (isAnalyzingTopics t).

Definition set_analysis (v : option string) (t : ProcessedTable) : ProcessedTable :=
  mkTable (name t) (data t) (columns t) v (isAnalyzing t) (commonTopics t)
    (isAnalyzingTopics t).

(** [!!table.analysis] *)
Definition has_analysis (t : ProcessedTable) : bool :=
  match analysis t with
  | Some s => negb (bool_decide (s = ""))
  | None => false
  end.

Section Handlers.

Variable backend : nat -> http_outcome.

Definition log_call (req : request) (w : world) : world :=
  mkWorld (processedTables w) (apiStatus w) (calls w ++ [req]) (toasts w).

(** [await axios.post(url, data, config)] *)
Definition axios_post (req : request) : M (option body) :=
  fun w =>
    match backend (length (calls w)) with
    | NetworkError msg => (Thrown (mk_error msg true None None), log_call req w)
    | HttpResponse st txt p =>
        if status_ok st then (Ok p, log_call req w)
        else (Thrown (mk_error ("Request failed with status code " +:+ pretty st)
                        true (Some st) (p ≫= error_message)),
              log_call req w)
    end.

Definition analyzeDataWithDeepSeek (data : list ExcelData)
    (columnName : string) : M string :=
  try_catch
    (do! setApiStatus (Text ("开始分析列: " +:+ columnName)) info in
     do! setApiStatus (Text "正在调用 API，请稍候...") info in
     let! response_data := axios_post (AnalysisRequest columnName data) in
     do! setApiStatus Finished success in
     match reply_content response_data with
     | Some result_ =>
         if bool_decide (result_ = "") then
           do! setApiStatus (Text "未获取到有效的分析结果") error in
           ret "无分析结果"
         else ret result_
     | None =>
         do! setApiStatus (Text "未获取到有效的分析结果") error in
         ret "无分析结果"
     end)
    (fun error_ =>
       let errorMessage :=
         if err_is_axios error_ then
           match err_server_message error_ with
           | Some m => if bool_decide (m = "") then err_message error_ else m
           | None => err_message error_
           end
         else "未知错误" in
       do! setApiStatus (Text ("API调用失败: " +:+ errorMessage)) error in
       ret "数据分析失败，请稍后重试").

Definition handleAnalyze (index : nat) : M unit :=
  let! tables := getProcessedTables in
  match tables !! index with
  | None =>
      throw (Error "Cannot read properties of undefined (reading 'isAnalyzing')")
  | Some table0 =>
      if isAnalyzing table0 || has_analysis table0 then
        message_toast (ToastInfo "该数据已经分析过了")
      else
        (* table.isAnalyzing = true writes the element of the copied array *)
        let table := set_isAnalyzing true table0 in
        let tables := <[ index := table ]> tables in
        do! setProcessedTables tables in
        try_catch
          (match last (columns table) with
           | None =>
               throw (Error "Cannot read properties of undefined (reading 'title')")
           | Some lastColumn =>
               let columnName := title lastColumn in
               let! analysis := analyzeDataWithDeepSeek (data table) columnName in
               setProcessedTables
                 (<[ index := set_isAnalyzing false (set_analysis (Some analysis) table) ]>
                    tables)
           end)
          (fun error_ =>
             do! message_toast (ToastError "分析失败，请重试") in
             setProcessedTables (<[ index := set_isAnalyzing false table ]> tables))
  end.

End Handlers.

(** What [analyzeDataWithDeepSeek] resolves with: the text of the answer, or
    one of its two fallback strings. *)
Definition analysisText (o : http_outcome) : string :=
  match o with
  | NetworkError _ => "数据分析失败，请稍后重试"
  | HttpResponse st _ p =>
      if status_ok st then
        match reply_content p with
        | Some text => if bool_decide (text = "") then "无分析结果" else text
        | None => "无分析结果"
        end
      else "数据分析失败，请稍后重试"
  end.

End Earlier.

(* ================================================================== *)
(** ** What the handlers make of an exchange *)
(* ================================================================== *)

(** The checks that follow a [fetch]: [!response.ok], [response.json()] and
    the test on [choices[0].message].  The result is the message of the
    error thrown, or the [message] object.  [httpError] puts the handler's
    words before the status and its text.  For a body that cannot be
    decoded the message is the one [json] throws, which stands for the
    engine's. *)
Definition checkedMessage (httpError : string -> string) (formatError : string)
    (o : http_outcome)
    : string + chat_message :=
  match o with
  | NetworkError msg => inl msg
  | HttpResponse st txt p =>
      if status_ok st then
        match p with
        | None => inl "Unexpected token in JSON"
        | Some b =>
            match first_message b with
            | None => inl formatError
            | Some m => inr m
            end
        end
      else inl (httpError (pretty st +:+ " " +:+ txt))
  end.

(** The request of the reduce step fails: the exchange breaks, the status
    is outside 2xx, the body cannot be decoded or it has no
    [choices[0].message]. *)
Definition exchangeFails (o : http_outcome) : Prop :=
  match o with
  | NetworkError _ => True
  | HttpResponse st _ p =>
      status_ok st = false
      \/ match p with
         | None => True
         | Some b => first_message b = None
         end
  end.

(** The exchange carries a text: status 2xx and a string at
    [choices[0].message.content]. *)
Definition exchangeText (o : http_outcome) : option string :=
  match o with
  | NetworkError _ => None
  | HttpResponse st _ p => if status_ok st then reply_content p else None
  end.

Module LaterSpec.
Import Later.

(** The events of [n] requests of which each is awaited before the next is
    sent, the first being request [first]. *)
Definition awaited (first n : nat) : list event :=
  flat_map (fun id => [Sent id; Answered id]) (seq first n).

(** [`批次${batchIndex + 1}分析失败: ${message}`] *)
Definition placeholder (batchIndex : nat) (msg : string) : string :=
  "批次" +:+ pretty (batchIndex + 1) +:+ "分析失败: " +:+ msg.

(** The entry that stands for batch [batchIndex] when its exchange [o] gives
    a text or fails one of the checks of the handler: the text, or the
    placeholder with the message of the error.  For a body that cannot be
    decoded the message is the engine's and is left open. *)
Definition absorbedEntry (batchIndex : nat) (o : http_outcome) (entry : string)
    : Prop :=
  match o with
  | NetworkError msg => entry = placeholder batchIndex msg
  | HttpResponse st txt p =>
      if status_ok st then
        match p with
        | None => exists msg, entry = placeholder batchIndex msg
        | Some b =>
            match first_message b with
            | None =>
                entry = placeholder batchIndex
                          ("批次" +:+ pretty (batchIndex + 1) +:+ "API返回数据格式错误")
            | Some m => content m = Some entry
            end
        end
      else
        entry = placeholder batchIndex
                  ("批次" +:+ pretty (batchIndex + 1) +:+ "API请求失败: "
                   +:+ pretty st +:+ " " +:+ txt)
  end.

Definition batchChecked (batchIndex : nat) (o : http_outcome)
    : string + chat_message :=
  checkedMessage
    (fun tail => "批次" +:+ pretty (batchIndex + 1) +:+ "API请求失败: " +:+ tail)
                 ("批次" +:+ pretty (batchIndex + 1) +:+ "API返回数据格式错误") o.

(** What one batch adds to [batchResults].  A [message] without [content]
    has it [undefined], and the error of [content.length] is worded for
    that. *)
Definition batchEntries (batchIndex : nat) (o : http_outcome)
    : list (option string) :=
  match batchChecked batchIndex o with
  | inl msg => [Some (placeholder batchIndex msg)]
  | inr m =>
      match content m with
      | Some text => [Some text]
      | None =>
          [None;
           Some (placeholder batchIndex
                   "Cannot read properties of undefined (reading 'length')")]
      end
  end.

Definition batchRequest (currentTable : ProcessedTable)
    (batch : list ExcelData) : request :=
  BatchRequest
    (map (fun row => {| userInfo := rowUserInfo row;
                        questionContent := rowContent currentTable row |}) batch).

(** The entries of all batches, the first batch being request [first]. *)
Definition allEntries (backend : nat -> http_outcome) (first : nat)
    (batches : list (list ExcelData)) : list (option string) :=
  concat (imap (fun j _ => batchEntries j (backend (first + j))) batches).

(** What the closing exchange of [handleAnalyze] gives: the error message
    or the summary. *)
Definition summaryChecked (o : http_outcome) : string + string :=
  match checkedMessage (fun tail => "最终汇总API请求失败: " +:+ tail)
          "最终汇总API返回数据格式错误" o with
  | inl msg => inl msg
  | inr m =>
      match content m with
      | Some text => inr text
      | None => inl "Cannot read properties of undefined (reading 'length')"
      end
  end.

Definition analysisDone (v : string + string) (table : ProcessedTable)
    : ProcessedTable :=
  match v with
  | inr analysisResult =>
      set_analysisApiMessage (Some "整体分析完成！")
        (set_analysisApiStatus (Some success)
           (set_analysis (Some analysisResult) (set_isAnalyzing false table)))
  | inl msg =>
      set_analysisApiMessage (Some ("分析失败: " +:+ msg))
        (set_analysisApiStatus (Some error) (set_isAnalyzing false table))
  end.

Definition analysisToast (v : string + string) : toast :=
  match v with
  | inr _ => ToastSuccess "整体分析完成！"
  | inl _ => ToastError "整体分析失败，请重试"
  end.

(** The request [classifyRow] sends for a row, if any: none for a row
    whose content is falsy, of white space only or a number. *)
Definition rowRequest (currentTable : ProcessedTable) (topics : list string)
    (row : ExcelData) : list request :=
  match rowContent currentTable row with
  | Some (CStr text) =>
      if bool_decide (text = "") then []
      else if bool_decide (trim text = "") then []
      else [TopicRequest (columnNameOf (name currentTable)) text topics]
  | _ => []
  end.

(** The text of a successful classification, or the failure marker. *)
Definition topicVerdict (o : http_outcome) : string :=
  match exchangeText o with
  | Some answer => if bool_decide (answer = "") then "分析失败" else answer
  | None => "分析失败"
  end.

(** What [classifyRow] writes in 共性内容分析 for a row; [None]: the row is left
    as it is. *)
Definition rowMark (currentTable : ProcessedTable) (row : ExcelData)
    (o : http_outcome) : option string :=
  match rowContent currentTable row with
  | Some (CStr text) =>
      if bool_decide (text = "") then None
      else if bool_decide (trim text = "") then Some "内容为空"
      else Some (topicVerdict o)
  | Some (CNum n) => if bool_decide (n = 0%Z) then None else Some "分析失败"
  | None => None
  end.

Definition annotateWith (globalIndex : nat) (mark : option string)
    (d : list ExcelData) : list ExcelData :=
  match mark with
  | Some v => annotate globalIndex v d
  | None => d
  end.

Definition markWith (mark : option string) (row : ExcelData) : ExcelData :=
  match mark with
  | Some v => <[ "共性内容分析" := CStr v ]> row
  | None => row
  end.

(** The array [data] after the rows [rows] were classified, the first of
    them having the global index [g] and sending request number [c]. *)
Fixpoint markRows (backend : nat -> http_outcome)
    (currentTable : ProcessedTable) (topics : list string)
    (rows : list ExcelData) (g c : nat) (d : list ExcelData) : list ExcelData :=
  match rows with
  | [] => d
  | row :: rest =>
      markRows backend currentTable topics rest (S g)
        (c + length (rowRequest currentTable topics row))
        (annotateWith g (rowMark currentTable row (backend c)) d)
  end.

Fixpoint markBatches (backend : nat -> http_outcome)
    (currentTable : ProcessedTable) (topics : list string)
    (batches : list (list ExcelData)) (j c : nat) (d : list ExcelData)
    : list ExcelData :=
  match batches with
  | [] => d
  | batch :: rest =>
      markBatches backend currentTable topics rest (S j)
        (c + length (flat_map (rowRequest currentTable topics) batch))
        (markRows backend currentTable topics batch (j * BATCH_SIZE) c d)
  end.

(** What the closing exchange of [handleTopicsAnalysis] gives: the error
    message or [choices[0].message.content]. *)
Definition topicsChecked (o : http_outcome) : string + option string :=
  match checkedMessage (fun tail => "API请求失败: " +:+ tail) "API返回数据格式错误" o with
  | inl msg => inl msg
  | inr m => inr (content m)
  end.

Definition topicsDone (v : string + option string) (table : ProcessedTable)
    : ProcessedTable :=
  match v with
  | inr analysisResult =>
      set_topicsApiMessage (Some "共性内容分析完成！")
        (set_topicsApiStatus (Some success)
           (set_topicsAnalysis analysisResult (set_isAnalyzingTopics false table)))
  | inl msg =>
      set_topicsApiMessage (Some ("分析失败: " +:+ msg))
        (set_topicsApiStatus (Some error) (set_isAnalyzingTopics false table))
  end.

Definition topicsToast (v : string + option string) : toast :=
  match v with
  | inr _ => ToastSuccess "共性内容分析完成！"
  | inl _ => ToastError "共性内容分析失败，请重试"
  end.

(** The row has an answer text: the invariant of a table built by
    [processExcelFile] from a sheet of texts. *)
Definition rowHasText (currentTable : ProcessedTable) (row : ExcelData) : bool :=
  match rowContent currentTable row with
  | Some (CStr text) => negb (bool_decide (text = ""))
  | _ => false
  end.

(** [commonTopicsInput.split(/[、,，\n]/).filter(topic => topic.trim())] *)
Definition topicsOf (input : string) : list string :=
  List.filter (fun topic => negb (bool_decide (trim topic = "")))
    (split_topics input).

(** A table update that writes [analysisApiMessage] only. *)
Definition analysisMessageOnly (F : ProcessedTable -> ProcessedTable) : Prop :=
  forall t m, set_analysisApiMessage m (F t) = set_analysisApiMessage m t.

(** A table update that writes [data] as [D] says and, at most,
    [topicsApiMessage]. *)
Definition rowsOnly (D : list ExcelData -> list ExcelData)
    (F : ProcessedTable -> ProcessedTable) : Prop :=
  forall x, exists m, F x = set_topicsApiMessage m (set_data (D (data x)) x).

End LaterSpec.

(* ================================================================== *)
(** ** The upload *)
(* ================================================================== *)

(** [s.split('.')]: the pieces between the dots; a string without a dot is
    one piece. *)
Fixpoint split_dot (s : string) : list string :=
  match s with
  | EmptyString => [""]
  | String a r =>
      if Ascii.eqb a "." then "" :: split_dot r
      else match split_dot r with
           | piece :: pieces => String a piece :: pieces
           | [] => [String a ""]
           end
  end.

(** [file.name.split('.').pop()?.toLowerCase()].  No character outside A..Z
    lowercases to a letter of "xlsx", so the comparison below gives the same
    result with the full Unicode mapping. *)
Definition fileType (name : string) : option string :=
  toLowerCase <$> last (split_dot name).

Module Upload.

(** What the callback of the reader finds in the bytes of the file:
    [XLSX.read] throws, or the rows of the first sheet come with the keys
    of the first row in their order.  A reader that fails never calls the
    callback; that case is not part of the model. *)
Inductive sheet_read : Type :=
| Unreadable
| Sheet (allColumns : list string) (jsonData : list ExcelData).

Record UploadFile : Type := {
  file_name : string;
  file_sheet : sheet_read
}.

(** The pop-ups of the upload; [Processed n] is
    [`Excel文件处理成功！共生成 ${tables.length} 个表格，...`]. *)
Inductive toast : Type :=
| NotExcel        (* message.error('请上传Excel文件！') *)
| EmptySheet      (* message.error('Excel文件为空！') *)
| ReadFailed      (* message.error('处理Excel文件时发生错误！') *)
| Processed (ntables : nat).

Record world : Type := mkWorld {
  tables : list Later.ProcessedTable;
  loading : bool;
  toasts : list toast
}.

Definition setLoading (v : bool) : M world unit :=
  fun w => (Ok tt, mkWorld (tables w) v (toasts w)).

Definition setTables (v : list Later.ProcessedTable) : M world unit :=
  fun w => (Ok tt, mkWorld v (loading w) (toasts w)).

Definition message_toast (t : toast) : M world unit :=
  fun w => (Ok tt, mkWorld (tables w) (loading w) (toasts w ++ [t])).

(** [processExcelFile] with the callback of the reader run in place. *)
Definition processExcelFile (file : sheet_read) : M world unit :=
  do! setLoading true in
  match file with
  | Unreadable =>
      (* catch, finally *)
      do! message_toast ReadFailed in
      setLoading false
  | Sheet allColumns jsonData =>
      match Later.processExcelFile allColumns jsonData with
      | None =>
          do! message_toast EmptySheet in
          do! setLoading false in
          (* return; finally *)
          setLoading false
      | Some tables =>
          do! setTables tables in
          do! message_toast (Processed (length tables)) in
          setLoading false
      end
  end.

Definition handleUpload (file : UploadFile) : M world bool :=
  let fileType := fileType (file_name file) in
  if negb (bool_decide (fileType = Some "xlsx"))
     && negb (bool_decide (fileType = Some "xls"))
  then
    do! message_toast NotExcel in
    ret false
  else
    do! processExcelFile (file_sheet file) in
    ret false.

End Upload.

(* ================================================================== *)
(** ** The first iteration: tables and the classification of one row *)
(* ================================================================== *)

Module EarlierSheet.

Definition buildTable (firstThreeColumns : list string)
    (jsonData : list ExcelData) (column : string) : Earlier.ProcessedTable :=
  let td := Earlier.tableData firstThreeColumns column jsonData in
  {| Earlier.name := tableName column (length td);
     Earlier.data := td;
     Earlier.columns := tableColumns firstThreeColumns column;
     Earlier.analysis := None;
     Earlier.isAnalyzing := false;
     Earlier.commonTopics := [];
     Earlier.isAnalyzingTopics := false |}.

(** [processExcelFile] after the sheet is read; [None] for an empty sheet. *)
Definition processExcelFile (allColumns : list string)
    (jsonData : list ExcelData) : option (list Earlier.ProcessedTable) :=
  match jsonData with
  | [] => None
  | _ => Some (map (buildTable (firstThree allColumns) jsonData)
                   (Earlier.remainingColumns allColumns jsonData))
  end.

End EarlierSheet.

Module EarlierTopics.

(** The variable part of the prompt: [${columnName}], [${content}] and
    [${topics.join('、')}]. *)
Record request : Type := {
  req_columnName : string;
  req_content : string;
  req_topics : list string
}.

(** The requests sent, oldest first. *)
Abbreviation world := (list request).

Section Handlers.

Variable backend : nat -> http_outcome.

(** [await axios.post(url, data, config)] *)
Definition axios_post (req : request) : M world (option body) :=
  fun w =>
    match backend (length w) with
    | NetworkError msg => (Thrown (mk_error msg true None None), w ++ [req])
    | HttpResponse st txt p =>
        if status_ok st then (Ok p, w ++ [req])
        else (Thrown (mk_error ("Request failed with status code " +:+ pretty st)
                        true (Some st) (p ≫= error_message)),
              w ++ [req])
    end.

(** [response.data?.choices?.[0]?.message?.content || '分析失败'], and
    ['分析失败'] again in the [catch]. *)
Definition analyzeTopicWithDeepSeek (value : option cell)
    (topics : list string) (columnName : string) : M world string :=
  try_catch
    (let! data := axios_post {| req_columnName := columnName;
                                req_content := ToString value;
                                req_topics := topics |} in
     match reply_content data with
     | Some answer => if bool_decide (answer = "") then ret "分析失败" else ret answer
     | None => ret "分析失败"
     end)
    (fun error_ => ret "分析失败").

End Handlers.

End EarlierTopics.

(* ================================================================== *)
(** ** The classification of the first iteration *)
(* ================================================================== *)

Module EarlierClassification.

(** The requests of the first iteration: the analysis of a table, and the
    classification of one answer. *)
Inductive request : Type :=
| AnalysisRequest (columnName : string) (data : list ExcelData)
| TopicRequest (req : EarlierTopics.request).

(** The state of the component, the requests sent, the pop-ups shown and
    the events of the network. *)
Record world : Type := mkWorld {
  processedTables : list Earlier.ProcessedTable;
  apiStatus : Earlier.status_text * Earlier.status_type;
  commonTopicsInput : string;
  calls : list request;
  toasts : list Earlier.toast;
  events : list event
}.

Abbreviation M := (M world).

Definition getProcessedTables : M (list Earlier.ProcessedTable) :=
  fun w => (Ok (processedTables w), w).

Definition getCommonTopicsInput : M string :=
  fun w => (Ok (commonTopicsInput w), w).

(** [setProcessedTables(tables)] *)
Definition setProcessedTables (v : list Earlier.ProcessedTable) : M unit :=
  fun w => (Ok tt, mkWorld v (apiStatus w) (commonTopicsInput w) (calls w)
                     (toasts w) (events w)).

Definition setApiStatus (text : Earlier.status_text)
    (type : Earlier.status_type) : M unit :=
  fun w => (Ok tt, mkWorld (processedTables w) (text, type)
                     (commonTopicsInput w) (calls w) (toasts w) (events w)).

Definition message_toast (t : Earlier.toast) : M unit :=
  fun w => (Ok tt, mkWorld (processedTables w) (apiStatus w)
                     (commonTopicsInput w) (calls w) (toasts w ++ [t])
                     (events w)).

Definition set_data (v : list ExcelData) (t : Earlier.ProcessedTable)
    : Earlier.ProcessedTable :=
  Earlier.mkTable (Earlier.name t) v (Earlier.columns t) (Earlier.analysis t)
    (Earlier.isAnalyzing t) (Earlier.commonTopics t)
    (Earlier.isAnalyzingTopics t).

Definition set_columns (v : list column_def) (t : Earlier.ProcessedTable)
    : Earlier.ProcessedTable :=
  Earlier.mkTable (Earlier.name t) (Earlier.data t) v (Earlier.analysis t)
    (Earlier.isAnalyzing t) (Earlier.commonTopics t)
    (Earlier.isAnalyzingTopics t).

Definition set_commonTopics (v : list string) (t : Earlier.ProcessedTable)
    : Earlier.ProcessedTable :=
  Earlier.mkTable (Earlier.name t) (Earlier.data t) (Earlier.columns t)
    (Earlier.analysis t) (Earlier.isAnalyzing t) v
    (Earlier.isAnalyzingTopics t).

Definition set_isAnalyzingTopics (v : bool) (t : Earlier.ProcessedTable)
    : Earlier.ProcessedTable :=
  Earlier.mkTable (Earlier.name t) (Earlier.data t) (Earlier.columns t)
    (Earlier.analysis t) (Earlier.isAnalyzing t) (Earlier.commonTopics t) v.

(** [input.split('、')]: the separator is U+3001, three bytes in UTF-8.
    [cur] is the piece being read, last byte first. *)
Fixpoint split_mark (s : string) (cur : string) : list string :=
  match s with
  | EmptyString => [String.rev cur]
  | String a r =>
      match r with
      | String b (String c r3) =>
          if (nat_of_ascii a =? 227) && (nat_of_ascii b =? 128)
             && (nat_of_ascii c =? 129)
          then String.rev cur :: split_mark r3 EmptyString
          else split_mark r (String a cur)
      | _ => split_mark r (String a cur)
      end
  end.

(** [commonTopicsInput.split('、').filter(t => t.trim())] *)
Definition topicsOf (input : string) : list string :=
  List.filter (fun t => negb (bool_decide (trim t = "")))
    (split_mark input EmptyString).

(** The column pushed on [newColumns]. *)
Definition topicColumn : column_def :=
  {| title := "共性内容分析"; dataIndex := "topicAnalysis";
     col_key := "topicAnalysis"; width := 200; ellipsis := Some true;
     fixed := None |}.

(** What [handleAnalyze] keeps across its [await]: the promise of the
    answer and its locals [tables] and [table]. *)
Record pending : Type := {
  promise : nat;
  pending_tables : list Earlier.ProcessedTable;
  pending_table : Earlier.ProcessedTable
}.

Section Handlers.

Variable backend : nat -> http_outcome.

(** The order in which the answers to requests that are in flight together
    reach the page: the choice of the network. *)
Variable arrival : list nat -> list nat.

(** [axios.post(...)], not yet awaited: the request leaves, and the call
    returns the promise of its answer. *)
Definition send (req : request) : M nat :=
  fun w => (Ok (length (calls w)),
            mkWorld (processedTables w) (apiStatus w) (commonTopicsInput w)
              (calls w ++ [req]) (toasts w)
              (events w ++ [Sent (length (calls w))])).

(** [await promise]: the function resumes with the answer. *)
Definition await (promise : nat) : M http_outcome :=
  fun w => (Ok (backend promise),
            mkWorld (processedTables w) (apiStatus w) (commonTopicsInput w)
              (calls w) (toasts w) (events w ++ [Answered promise])).

(** What [axios.post] makes of an exchange: it resolves with
    [response.data] for a status in 2xx and rejects otherwise. *)
Definition axios_settled (outcome : http_outcome) : M (option body) :=
  match outcome with
  | NetworkError msg => throw (mk_error msg true None None)
  | HttpResponse st txt p =>
      if status_ok st then ret p
      else throw (mk_error ("Request failed with status code " +:+ pretty st)
                    true (Some st) (p ≫= error_message))
  end.

(** *** analyzeTopicWithDeepSeek *)

(** A call of the async function [analyzeTopicWithDeepSeek] runs up to its
    [await]: the prompt is built and [axios.post] sends the request.  The
    call returns there, with the promise of the answer. *)
Definition analyzeTopicWithDeepSeek_called (value : option cell)
    (topics : list string) (columnName : string) : M nat :=
  send (TopicRequest {| EarlierTopics.req_columnName := columnName;
                        EarlierTopics.req_content := ToString value;
                        EarlierTopics.req_topics := topics |}).

(** What the call resolves with once its exchange is over:
    [response.data?.choices?.[0]?.message?.content || '分析失败'], and
    ['分析失败'] from the [catch] when [axios.post] rejects.  Nothing of the
    state is written. *)
Definition analyzeTopicWithDeepSeek_settled (outcome : http_outcome) : string :=
  match outcome with
  | NetworkError _ => "分析失败"
  | HttpResponse st _ p =>
      if status_ok st then
        match reply_content p with
        | Some answer => if bool_decide (answer = "") then "分析失败" else answer
        | None => "分析失败"
        end
      else "分析失败"
  end.

(** [table.data.map(async (row) => ...)]: the callback is called for every
    row, in row order, and each call runs up to its [await] before the next
    row is taken.  The list of the promises is returned. *)
Fixpoint map_rows (topics : list string) (columnName : string)
    (rows : list ExcelData) : M (list nat) :=
  match rows with
  | [] => ret []
  | row :: rows' =>
      let content := row !! columnName in
      let! promise := analyzeTopicWithDeepSeek_called content topics columnName in
      let! promises := map_rows topics columnName rows' in
      ret (promise :: promises)
  end.

(** [await Promise.all(promises)]: the handler resumes when the last answer
    is there.  The answers come in the order of the network; the rest of a
    callback only builds its row, [{...row, topicAnalysis: analysis}], and
    the rows are collected in the order of the promises. *)
Definition Promise_all (promises : list nat) : M (list http_outcome) :=
  fun w => (Ok (map backend promises),
            mkWorld (processedTables w) (apiStatus w) (commonTopicsInput w)
              (calls w) (toasts w)
              (events w ++ map Answered (arrival promises))).

Definition analyzedRow (row : ExcelData) (outcome : http_outcome) : ExcelData :=
  <[ "topicAnalysis" := CStr (analyzeTopicWithDeepSeek_settled outcome) ]> row.

(** *** analyzeDataWithDeepSeek and handleAnalyze, not awaited *)

(** [analyzeDataWithDeepSeek] up to [await axios.post(...)]; nothing before
    the request throws. *)
Definition analyzeDataWithDeepSeek_called (data : list ExcelData)
    (columnName : string) : M nat :=
  do! setApiStatus (Earlier.Text ("开始分析列: " +:+ columnName)) Earlier.info in
  do! setApiStatus (Earlier.Text "正在调用 API，请稍候...") Earlier.info in
  send (AnalysisRequest columnName data).

(** The rest of [analyzeDataWithDeepSeek], from the answer on. *)
Definition analyzeDataWithDeepSeek_settled (outcome : http_outcome) : M string :=
  try_catch
    (let! response_data := axios_settled outcome in
     do! setApiStatus Earlier.Finished Earlier.success in
     match reply_content response_data with
     | Some result_ =>
         if bool_decide (result_ = "") then
           do! setApiStatus (Earlier.Text "未获取到有效的分析结果") Earlier.error in
           ret "无分析结果"
         else ret result_
     | None =>
         do! setApiStatus (Earlier.Text "未获取到有效的分析结果") Earlier.error in
         ret "无分析结果"
     end)
    (fun error_ =>
       let errorMessage :=
         if err_is_axios error_ then
           match err_server_message error_ with
           | Some m => if bool_decide (m = "") then err_message error_ else m
           | None => err_message error_
           end
         else "未知错误" in
       do! setApiStatus (Earlier.Text ("API调用失败: " +:+ errorMessage))
             Earlier.error in
       ret "数据分析失败，请稍后重试").

(** [handleAnalyze(index)] as far as it runs when it is called: to its end,
    or up to [await analyzeDataWithDeepSeek(...)], which has sent the
    request by then.  [processedTables] is the array of the render the
    function was made in. *)
Definition handleAnalyze_called (processedTables : list Earlier.ProcessedTable)
    (index : nat) : M (option pending) :=
  match processedTables !! index with
  | None =>
      throw (Error "Cannot read properties of undefined (reading 'isAnalyzing')")
  | Some table0 =>
      if Earlier.isAnalyzing table0 || Earlier.has_analysis table0 then
        do! message_toast (Earlier.ToastInfo "该数据已经分析过了") in
        ret None
      else
        (* table.isAnalyzing = true writes the element of the copied array *)
        let table := Earlier.set_isAnalyzing true table0 in
        let tables := <[ index := table ]> processedTables in
        do! setProcessedTables tables in
        try_catch
          (match last (Earlier.columns table) with
           | None =>
               throw (Error "Cannot read properties of undefined (reading 'title')")
           | Some lastColumn =>
               let columnName := title lastColumn in
               let! promise :=
                 analyzeDataWithDeepSeek_called (Earlier.data table) columnName in
               ret (Some {| promise := promise; pending_tables := tables;
                            pending_table := table |})
           end)
          (fun error_ =>
             do! message_toast (Earlier.ToastError "分析失败，请重试") in
             do! setProcessedTables
                   (<[ index := Earlier.set_isAnalyzing false table ]> tables) in
             ret None)
  end.

(** The rest of [handleAnalyze], run when the answer has come. *)
Definition handleAnalyze_settled (index : nat) (p : pending) : M unit :=
  let! outcome := await (promise p) in
  try_catch
    (let! analysis := analyzeDataWithDeepSeek_settled outcome in
     setProcessedTables
       (<[ index := Earlier.set_isAnalyzing false
                      (Earlier.set_analysis (Some analysis) (pending_table p)) ]>
          (pending_tables p)))
    (fun error_ =>
       do! message_toast (Earlier.ToastError "分析失败，请重试") in
       setProcessedTables
         (<[ index := Earlier.set_isAnalyzing false (pending_table p) ]>
            (pending_tables p))).

(** [handleAnalyze(index)] awaited at once, as a click on its button runs
    it. *)
Definition handleAnalyze (index : nat) : M unit :=
  let! processedTables := getProcessedTables in
  let! p := handleAnalyze_called processedTables index in
  match p with
  | Some p => handleAnalyze_settled index p
  | None => ret tt
  end.

(** *** handleTopicsAnalysis *)

(** The handler up to its return.  It awaits the answers of the rows, but
    not the call of [handleAnalyze]: what that call has left pending is the
    result.  [handleAnalyze] is the function of the same render, so it
    reads the array [processedTables] of the handler, whose element
    [table] the handler has written to. *)
Definition handleTopicsAnalysis (index : nat) : M (option pending) :=
  let! processedTables := getProcessedTables in
  match processedTables !! index with
  | None =>
      throw (Error "Cannot read properties of undefined (reading 'isAnalyzingTopics')")
  | Some table0 =>
      if Earlier.isAnalyzingTopics table0 then ret None else
      let! commonTopicsInput := getCommonTopicsInput in
      let topics := topicsOf commonTopicsInput in
      if bool_decide (topics = []) then
        do! message_toast (Earlier.ToastError "请输入共性内容，用、分隔") in
        ret None
      else
        (* table.isAnalyzingTopics = true; table.commonTopics = topics: the
           object is the element of [tables] and of [processedTables] *)
        let table := set_commonTopics topics (set_isAnalyzingTopics true table0) in
        let processedTables := <[ index := table ]> processedTables in
        let tables := processedTables in
        do! setProcessedTables tables in
        try_catch
          (do! setApiStatus (Earlier.Text "正在分析每条数据...") Earlier.info in
           let newColumns := Earlier.columns table ++ [topicColumn] in
           match last (Earlier.columns table) with
           | None =>
               throw (Error "Cannot read properties of undefined (reading 'title')")
           | Some lastColumn =>
               let columnName := title lastColumn in
               let! promises := map_rows topics columnName (Earlier.data table) in
               let! outcomes := Promise_all promises in
               let analyzedData := zip_with analyzedRow (Earlier.data table) outcomes in
               let tables :=
                 <[ index := set_isAnalyzingTopics false
                               (set_columns newColumns (set_data analyzedData table)) ]>
                   tables in
               do! setProcessedTables tables in
               (* handleAnalyze(index): the promise is dropped, and with it
                  a rejection *)
               let! followUp :=
                 try_catch (handleAnalyze_called processedTables index)
                   (fun _ => ret None) in
               do! setApiStatus (Earlier.Text "共性内容分析完成！") Earlier.success in
               ret followUp
           end)
          (fun error_ =>
             do! message_toast (Earlier.ToastError "分析失败，请重试") in
             do! setProcessedTables
                   (<[ index := set_isAnalyzingTopics false table ]> tables) in
             ret None)
  end.

(** A click on the button of the classification, up to the moment when
    nothing is pending any more: the handler, and then the rest of the
    [handleAnalyze] it has called. *)
Definition classificationRun (index : nat) : M unit :=
  let! followUp := handleTopicsAnalysis index in
  match followUp with
  | Some p => handleAnalyze_settled index p
  | None => ret tt
  end.

End Handlers.

(** The request of a row. *)
Definition rowRequest (topics : list string) (columnName : string)
    (row : ExcelData) : request :=
  TopicRequest {| EarlierTopics.req_columnName := columnName;
                  EarlierTopics.req_content := ToString (row !! columnName);
                  EarlierTopics.req_topics := topics |}.

(** The events of the request [handleAnalyze] sends when its guard lets the
    table pass, and no event otherwise. *)
Definition followUpEvents (table : Earlier.ProcessedTable) (id : nat)
    : list event :=
  if Earlier.isAnalyzing table || Earlier.has_analysis table then []
  else [Sent id; Answered id].

End EarlierClassification.

(** The events a run has added to the log. *)
Definition runEvents (before after : list event) : list event :=
  drop (length before) after.

(* ================================================================== *)
(** ** What a run of [handleAnalyze] sends *)
(* ================================================================== *)

(** The rows a request of the map step carries. *)
Definition batchDataOf (req : Later.request) : list Later.batch_item :=
  match req with
  | Later.BatchRequest batchData => batchData
  | _ => []
  end.

(** The entry of [batchData] made from a row. *)
Definition batchItem (currentTable : Later.ProcessedTable) (row : ExcelData)
    : Later.batch_item :=
  {| Later.userInfo := Later.rowUserInfo row;
     Later.questionContent := Later.rowContent currentTable row |}.

(* ================================================================== *)
(** ** The button of the classification *)
(* ================================================================== *)

Module TopicsButton.
Import Later.

(** The "上传并分析" button:
    [disabled={table.isAnalyzingTopics || !commonTopicsInput.trim()}]; a
    disabled button does not call [onClick]. *)
Definition topicsDisabled (table : ProcessedTable) (commonTopicsInput : string)
    : bool :=
  isAnalyzingTopics table || bool_decide (trim commonTopicsInput = "").

Section Handlers.

Variable backend : nat -> http_outcome.

Definition clickTopics (index : nat) : M unit :=
  let! tables := getTables in
  match tables !! index with
  | None => ret tt
  | Some table =>
      let! input := getCommonTopicsInput in
      if topicsDisabled table input then ret tt
      else handleTopicsAnalysis backend index
  end.

End Handlers.

End TopicsButton.

(** The string starts with a white-space character: the test [trimStart]
    makes before it drops one. *)
Definition starts_ws (s : string) : bool :=
  match s with
  | String a r1 =>
      ws1 a
      || match r1 with
         | String b r2 =>
             ws2 a b
             || match r2 with
                | String c _ => ws3 a b c
                | EmptyString => false
                end
         | EmptyString => false
         end
  | EmptyString => false
  end.

(* ================================================================== *)
(** ** Concrete sheets and backends used in the examples *)
(* ================================================================== *)

Definition answer_row (who id answer : string) : ExcelData :=
  <[ "姓名" := CStr who ]> (<[ "系统号" := CStr id ]>
    (<[ "部门" := CStr "销售" ]> (<[ "Q_text" := CStr answer ]> ∅))).

Definition C1_columns : list string := ["姓名"; "系统号"; "部门"; "Q_text"].

Definition C1_rows : list ExcelData :=
  map (fun a => answer_row "张三" "001" a)
    ["a1"; "a2"; "a3"; "a4"; "a5"; "a6"; "a7"; "a8"; "a9"; " "].

(** Ten different answers. *)
Definition C1_ten_rows : list ExcelData :=
  map (fun a => answer_row "张三" "001" a)
    ["a1"; "a2"; "a3"; "a4"; "a5"; "a6"; "a7"; "a8"; "a9"; "a10"].

(** A sheet whose first header is the word "key": ten answers and one "无". *)
Definition C2_columns : list string := ["key"; "姓名"; "系统号"; "Q_text"].

Definition C2_rows : list ExcelData :=
  map (fun '(k, a) => <[ "key" := CStr k ]> (answer_row "张三" "001" a))
    [ ("k0", "a0"); ("k1", "无"); ("k2", "a2"); ("k3", "a3"); ("k4", "a4");
      ("k5", "a5"); ("k6", "a6"); ("k7", "a7"); ("k8", "a8"); ("k9", "a9");
      ("k10", "a10") ].

(** A sheet of eleven answers, the second of white space only, and the
    table that [processExcelFile] builds from it. *)
Definition demo_columns : list string := ["姓名"; "系统号"; "部门"; "Q_text"].

Definition demo_rows : list ExcelData :=
  map (fun '(id, a) => answer_row "张三" id a)
    [ ("000", "a0"); ("001", "  "); ("002", "a2"); ("003", "a3");
      ("004", "a4"); ("005", "a5"); ("006", "a6"); ("007", "a7");
      ("008", "a8"); ("009", "a9"); ("010", "a10") ].

Definition demo_table : Later.ProcessedTable :=
  Later.buildTable (firstThree demo_columns) demo_rows "Q_text".

Definition demo_world : Later.world :=
  Later.mkWorld [demo_table] "主题A、主题B" [] [] [] [].

Definition ok_reply (text : string) : http_outcome :=
  HttpResponse 200 "OK" (Some (success_body text)).

(** Every request is answered. *)
Definition backend_ok (n : nat) : http_outcome := ok_reply "S".

(** The first request is answered, the next ones get a 500. *)
Definition backend_reduce_500 (n : nat) : http_outcome :=
  match n with
  | 0 => ok_reply "B1"
  | _ => HttpResponse 500 "Internal Server Error" None
  end.

(** The first answer has a [message] without [content]. *)
Definition backend_no_content (n : nat) : http_outcome :=
  match n with
  | 0 => HttpResponse 200 "OK"
           (Some {| choices := Some [Some {| message := Some {| content := None |} |}];
                    error_message := None |})
  | _ => ok_reply "S"
  end.

(** The first request gets a 500, the next ones are answered. *)
Definition backend_batch_500 (n : nat) : http_outcome :=
  match n with
  | 0 => HttpResponse 500 "Internal Server Error" None
  | _ => ok_reply "S"
  end.

(** The second request does not reach the backend. *)
Definition backend_row_failure (n : nat) : http_outcome :=
  match n with
  | 0 => ok_reply "主题A"
  | 1 => NetworkError "Network Error"
  | _ => ok_reply "S"
  end.

(** The state after one analysis of [demo_table]. *)
Definition analyzed_world : Later.world :=
  snd (Later.handleAnalyze backend_ok 0 demo_world).

Definition analyzed_table : Later.ProcessedTable :=
  default demo_table (Later.tables analyzed_world !! 0).

(** The table of the same sheet in the first iteration. *)
Definition demo_table_earlier : Earlier.ProcessedTable :=
  let td := Earlier.tableData (firstThree demo_columns) "Q_text" demo_rows in
  Earlier.mkTable (tableName "Q_text" (length td)) td
    (tableColumns (firstThree demo_columns) "Q_text")
    None false [] false.

Definition demo_world_earlier : Earlier.world :=
  Earlier.mkWorld [demo_table_earlier] (Earlier.Text "", Earlier.blank) [] [].

Definition backend_down (n : nat) : http_outcome := NetworkError "Network Error".

(** The state after one analysis of [demo_table_earlier]. *)
Definition analyzed_world_earlier : Earlier.world :=
  snd (Earlier.handleAnalyze backend_ok 0 demo_world_earlier).

Definition analyzed_table_earlier : Earlier.ProcessedTable :=
  default demo_table_earlier (Earlier.processedTables analyzed_world_earlier !! 0).

(** The table of the first iteration, with two topics in the input. *)
Definition demo_world_classification : EarlierClassification.world :=
  EarlierClassification.mkWorld [demo_table_earlier]
    (Earlier.Text "", Earlier.blank) "主题A、主题B" [] [] [].

(** The answer to the second request, the one of the reduce step, has the
    empty string as its [content]. *)
Definition backend_empty_summary (n : nat) : http_outcome :=
  match n with
  | 1 => ok_reply ""
  | _ => ok_reply "S"
  end.

(* ================================================================== *)
(** * Properties *)
(* ================================================================== *)

(** ** Strings *)

Section Strings.

Lemma string_append_cons (x : ascii) (a b : string) :
  String x a +:+ b = String x (a +:+ b).
Proof. reflexivity. Qed.

Lemma string_append_nil_l (b : string) : "" +:+ b = b.
Proof. reflexivity. Qed.

Lemma string_append_assoc (a b c : string) : (a +:+ b) +:+ c = a +:+ (b +:+ c).
Proof.
  induction a as [|x a IH]; [done|]. by rewrite !string_append_cons, IH.
Qed.

Lemma string_append_nil_r (a : string) : a +:+ "" = a.
Proof. induction a as [|x a IH]; [done|]. by rewrite string_append_cons, IH. Qed.

Lemma string_length_append (a b : string) :
  String.length (a +:+ b) = String.length a + String.length b.
Proof.
  induction a as [|x a IH]; [done|]. rewrite string_append_cons. simpl. by rewrite IH.
Qed.

Lemma string_rev_app_append (a b : string) :
  String.rev_app a b = String.rev a +:+ b.
Proof.
  unfold String.rev. revert b. induction a as [|x a IH]; intros b; simpl; [done|].
  rewrite IH, (IH (String x "")), string_append_assoc. done.
Qed.

Lemma string_rev_cons (x : ascii) (a : string) :
  String.rev (String x a) = String.rev a +:+ String x "".
Proof. unfold String.rev at 1. simpl. apply string_rev_app_append. Qed.

Lemma string_rev_append (a b : string) :
  String.rev (a +:+ b) = String.rev b +:+ String.rev a.
Proof.
  induction a as [|x a IH].
  - by rewrite string_append_nil_l, string_append_nil_r.
  - by rewrite string_append_cons, !string_rev_cons, IH, string_append_assoc.
Qed.

Lemma string_rev_involutive (a : string) : String.rev (String.rev a) = a.
Proof.
  induction a as [|x a IH]; [done|].
  by rewrite string_rev_cons, string_rev_append, IH.
Qed.

Lemma string_length_rev (a : string) : String.length (String.rev a) = String.length a.
Proof.
  induction a as [|x a IH]; [done|].
  rewrite string_rev_cons, string_length_append, IH. simpl. lia.
Qed.

Lemma prefix_append (p s : string) : String.prefix p (p +:+ s) = true.
Proof.
  induction p as [|x p IH]; [by destruct s|].
  rewrite string_append_cons. simpl. destruct (ascii_dec x x); [done|congruence].
Qed.

Lemma string_drop_append (p s : string) :
  string_drop (String.length p) (p +:+ s) = s.
Proof.
  induction p as [|x p IH]; [by destruct s|]. rewrite string_append_cons. by simpl.
Qed.

Lemma all_digits_append a b :
  all_digits (a +:+ b) = all_digits a && all_digits b.
Proof.
  induction a as [|x a IH]; [done|].
  rewrite string_append_cons. simpl. by rewrite IH, andb_assoc.
Qed.

Lemma all_digits_rev a : all_digits (String.rev a) = all_digits a.
Proof.
  induction a as [|x a IH]; [done|].
  rewrite string_rev_cons, all_digits_append, IH. simpl.
  rewrite andb_true_r. apply andb_comm.
Qed.

Lemma drop_digits_append d rest :
  all_digits d = true -> drop_digits (d +:+ rest) = drop_digits rest.
Proof.
  induction d as [|x d IH]; [done|].
  rewrite string_append_cons. simpl.
  intros H. apply andb_true_iff in H as [Hx Hd]. rewrite Hx. by apply IH.
Qed.

Lemma pretty_N_char_digit x : is_digit (pretty_N_char x) = true.
Proof. unfold pretty_N_char. by repeat case_match. Qed.

Lemma pretty_N_go_digits x : forall s,
  all_digits s = true -> all_digits (pretty_N_go x s) = true.
Proof.
  induction (N.lt_wf_0 x) as [x _ IH]; intros s Hs.
  destruct (decide (x = 0)%N) as [->|Hx]; [by rewrite pretty_N_go_0|].
  rewrite pretty_N_go_step by lia. apply IH.
  - apply N.div_lt; lia.
  - simpl. by rewrite pretty_N_char_digit.
Qed.

Lemma pretty_N_go_length x : forall s,
  String.length s <= String.length (pretty_N_go x s).
Proof.
  induction (N.lt_wf_0 x) as [x _ IH]; intros s.
  destruct (decide (x = 0)%N) as [->|Hx]; [by rewrite pretty_N_go_0|].
  rewrite pretty_N_go_step by lia.
  etransitivity; [|apply IH; apply N.div_lt; lia]. simpl. lia.
Qed.

Lemma pretty_nat_digits (n : nat) :
  all_digits (pretty n) = true /\ 1 <= String.length (pretty n).
Proof.
  unfold pretty, pretty_nat, pretty, pretty_N.
  case_decide as H0; [done|]. split.
  - by apply pretty_N_go_digits.
  - rewrite pretty_N_go_step by lia.
    etransitivity; [|apply pretty_N_go_length]. simpl. lia.
Qed.

Lemma columnNameOf_tableName column n :
  columnNameOf (tableName column n) = column.
Proof.
  unfold columnNameOf, tableName.
  unfold strip_prefix. rewrite prefix_append, string_drop_append.
  unfold strip_count_suffix.
  destruct (pretty_nat_digits n) as [Hd Hl].
  rewrite !string_rev_append, !string_append_assoc.
  rewrite prefix_append, string_drop_append.
  rewrite drop_digits_append by (by rewrite all_digits_rev).
  assert (Hhead : drop_digits (String.rev "（共 " +:+ String.rev column)
                  = String.rev "（共 " +:+ String.rev column) by done.
  rewrite Hhead.
  rewrite prefix_append, string_drop_append, string_rev_involutive.
  rewrite !string_length_append, !string_length_rev.
  destruct (Nat.ltb_spec (String.length "（共 " + String.length column)
    (String.length (pretty n) + (String.length "（共 " + String.length column))); [done|lia].
Qed.

End Strings.

(** ** Batcher *)

Section Batcher.

Context {A : Type}.
Implicit Types (data rows : list A) (n : nat).

Lemma ceil_div_gt (len n j : nat) :
  0 < n -> (j * n < len <-> j < ceil_div len n).
Proof.
  intros Hn. unfold ceil_div. split; intros H.
  - apply Nat.div_le_lower_bound; lia.
  - assert (S j * n <= len + n - 1); [|lia].
    transitivity (n * ((len + n - 1) / n)).
    + nia.
    + apply Nat.Div0.mul_div_le.
Qed.

Lemma ceil_div_least (len n : nat) :
  0 < n ->
  len <= ceil_div len n * n /\ forall m, len <= m * n -> ceil_div len n <= m.
Proof.
  intros Hn. split.
  - destruct (Nat.le_gt_cases len (ceil_div len n * n)) as [|H]; [done|].
    apply ceil_div_gt in H; lia.
  - intros m Hm.
    destruct (Nat.le_gt_cases (ceil_div len n) m) as [|H]; [done|].
    apply ceil_div_gt in H; lia.
Qed.

Lemma batch_loop_closed n data :
  0 < n ->
  forall fuel j acc,
    length data - j * n <= fuel ->
    batch_loop fuel n data (j * n) acc
    = Some (acc ++ batches_of n data j (ceil_div (length data) n - j)).
Proof.
  intros Hn fuel. induction fuel as [|fuel IH]; intros j acc Hfuel; simpl.
  - destruct (Nat.ltb_spec (j * n) (length data)) as [Hlt|Hge]; [lia|].
    replace (ceil_div (length data) n - j) with 0.
    + unfold batches_of. simpl. by rewrite app_nil_r.
    + destruct (Nat.le_gt_cases (ceil_div (length data) n) j) as [|H]; [lia|].
      apply ceil_div_gt in H; lia.
  - destruct (Nat.ltb_spec (j * n) (length data)) as [Hlt|Hge].
    + replace (j * n + n) with (S j * n) by lia.
      rewrite IH by nia.
      apply ceil_div_gt in Hlt; [|done].
      replace (ceil_div (length data) n - j)
        with (S (ceil_div (length data) n - S j)) by lia.
      unfold batches_of. simpl. rewrite <- app_assoc. simpl.
      by replace (j * n + n) with (n + j * n) by lia.
    + replace (ceil_div (length data) n - j) with 0.
      * unfold batches_of. simpl. by rewrite app_nil_r.
      * destruct (Nat.le_gt_cases (ceil_div (length data) n) j) as [|H]; [lia|].
        apply ceil_div_gt in H; lia.
Qed.

Lemma chunk_closed n data :
  0 < n ->
  chunk n data = Some (batches_of n data 0 (ceil_div (length data) n)).
Proof.
  intros Hn. unfold chunk.
  pose proof (batch_loop_closed n data Hn (length data) 0 []) as H.
  simpl in H. rewrite H by lia. by rewrite Nat.sub_0_r.
Qed.

Lemma concat_batches_of n data k :
  concat (batches_of n data 0 k) = take (k * n) data.
Proof.
  unfold batches_of. induction k as [|k IH].
  - simpl. by rewrite take_0.
  - rewrite seq_S, map_app, concat_app, IH. simpl. rewrite app_nil_r.
    unfold slice. replace (k * n + n - k * n) with n by lia.
    rewrite take_take_drop. f_equal. lia.
Qed.

Lemma batches_of_lookup n data from count i b :
  batches_of n data from count !! i = Some b ->
  i < count /\ b = slice ((from + i) * n) ((from + i) * n + n) data.
Proof.
  unfold batches_of. rewrite list_lookup_fmap.
  intros H. destruct (seq from count !! i) as [x|] eqn:E; [|done].
  apply lookup_seq in E as [-> ?]. simpl in H. by inversion H.
Qed.

Lemma length_slice n data b :
  length (slice (b * n) (b * n + n) data) = n `min` (length data - b * n).
Proof.
  unfold slice. rewrite length_take, length_drop. lia.
Qed.

(** With a batch size of 0 the loop does not end on a non-empty list. *)
Lemma batch_loop_zero (x : A) data fuel acc :
  batch_loop fuel 0 (x :: data) 0 acc = None.
Proof.
  revert acc. induction fuel as [|fuel IH]; intros acc; [done|].
  simpl. apply IH.
Qed.

Lemma chunk_total data : chunk BATCH_SIZE data = Some (createBatches data).
Proof.
  unfold createBatches. rewrite chunk_closed by (unfold BATCH_SIZE; lia). done.
Qed.

Lemma createBatches_closed data :
  createBatches data
  = batches_of BATCH_SIZE data 0 (ceil_div (length data) BATCH_SIZE).
Proof.
  unfold createBatches. by rewrite chunk_closed by (unfold BATCH_SIZE; lia).
Qed.

(** C3.  For a batch size of at least 1 the Batcher ends and is lossless
    and order preserving: the batches concatenated in order give the rows
    back; there are [ceil (length rows / n)] of them, the least number of
    batches of [n] rows that hold all rows (none for no rows); every batch
    has at most [n] rows and at least one, and every batch but the last has
    exactly [n]. *)
Theorem chunk_lossless n rows :
  1 <= n ->
  exists batches,
    chunk n rows = Some batches
    /\ concat batches = rows
    /\ length batches = ceil_div (length rows) n
    /\ length rows <= length batches * n
    /\ (forall m, length rows <= m * n -> length batches <= m)
    /\ (rows = [] -> batches = [])
    /\ forall i b, batches !! i = Some b ->
         1 <= length b <= n /\ (S i < length batches -> length b = n).
Proof.
  intros Hn. exists (batches_of n rows 0 (ceil_div (length rows) n)).
  assert (Hlen : length (batches_of n rows 0 (ceil_div (length rows) n))
                 = ceil_div (length rows) n).
  { unfold batches_of. by rewrite length_map, length_seq. }
  split; [by apply chunk_closed|].
  split.
  { rewrite concat_batches_of. apply take_ge.
    by apply ceil_div_least. }
  split; [done|].
  rewrite Hlen.
  split; [by apply ceil_div_least|].
  split; [by apply ceil_div_least|].
  split.
  { intros ->. simpl. unfold ceil_div. simpl.
    rewrite Nat.div_small by lia. done. }
  intros i b Hb. apply batches_of_lookup in Hb as [Hi ->]. simpl.
  rewrite length_slice.
  pose proof (proj2 (ceil_div_gt (length rows) n i Hn) Hi) as Hlt.
  split; [lia|].
  intros HS. apply (ceil_div_gt (length rows) n (S i) Hn) in HS. lia.
Qed.

End Batcher.

(** 25 rows in batches of 10: three batches of 10, 10 and 5 rows. *)
Lemma chunk_lossless_witness :
  exists batches,
    chunk 10 (seq 0 25) = Some batches
    /\ concat batches = seq 0 25
    /\ length batches = ceil_div (length (seq 0 25)) 10
    /\ length (seq 0 25) <= length batches * 10
    /\ (forall m, length (seq 0 25) <= m * 10 -> length batches <= m)
    /\ (seq 0 25 = [] -> batches = [])
    /\ forall i b, batches !! i = Some b ->
         1 <= length b <= 10 /\ (S i < length batches -> length b = 10).
Proof. apply (chunk_lossless 10 (seq 0 25)). lia. Defined.

(** ** Column Selector *)

Section ColumnSelector.

Import Later.

Lemma validValues_In data col v :
  In v (validValues data col) <-> countedValue data col v.
Proof.
  unfold validValues, countedValue. rewrite filter_In, in_map_iff. split.
  - intros [(row & <- & Hrow) Hne]. apply filter_In in Hrow as [Hin Hans].
    split.
    + intros E. by case_bool_decide.
    + by exists row.
  - intros [Hne (row & Hin & Hans & ->)]. split.
    + exists row. split; [done|]. by apply filter_In.
    + by case_bool_decide.
Qed.

Lemma uniqueCount_ge data col k :
  k <= uniqueCount data col <->
  exists vs : list string,
    NoDup vs /\ k <= length vs /\ forall v, In v vs -> countedValue data col v.
Proof.
  unfold uniqueCount. split.
  - intros Hk. exists (remove_dups (validValues data col)).
    split; [apply NoDup_remove_dups|]. split; [done|].
    intros v Hv. apply validValues_In.
    rewrite <- list_elem_of_In in Hv |- *.
    by rewrite elem_of_remove_dups in Hv.
  - intros (vs & Hnd & Hlen & Hall).
    transitivity (length vs); [done|].
    apply submseteq_length, NoDup_submseteq; [done|].
    intros v Hv. rewrite elem_of_remove_dups, list_elem_of_In.
    apply validValues_In, Hall. by rewrite <- list_elem_of_In.
Qed.

(** The count of the first iteration: the values the [Set] is built from
    are the counted values of the column. *)
Lemma earlier_uniqueValues_ge data col k :
  k <= length (remove_dups
         (List.filter is_nonempty
            (map (fun row : ExcelData => row !! col) data))) <->
  exists vs : list (option cell),
    NoDup vs /\ k <= length vs
    /\ forall v, In v vs -> Earlier.countedValue data col v.
Proof.
  assert (Hin : forall v,
    In v (List.filter is_nonempty (map (fun row : ExcelData => row !! col) data))
    <-> Earlier.countedValue data col v).
  { intros v. unfold Earlier.countedValue. rewrite filter_In, in_map_iff. split.
    - intros [(row & <- & Hrow) Hne]. split; [done|]. by exists row.
    - intros [Hne (row & Hrow & ->)]. split; [by exists row|done]. }
  split.
  - intros Hk. eexists. split; [apply NoDup_remove_dups|]. split; [exact Hk|].
    intros v Hv. apply Hin. rewrite <- list_elem_of_In in Hv |- *.
    by rewrite elem_of_remove_dups in Hv.
  - intros (vs & Hnd & Hlen & Hall).
    transitivity (length vs); [done|].
    apply submseteq_length, NoDup_submseteq; [done|].
    intros v Hv. rewrite elem_of_remove_dups, list_elem_of_In.
    apply Hin, Hall. by rewrite <- list_elem_of_In.
Qed.

(** C1, as the code has it.  Each iteration pairs its own admission policy
    with its own count.  In the current iteration a column past the first
    three is kept exactly when its header carries a marker and there are at
    least 10 pairwise different counted values: non-empty strings that are
    the trimmed, stringified value of some row whose raw value is neither
    missing, empty nor the sentinel; a value of white space only is trimmed
    to the empty string and not counted.  In the first iteration it is kept
    exactly when no pattern of the blacklist matches its header and there
    are more than 10 pairwise different raw values, neither missing nor
    empty: a text is counted as it is, untrimmed, and the sentinel is a
    value like any other. *)
Theorem column_admitted_iff
    (allColumns : list string) (jsonData : list ExcelData) (col : string) :
  (In col (Later.remainingColumns allColumns jsonData) <->
   In col (afterThree allColumns)
   /\ Later.shouldSkipColumn col = false
   /\ exists vs : list string,
        NoDup vs /\ 10 <= length vs
        /\ forall v, In v vs -> Later.countedValue jsonData col v)
  /\ (In col (Earlier.remainingColumns allColumns jsonData) <->
      In col (afterThree allColumns)
      /\ Earlier.shouldSkipColumn col = false
      /\ exists vs : list (option cell),
           NoDup vs /\ 11 <= length vs
           /\ forall v, In v vs -> Earlier.countedValue jsonData col v).
Proof.
  split.
  - unfold Later.remainingColumns.
    rewrite filter_In, andb_true_iff, negb_true_iff.
    unfold Later.hasEnoughUniqueValues. rewrite Nat.leb_le, uniqueCount_ge.
    tauto.
  - unfold Earlier.remainingColumns.
    rewrite filter_In, andb_true_iff, negb_true_iff.
    unfold Earlier.hasEnoughUniqueValues. cbv zeta.
    rewrite Nat.ltb_lt, <- earlier_uniqueValues_ge. unfold lt. tauto.
Qed.

(** The two headers of the specification's scenario under the marker
    policy, and a header of each kind under the blacklist policy. *)
Lemma admission_policies_examples :
  shouldSkipColumn "Q1_text" = false
  /\ shouldSkipColumn "Q2_single_choice" = true
  /\ shouldSkipColumn "意见分列" = false
  /\ Earlier.shouldSkipColumn "您的建议" = false
  /\ Earlier.shouldSkipColumn "满意度（单选）" = true
  /\ Earlier.shouldSkipColumn "UCID" = true.
Proof. by vm_compute. Qed.

End ColumnSelector.

(** Nine different answers and one answer of a single space: the claimed
    count of distinct trimmed values is 10, and the current iteration does
    not keep the column.  Ten different answers: the claimed count is 10
    again, the blacklist lets the header pass, and the first iteration does
    not keep the column. *)
Lemma column_admitted_counterexample :
  ~ (In "Q_text" (Later.remainingColumns C1_columns C1_rows) <->
     In "Q_text" (afterThree C1_columns)
     /\ Later.shouldSkipColumn "Q_text" = false
     /\ 10 <= Later.claimedDistinctCount C1_rows "Q_text")
  /\ ~ (In "Q_text" (Earlier.remainingColumns C1_columns C1_ten_rows) <->
        In "Q_text" (afterThree C1_columns)
        /\ Earlier.shouldSkipColumn "Q_text" = false
        /\ 10 <= Later.claimedDistinctCount C1_ten_rows "Q_text").
Proof.
  split.
  - intros [_ H].
    assert (Hin : In "Q_text" (Later.remainingColumns C1_columns C1_rows)).
    { apply H. vm_compute. repeat split; auto; lia. }
    vm_compute in Hin. exact Hin.
  - intros [_ H].
    assert (Hin : In "Q_text" (Earlier.remainingColumns C1_columns C1_ten_rows)).
    { apply H. vm_compute. repeat split; auto; lia. }
    vm_compute in Hin. exact Hin.
Qed.

(** ** Row Projector *)

Section RowProjector.

Implicit Types (row r : ExcelData) (ft : list string).

Lemma identity_fold_lookup row ft (acc : ExcelData) (col : string) :
  foldl (fun (a : ExcelData) c => <[ c := identityValue row c ]> a) acc ft !! col
  = if bool_decide (col ∈ ft) then Some (identityValue row col) else acc !! col.
Proof.
  revert acc. induction ft as [|c ft IH]; intros acc; cbn [foldl].
  - case_bool_decide as H; [by apply elem_of_nil in H|done].
  - rewrite IH. destruct (decide (col ∈ ft)) as [Hin|Hnin].
    + rewrite !bool_decide_eq_true_2; [done| |done]. by apply list_elem_of_further.
    + rewrite (bool_decide_eq_false_2 (col ∈ ft)) by done.
      destruct (decide (c = col)) as [->|Hne].
      * rewrite lookup_insert_eq.
        rewrite bool_decide_eq_true_2; [done|]. by apply list_elem_of_here.
      * rewrite lookup_insert_ne by done.
        rewrite bool_decide_eq_false_2; [done|].
        intros Hin. apply elem_of_cons in Hin as [?|?]; congruence.
Qed.

Lemma newRow_column ft column row index :
  newRow ft column row index !! column = row !! column.
Proof.
  unfold newRow. destruct (row !! column) as [v|].
  - by rewrite lookup_insert_eq.
  - by rewrite lookup_delete_eq.
Qed.

Lemma newRow_other ft column row index (col : string) :
  col <> column ->
  newRow ft column row index !! col
  = if bool_decide (col ∈ ft) then Some (identityValue row col)
    else ({[ "key" := CNum (Z.of_nat index) ]} : ExcelData) !! col.
Proof.
  intros Hne. unfold newRow. destruct (row !! column) as [v|].
  - rewrite lookup_insert_ne by done. apply identity_fold_lookup.
  - rewrite lookup_delete_ne by done. apply identity_fold_lookup.
Qed.

(** The projector on a header free of the word "key": the emitted records
    are the rows with an answer, in source order; each carries its ordinal,
    the identity values and the answer as it is. *)
Lemma tableData_rows ft column (jsonData : list ExcelData) :
  let kept := List.filter (fun row : ExcelData => is_answer (row !! column)) jsonData in
  length (Later.tableData ft column jsonData) = length kept
  /\ forall i row, kept !! i = Some row ->
       exists r, Later.tableData ft column jsonData !! i = Some r
         /\ r !! column = row !! column
         /\ is_answer (r !! column) = true
         /\ ("key" ∉ ft -> column <> "key" -> r !! "key" = Some (CNum (Z.of_nat i)))
         /\ forall col, col ∈ ft -> col <> column ->
              r !! col = Some (identityValue row col).
Proof.
  intros kept. unfold Later.tableData. fold kept. split.
  - by rewrite length_imap.
  - intros i row Hrow. exists (newRow ft column row i).
    split; [by rewrite list_lookup_imap, Hrow|].
    split; [apply newRow_column|].
    split.
    { rewrite newRow_column.
      assert (Hin : In row kept).
      { apply list_elem_of_In. by eapply list_elem_of_lookup_2. }
      by apply filter_In in Hin as [_ ?]. }
    split.
    { intros Hkey Hcol. rewrite newRow_other by done.
      rewrite bool_decide_eq_false_2 by done. by rewrite lookup_singleton_eq. }
    intros col Hin Hne. rewrite newRow_other by done.
    by rewrite bool_decide_eq_true_2.
Qed.

(** The table built for a column of texts: every row has an answer text,
    read back through the column name that the handlers take from the name
    of the table. *)
Lemma buildTable_rows_have_text ft column (jsonData : list ExcelData) :
  (forall row v, In row jsonData -> row !! column = Some v ->
     exists text, v = CStr text) ->
  forallb (LaterSpec.rowHasText (Later.buildTable ft jsonData column))
    (Later.data (Later.buildTable ft jsonData column)) = true.
Proof.
  intros Htexts. apply forallb_forall. intros r Hr.
  cbn [Later.buildTable Later.data] in Hr.
  unfold Later.tableData in Hr.
  apply list_elem_of_In, elem_of_lookup_imap in Hr as (i & row & -> & Hrow).
  assert (Hin : In row (List.filter (fun row : ExcelData => is_answer (row !! column))
                          jsonData)).
  { apply list_elem_of_In. by eapply list_elem_of_lookup_2. }
  apply filter_In in Hin as [Hin Hans].
  unfold LaterSpec.rowHasText, Later.rowContent.
  cbn [Later.buildTable Later.name].
  rewrite columnNameOf_tableName, newRow_column.
  destruct (row !! column) as [v|] eqn:Hv; [|done].
  destruct (Htexts row v Hin Hv) as [text ->].
  simpl in Hans. apply andb_true_iff in Hans as [Hne _].
  unfold js_or. cbn [truthy]. rewrite Hne. cbn [truthy]. by rewrite Hne.
Qed.

End RowProjector.

(** C2 at a sheet whose first header is "key".  [processExcelFile] builds
    one table; the row whose answer is the sentinel is dropped and the ten
    others are emitted in order with their answers, but the [key] of each
    emitted record is the cell of the column "key", not its ordinal. *)
Theorem project_key_collision :
  exists t,
    Later.processExcelFile C2_columns C2_rows = Some [t]
    /\ map (fun r : ExcelData => r !! "Q_text") (Later.data t)
       = map (fun a => Some (CStr a))
           ["a0"; "a2"; "a3"; "a4"; "a5"; "a6"; "a7"; "a8"; "a9"; "a10"]
    /\ map (fun r : ExcelData => r !! "key") (Later.data t)
       = map (fun k => Some (CStr k))
           ["k0"; "k2"; "k3"; "k4"; "k5"; "k6"; "k7"; "k8"; "k9"; "k10"]
    /\ map (fun r : ExcelData => r !! "key") (Later.data t)
       <> map (fun i => Some (CNum i)) [0; 1; 2; 3; 4; 5; 6; 7; 8; 9]%Z.
Proof.
  eexists. split; [vm_compute; reflexivity|].
  split; [by vm_compute|]. split; [by vm_compute|].
  vm_compute. discriminate.
Qed.

(** ** The handlers of the current iteration *)

Section LaterHandlers.

Import Later LaterSpec.

Variable backend : nat -> http_outcome.
Variable index : nat.

Implicit Types (w : world) (t : ProcessedTable) (ts : list ProcessedTable).

Lemma updateAt_lookup f ts i :
  updateAt index f ts !! i
  = (if bool_decide (i = index) then f else id) <$> ts !! i.
Proof.
  unfold updateAt. rewrite list_lookup_imap.
  destruct (ts !! i); simpl; [|done]. by destruct (bool_decide (i = index)).
Qed.

Lemma updateAt_compose f g ts :
  updateAt index f (updateAt index g ts) = updateAt index (fun t => f (g t)) ts.
Proof.
  apply list_eq. intros i. rewrite !updateAt_lookup.
  destruct (ts !! i); simpl; [|done]. by destruct (bool_decide (i = index)).
Qed.

Lemma updateAt_ext f g ts :
  (forall t, f t = g t) -> updateAt index f ts = updateAt index g ts.
Proof.
  intros H. apply list_eq. intros i. rewrite !updateAt_lookup.
  destruct (ts !! i); simpl; [|done].
  destruct (bool_decide (i = index)); by rewrite ?H.
Qed.

Lemma updateAt_id ts : updateAt index (fun t => t) ts = ts.
Proof.
  apply list_eq. intros i. rewrite updateAt_lookup.
  destruct (ts !! i); simpl; [|done]. by destruct (bool_decide (i = index)).
Qed.

Lemma length_updateAt f ts : length (updateAt index f ts) = length ts.
Proof. unfold updateAt. by rewrite length_imap. Qed.

Lemma awaited_app first m n :
  awaited first (m + n) = awaited first m ++ awaited (first + m) n.
Proof. unfold awaited. by rewrite seq_app, flat_map_app. Qed.

Lemma awaited_one first : awaited first 1 = [Sent first; Answered first].
Proof. done. Qed.

Lemma analyzeBatch_run t nb j batch w :
  analyzeBatch backend index t nb j batch w
  = (Ok tt,
     mkWorld
       (updateAt index (set_analysisApiMessage
          (Some ("正在处理第" +:+ pretty (j + 1) +:+ "/" +:+ pretty nb
                 +:+ "批数据..."))) (tables w))
       (commonTopicsInput w)
       (calls w ++ [batchRequest t batch])
       (toasts w)
       (batchResults w ++ batchEntries j (backend (length (calls w))))
       (events w ++ awaited (length (calls w)) 1)).
Proof.
  unfold analyzeBatch, batchEntries, batchChecked, checkedMessage, placeholder.
  unfold bind, try_catch, setTables, fetch, send, await, bind, json, throw, ret,
    pushBatchResult, batchRequest. simpl. rewrite <- !app_assoc. simpl.
  destruct (backend (length (calls w))) as [msg|st txt [b|]]; simpl; try done.
  - destruct (status_ok st); simpl; [|done].
    destruct (first_message b) as [m|]; simpl; [|done].
    destruct (content m); simpl; [done|]. by rewrite <- app_assoc.
  - by destruct (status_ok st).
Qed.

Lemma batch_loop_run t nb batches :
  forall j w,
  exists F,
    analysisMessageOnly F
    /\ forM_from j batches (analyzeBatch backend index t nb) w
       = (Ok tt,
          mkWorld (updateAt index F (tables w)) (commonTopicsInput w)
            (calls w ++ map (batchRequest t) batches) (toasts w)
            (batchResults w
             ++ concat (imap (fun i _ => batchEntries (j + i)
                                  (backend (length (calls w) + i))) batches))
            (events w ++ awaited (length (calls w)) (length batches))).
Proof.
  induction batches as [|batch batches IH]; intros j w.
  - exists (fun t => t). split; [done|]. simpl. unfold ret.
    rewrite updateAt_id, !app_nil_r. by destruct w.
  - simpl. unfold bind at 1. rewrite analyzeBatch_run.
    destruct (IH (S j) (mkWorld
       (updateAt index (set_analysisApiMessage
          (Some ("正在处理第" +:+ pretty (j + 1) +:+ "/" +:+ pretty nb
                 +:+ "批数据..."))) (tables w))
       (commonTopicsInput w) (calls w ++ [batchRequest t batch]) (toasts w)
       (batchResults w ++ batchEntries j (backend (length (calls w))))
       (events w ++ awaited (length (calls w)) 1)))
      as (F & HF & Heq).
    rewrite Heq. clear Heq.
    eexists (fun t => F (set_analysisApiMessage _ t)). split.
    { intros t' m. rewrite HF. by destruct t'. }
    cbn [tables commonTopicsInput calls toasts batchResults events].
    rewrite updateAt_compose, <- !app_assoc, length_app. cbn [length].
    change (S (length batches)) with (1 + length batches).
    rewrite (awaited_app (length (calls w)) 1 (length batches)).
    cbn [app concat imap]. rewrite !Nat.add_0_r. f_equal. f_equal.
    do 3 f_equal.
    apply imap_ext. intros i x _. simpl. do 2 f_equal; lia.
Qed.

Ltac finish_same H :=
  match goal with
  | |- forall x, _ = ?d ?v x => exact (H v)
  end.

Lemma analysisMessageOnly_eta F t :
  analysisMessageOnly F ->
  F t = set_analysisApiMessage (analysisApiMessage (F t)) t.
Proof.
  intros HF. rewrite <- (HF t). by destruct (F t).
Qed.

(** One call of [handleAnalyze] on a table that is not being analysed, in
    closed form: one request per batch, then the request of the reduce step
    over the collected entries; the table ends as [analysisDone] says. *)
Lemma handleAnalyze_run w t :
  tables w !! index = Some t ->
  isAnalyzing t = false ->
  let batches := createBatches (data t) in
  let first := length (calls w) in
  let rs := allEntries backend first batches in
  let v := summaryChecked (backend (first + length batches)) in
  handleAnalyze backend index w
  = (Ok tt,
     mkWorld (updateAt index (analysisDone v) (tables w)) (commonTopicsInput w)
       (calls w ++ map (batchRequest t) batches ++ [SummaryRequest rs])
       (toasts w ++ [analysisToast v]) rs
       (events w ++ awaited first (length batches + 1))).
Proof.
  intros Ht Hidle batches first rs v.
  unfold handleAnalyze. unfold bind at 1. unfold getTables.
  rewrite Ht, Hidle.
  unfold bind at 1. unfold setTables at 1.
  unfold try_catch at 1. unfold bind at 1. unfold setTables at 1.
  unfold bind at 1. unfold newBatchResults. cbn [tables commonTopicsInput calls toasts batchResults events].
  unfold bind at 1. fold batches.
  match goal with
  | |- context [forM_from 0 batches ?body ?W] =>
      destruct (batch_loop_run t (length batches) batches 0 W) as (F & HF & Heq);
      rewrite Heq; clear Heq
  end.
  cbn [tables commonTopicsInput calls toasts batchResults events].
  unfold bind at 1. unfold setTables at 1.
  cbn [tables commonTopicsInput calls toasts batchResults events].
  unfold bind at 1. unfold getBatchResults.
  cbn [tables commonTopicsInput calls toasts batchResults events].
  unfold bind at 1. unfold fetch. unfold bind at 1. unfold send.
  unfold bind at 1. unfold await.
  cbn [tables commonTopicsInput calls toasts batchResults events].
  rewrite length_app, length_map. fold first.
  rewrite (awaited_app first (length batches) 1), awaited_one.
  change (concat (imap (fun i _ => batchEntries (0 + i) (backend (first + i))) batches))
    with rs.
  subst v. unfold summaryChecked, checkedMessage.
  assert (Hfin : forall f g,
    (forall x, f (set_analysisApiMessage (Some "批量处理完成，正在进行最终汇总...")
                 (F (set_analysisApiMessage
                      (Some ("开始批量处理，共" +:+ pretty (length batches) +:+ "批，每批最多"
                             +:+ pretty BATCH_SIZE +:+ "条数据"))
                      (set_analysisApiMessage (Some "正在进行整体分析...")
                         (set_analysisApiStatus (Some analyzing)
                            (set_isAnalyzing true x))))))
               = g x) ->
    updateAt index f
      (updateAt index (set_analysisApiMessage (Some "批量处理完成，正在进行最终汇总..."))
         (updateAt index F
            (updateAt index (set_analysisApiMessage
               (Some ("开始批量处理，共" +:+ pretty (length batches) +:+ "批，每批最多"
                      +:+ pretty BATCH_SIZE +:+ "条数据")))
               (updateAt index (fun table =>
                  set_analysisApiMessage (Some "正在进行整体分析...")
                    (set_analysisApiStatus (Some analyzing)
                       (set_isAnalyzing true table))) (tables w)))))
    = updateAt index g (tables w)).
  { intros f g Hf. rewrite !updateAt_compose. by apply updateAt_ext. }
  assert (Hsame : forall v x,
    analysisDone v
      (set_analysisApiMessage (Some "批量处理完成，正在进行最终汇总...")
         (F (set_analysisApiMessage
              (Some ("开始批量处理，共" +:+ pretty (length batches) +:+ "批，每批最多"
                     +:+ pretty BATCH_SIZE +:+ "条数据"))
              (set_analysisApiMessage (Some "正在进行整体分析...")
                 (set_analysisApiStatus (Some analyzing)
                    (set_isAnalyzing true x))))))
    = analysisDone v x).
  { intros v x. rewrite (analysisMessageOnly_eta F _ HF).
    destruct v; by destruct x. }
  rewrite <- !app_assoc.
  destruct (backend (first + length batches)) as [msg|st txt [b|]];
    cbn [app]; simpl.
  - unfold throw, bind, setTables, message_toast. simpl.
    erewrite Hfin; [done | finish_same Hsame].
  - unfold throw, json, ret, bind, setTables, message_toast.
    destruct (status_ok st); simpl.
    + destruct (first_message b) as [m|]; simpl.
      * destruct (content m) as [text|]; simpl.
        -- erewrite Hfin; [done | finish_same Hsame].
        -- erewrite Hfin; [done | finish_same Hsame].
      * erewrite Hfin; [done | finish_same Hsame].
    + erewrite Hfin; [done | finish_same Hsame].
  - unfold throw, json, ret, bind, setTables, message_toast.
    destruct (status_ok st); simpl.
    all: erewrite Hfin; [done | finish_same Hsame].
Qed.

(** *** The row loop of [handleTopicsAnalysis] *)

Lemma rowsOnly_id : rowsOnly (fun d => d) (fun x => x).
Proof. intros x. exists (topicsApiMessage x). by destruct x. Qed.

Lemma rowsOnly_message m : rowsOnly (fun d => d) (set_topicsApiMessage m).
Proof. intros x. exists m. by destruct x. Qed.

Lemma rowsOnly_compose D1 D2 F1 F2 :
  rowsOnly D1 F1 -> rowsOnly D2 F2 ->
  rowsOnly (fun d => D2 (D1 d)) (fun x => F2 (F1 x)).
Proof.
  intros H1 H2 x. destruct (H1 x) as [m1 E1]. destruct (H2 (F1 x)) as [m2 E2].
  exists m2. rewrite E2, E1. by destruct x.
Qed.

Lemma rowsOnly_annotate g v :
  rowsOnly (annotate g v) (fun x => set_data (annotate g v (data x)) x).
Proof. intros x. exists (topicsApiMessage x). by destruct x. Qed.

Lemma rowsOnly_annotate_message g v m :
  rowsOnly (annotate g v)
    (fun x => set_topicsApiMessage m (set_data (annotate g v (data x)) x)).
Proof. intros x. by exists m. Qed.

Ltac row_marked :=
  rewrite ?updateAt_compose;
  eexists; split; swap 1 2;
  [ reflexivity
  | first [ apply rowsOnly_annotate | apply rowsOnly_annotate_message ] ].

Ltac row_skipped w :=
  exists (fun x => x); split;
  [ apply rowsOnly_id
  | unfold awaited; cbn [length seq flat_map];
    rewrite updateAt_id, !app_nil_r; by destruct w ].

Lemma classifyRow_run t topics b blen r row w :
  exists F,
    rowsOnly (annotateWith (b * BATCH_SIZE + r)
                (rowMark t row (backend (length (calls w))))) F
    /\ classifyRow backend index t topics b blen r row w
       = (Ok tt,
          mkWorld (updateAt index F (tables w)) (commonTopicsInput w)
            (calls w ++ rowRequest t topics row) (toasts w) (batchResults w)
            (events w
             ++ awaited (length (calls w)) (length (rowRequest t topics row)))).
Proof.
  unfold classifyRow, rowMark, rowRequest, annotateWith.
  generalize ((r + 1) mod 5 =? 0). intros fifth.
  destruct (rowContent t row) as [[text|n]|]; cbn [truthy negb].
  - case_bool_decide as Htext; cbn [negb]; [row_skipped w|].
    unfold analyzeTopicWithDeepSeek.
    cbn [truthy negb]. rewrite (bool_decide_eq_false_2 _ Htext). cbn [negb].
    case_bool_decide as Hblank.
    + unfold try_catch, bind, ret, setTables. simpl.
      destruct fifth; simpl; rewrite ?app_nil_r; row_marked.
    + unfold topicVerdict, exchangeText.
      unfold try_catch, bind, ret, throw, setTables, axios_post, send, await.
      unfold bind, ret, throw. simpl. rewrite <- ?app_assoc. simpl.
      destruct (backend (length (calls w))) as [msg|st txt p]; simpl.
      * row_marked.
      * destruct (status_ok st); simpl.
        -- destruct (reply_content p) as [answer|]; simpl.
           ++ case_bool_decide; simpl.
              ** row_marked.
              ** destruct fifth; simpl; row_marked.
           ++ row_marked.
        -- repeat case_bool_decide; simpl; row_marked.
  - case_bool_decide as Hn; cbn [negb]; [row_skipped w|].
    unfold analyzeTopicWithDeepSeek. cbn [truthy negb].
    rewrite (bool_decide_eq_false_2 _ Hn). cbn [negb].
    unfold try_catch, bind, ret, throw, setTables. simpl.
    unfold awaited. cbn [seq flat_map]. rewrite !app_nil_r. row_marked.
  - row_skipped w.
Qed.

Lemma rowsOnly_ext D D' F :
  (forall d, D d = D' d) -> rowsOnly D F -> rowsOnly D' F.
Proof.
  intros HD HF x. destruct (HF x) as [m E]. exists m. by rewrite <- HD.
Qed.

Lemma rows_loop_run t topics b blen rows :
  forall r w,
  exists F,
    rowsOnly (markRows backend t topics rows (b * BATCH_SIZE + r)
                (length (calls w))) F
    /\ forM_from r rows (classifyRow backend index t topics b blen) w
       = (Ok tt,
          mkWorld (updateAt index F (tables w)) (commonTopicsInput w)
            (calls w ++ flat_map (rowRequest t topics) rows) (toasts w)
            (batchResults w)
            (events w
             ++ awaited (length (calls w))
                  (length (flat_map (rowRequest t topics) rows)))).
Proof.
  induction rows as [|row rows IH]; intros r w.
  - exists (fun x => x). split; [apply rowsOnly_id|].
    simpl. unfold ret, awaited. simpl.
    rewrite updateAt_id, !app_nil_r. by destruct w.
  - destruct (classifyRow_run t topics b blen r row w) as (F1 & HF1 & E1).
    cbn [forM_from]. unfold bind at 1. rewrite E1.
    match goal with
    | |- context [forM_from (S r) rows _ ?W] =>
        destruct (IH (S r) W) as (F2 & HF2 & E2); rewrite E2; clear E2
    end.
    cbn [tables commonTopicsInput calls toasts batchResults events] in *.
    exists (fun x => F2 (F1 x)). split.
    + eapply rowsOnly_ext; [|exact (rowsOnly_compose _ _ _ _ HF1 HF2)].
      intros d. cbn [markRows]. rewrite length_app.
      by replace (b * BATCH_SIZE + S r) with (S (b * BATCH_SIZE + r)) by lia.
    + rewrite updateAt_compose. cbn [flat_map].
      by rewrite !length_app, awaited_app, <- !app_assoc.
Qed.

Lemma classifyBatch_run t topics nb j batch w :
  exists F,
    rowsOnly (markRows backend t topics batch (j * BATCH_SIZE)
                (length (calls w))) F
    /\ classifyBatch backend index t topics nb j batch w
       = (Ok tt,
          mkWorld (updateAt index F (tables w)) (commonTopicsInput w)
            (calls w ++ flat_map (rowRequest t topics) batch) (toasts w)
            (batchResults w)
            (events w
             ++ awaited (length (calls w))
                  (length (flat_map (rowRequest t topics) batch)))).
Proof.
  unfold classifyBatch. unfold bind at 1. unfold setTables at 1.
  match goal with
  | |- context [forM_from 0 batch ?body ?W] =>
      destruct (rows_loop_run t topics j (length batch) batch 0 W)
        as (F & HF & E); rewrite E; clear E
  end.
  cbn [tables commonTopicsInput calls toasts batchResults events] in *.
  eexists (fun x => F (set_topicsApiMessage _ x)). split.
  - eapply rowsOnly_ext;
      [|exact (rowsOnly_compose _ _ _ _ (rowsOnly_message _) HF)].
    intros d. simpl. by rewrite Nat.add_0_r.
  - by rewrite updateAt_compose.
Qed.

Lemma batches_loop_run t topics nb batches :
  forall j w,
  exists F,
    rowsOnly (markBatches backend t topics batches j (length (calls w))) F
    /\ forM_from j batches (classifyBatch backend index t topics nb) w
       = (Ok tt,
          mkWorld (updateAt index F (tables w)) (commonTopicsInput w)
            (calls w ++ flat_map (rowRequest t topics) (concat batches))
            (toasts w) (batchResults w)
            (events w
             ++ awaited (length (calls w))
                  (length (flat_map (rowRequest t topics) (concat batches))))).
Proof.
  induction batches as [|batch batches IH]; intros j w.
  - exists (fun x => x). split; [apply rowsOnly_id|].
    simpl. unfold ret, awaited. simpl.
    rewrite updateAt_id, !app_nil_r. by destruct w.
  - destruct (classifyBatch_run t topics nb j batch w) as (F1 & HF1 & E1).
    cbn [forM_from]. unfold bind at 1. rewrite E1.
    match goal with
    | |- context [forM_from (S j) batches _ ?W] =>
        destruct (IH (S j) W) as (F2 & HF2 & E2); rewrite E2; clear E2
    end.
    cbn [tables commonTopicsInput calls toasts batchResults events] in *.
    exists (fun x => F2 (F1 x)). split.
    + eapply rowsOnly_ext; [|exact (rowsOnly_compose _ _ _ _ HF1 HF2)].
      intros d. cbn [markBatches]. by rewrite length_app.
    + rewrite updateAt_compose. cbn [concat].
      by rewrite flat_map_app, !length_app, awaited_app, <- !app_assoc.
Qed.

(** *** The marks in closed form *)

Lemma markRows_app t topics rows1 rows2 g c d :
  markRows backend t topics (rows1 ++ rows2) g c d
  = markRows backend t topics rows2 (g + length rows1)
      (c + length (flat_map (rowRequest t topics) rows1))
      (markRows backend t topics rows1 g c d).
Proof.
  revert g c d. induction rows1 as [|row rows1 IH]; intros g c d.
  - simpl. by rewrite !Nat.add_0_r.
  - cbn [app markRows flat_map length]. rewrite IH, length_app.
    f_equal; lia.
Qed.

Lemma batches_of_short n (data : list ExcelData) j count :
  length (slice (j * n) (j * n + n) data) < n ->
  concat (batches_of n data (S j) count) = [].
Proof.
  rewrite length_slice. intros Hshort.
  unfold batches_of. revert j Hshort.
  induction count as [|count IH]; intros j Hshort; [done|].
  cbn [seq map concat]. rewrite (IH (S j)) by lia. rewrite app_nil_r.
  unfold slice. rewrite drop_ge; [by rewrite take_nil|]. lia.
Qed.

Lemma markBatches_flat t topics (data : list ExcelData) count :
  forall j c d,
    markBatches backend t topics (batches_of BATCH_SIZE data j count) j c d
    = markRows backend t topics
        (concat (batches_of BATCH_SIZE data j count)) (j * BATCH_SIZE) c d.
Proof.
  induction count as [|count IH]; intros j c d; [done|].
  unfold batches_of. cbn [seq map concat markBatches].
  fold (batches_of BATCH_SIZE data (S j) count).
  rewrite IH, markRows_app.
  set (s := slice (j * BATCH_SIZE) (j * BATCH_SIZE + BATCH_SIZE) data).
  destruct (decide (length s = BATCH_SIZE)) as [E|NE].
  - rewrite E. f_equal. lia.
  - rewrite batches_of_short; [done|].
    subst s. rewrite length_slice in NE |- *. lia.
Qed.

Lemma annotateWith_insert g mark (d : list ExcelData) row :
  d !! g = Some row ->
  annotateWith g mark d = <[ g := markWith mark row ]> d.
Proof.
  intros Hg. destruct mark as [v|]; simpl.
  - unfold annotate. by rewrite Hg.
  - by rewrite list_insert_id.
Qed.

Lemma markRows_lookup t topics rows :
  forall g c (d : list ExcelData),
    (forall i row, rows !! i = Some row -> d !! (g + i) = Some row) ->
    length (markRows backend t topics rows g c d) = length d
    /\ (forall i, i < g -> markRows backend t topics rows g c d !! i = d !! i)
    /\ (forall i row, rows !! i = Some row ->
          markRows backend t topics rows g c d !! (g + i)
          = Some (markWith
                    (rowMark t row
                       (backend (c + length (flat_map (rowRequest t topics)
                                               (take i rows)))))
                    row)).
Proof.
  induction rows as [|row rows IH]; intros g c d Hrows.
  - simpl. split; [done|]. split; [done|]. intros i r Hi. done.
  - cbn [markRows].
    assert (Hg : d !! g = Some row).
    { specialize (Hrows 0 row eq_refl). by rewrite Nat.add_0_r in Hrows. }
    rewrite (annotateWith_insert g _ d row Hg).
    set (d1 := <[ g := markWith (rowMark t row (backend c)) row ]> d).
    assert (Hd1 : forall i r, rows !! i = Some r -> d1 !! (S g + i) = Some r).
    { intros i r Hi. unfold d1. rewrite list_lookup_insert_ne by lia.
      replace (S g + i) with (g + S i) by lia. by apply Hrows. }
    destruct (IH (S g) (c + length (rowRequest t topics row)) d1 Hd1)
      as (Hlen & Hlow & Hhigh).
    split; [by rewrite Hlen; unfold d1; rewrite length_insert|].
    split.
    + intros i Hi. rewrite Hlow by lia. unfold d1.
      by rewrite list_lookup_insert_ne by lia.
    + intros [|i] r Hi.
      * simpl in Hi. inversion Hi; subst r.
        rewrite Nat.add_0_r, Hlow by lia. unfold d1.
        rewrite list_lookup_insert_eq by (by eapply lookup_lt_Some).
        simpl. by rewrite Nat.add_0_r.
      * simpl in Hi. replace (g + S i) with (S g + i) by lia.
        rewrite (Hhigh i r Hi). cbn [take flat_map]. rewrite length_app.
        by rewrite Nat.add_assoc.
Qed.

Lemma concat_createBatches (data : list ExcelData) :
  concat (createBatches data) = data.
Proof.
  rewrite createBatches_closed, concat_batches_of. apply take_ge.
  apply ceil_div_least. unfold BATCH_SIZE. lia.
Qed.

(** Row [g] of the table after the row loop. *)
Lemma marked_lookup t topics c (data : list ExcelData) g row :
  data !! g = Some row ->
  markBatches backend t topics (createBatches data) 0 c data !! g
  = Some (markWith
            (rowMark t row
               (backend (c + length (flat_map (rowRequest t topics)
                                       (take g data)))))
            row).
Proof.
  intros Hg. rewrite createBatches_closed, markBatches_flat.
  rewrite <- createBatches_closed, concat_createBatches. simpl.
  destruct (markRows_lookup t topics data 0 c data) as (_ & _ & H).
  { intros i r Hi. done. }
  by apply (H g row).
Qed.

Lemma marked_length t topics c (data : list ExcelData) :
  length (markBatches backend t topics (createBatches data) 0 c data)
  = length data.
Proof.
  rewrite createBatches_closed, markBatches_flat.
  rewrite <- createBatches_closed, concat_createBatches. simpl.
  destruct (markRows_lookup t topics data 0 c data) as (H & _ & _); [|done].
  intros i r Hi. done.
Qed.

(** One call of [handleTopicsAnalysis] with at least one topic on a table
    that is not being classified, in closed form. *)
Lemma handleTopicsAnalysis_run w t :
  tables w !! index = Some t ->
  isAnalyzingTopics t = false ->
  let topics := topicsOf (commonTopicsInput w) in
  topics <> [] ->
  let first := length (calls w) in
  let reqs := flat_map (rowRequest t topics) (data t) in
  let v := topicsChecked (backend (first + length reqs)) in
  let D := markBatches backend t topics (createBatches (data t)) 0 first in
  handleTopicsAnalysis backend index w
  = (Ok tt,
     mkWorld
       (updateAt index
          (fun x => topicsDone v (set_data (D (data x)) (set_commonTopics topics x)))
          (tables w))
       (match v with inr _ => "" | inl _ => commonTopicsInput w end)
       (calls w ++ reqs ++ [TopicsSummaryRequest topics (analysisDataOf t)])
       (toasts w ++ [topicsToast v]) (batchResults w)
       (events w ++ awaited first (length reqs + 1))).
Proof.
  intros Ht Hidle topics Htopics first reqs v D.
  unfold handleTopicsAnalysis. unfold bind at 1. unfold getTables.
  rewrite Ht, Hidle.
  unfold bind at 1. unfold getCommonTopicsInput.
  fold (topicsOf (commonTopicsInput w)). fold topics.
  rewrite bool_decide_eq_false_2 by (by destruct topics).
  unfold bind at 1. unfold setTables at 1.
  unfold try_catch at 1. unfold bind at 1. unfold setTables at 1.
  cbn [tables commonTopicsInput calls toasts batchResults events].
  unfold bind at 1.
  match goal with
  | |- context [forM_from 0 ?bs ?body ?W] =>
      destruct (batches_loop_run t topics (length bs) bs 0 W) as (F & HF & Heq);
      rewrite Heq; clear Heq
  end.
  cbn [tables commonTopicsInput calls toasts batchResults events] in *.
  rewrite concat_createBatches. fold reqs. fold first in HF. fold D in HF.
  unfold bind at 1. unfold setTables at 1.
  cbn [tables commonTopicsInput calls toasts batchResults events].
  replace (set_data (data t) t) with t by (by destruct t).
  unfold bind at 1. unfold fetch. unfold bind at 1. unfold send.
  unfold bind at 1. unfold await.
  cbn [tables commonTopicsInput calls toasts batchResults events].
  rewrite length_app. fold first.
  rewrite (awaited_app first (length reqs) 1), awaited_one.
  rewrite <- !app_assoc. cbn [app].
  assert (Hsame : forall v x,
    topicsDone v
      (set_topicsApiMessage (Some "数据处理完成，正在进行汇总分析...")
         (F (set_topicsApiMessage
              (Some ("开始批量处理，共" +:+ pretty (length (createBatches (data t)))
                     +:+ "批，每批最多" +:+ pretty BATCH_SIZE +:+ "条数据"))
              (set_topicsApiMessage (Some "正在进行共性内容分析...")
                 (set_topicsApiStatus (Some analyzing)
                    (set_commonTopics topics
                       (set_isAnalyzingTopics true x)))))))
    = topicsDone v (set_data (D (data x)) (set_commonTopics topics x))).
  { intros v0 x. destruct (HF (set_topicsApiMessage
              (Some ("开始批量处理，共" +:+ pretty (length (createBatches (data t)))
                     +:+ "批，每批最多" +:+ pretty BATCH_SIZE +:+ "条数据"))
              (set_topicsApiMessage (Some "正在进行共性内容分析...")
                 (set_topicsApiStatus (Some analyzing)
                    (set_commonTopics topics
                       (set_isAnalyzingTopics true x)))))) as [m E].
    rewrite E. destruct v0; by destruct x. }
  assert (Hfin : forall f g,
    (forall x, f (set_topicsApiMessage (Some "数据处理完成，正在进行汇总分析...")
         (F (set_topicsApiMessage
              (Some ("开始批量处理，共" +:+ pretty (length (createBatches (data t)))
                     +:+ "批，每批最多" +:+ pretty BATCH_SIZE +:+ "条数据"))
              (set_topicsApiMessage (Some "正在进行共性内容分析...")
                 (set_topicsApiStatus (Some analyzing)
                    (set_commonTopics topics
                       (set_isAnalyzingTopics true x))))))) = g x) ->
    updateAt index f
      (updateAt index (set_topicsApiMessage (Some "数据处理完成，正在进行汇总分析..."))
         (updateAt index F
            (updateAt index (set_topicsApiMessage
               (Some ("开始批量处理，共" +:+ pretty (length (createBatches (data t)))
                      +:+ "批，每批最多" +:+ pretty BATCH_SIZE +:+ "条数据")))
               (updateAt index (fun table =>
                  set_topicsApiMessage (Some "正在进行共性内容分析...")
                    (set_topicsApiStatus (Some analyzing)
                       (set_commonTopics topics
                          (set_isAnalyzingTopics true table)))) (tables w)))))
    = updateAt index g (tables w)).
  { intros f g Hf. rewrite !updateAt_compose. by apply updateAt_ext. }
  subst v. unfold topicsChecked, checkedMessage.
  destruct (backend (first + length reqs)) as [msg|st txt [b|]];
    cbn [app]; simpl.
  - unfold bind, setTables, message_toast. simpl.
    erewrite Hfin; [done | exact (Hsame (inl _))].
  - unfold throw, json, ret, bind, setTables, message_toast, setCommonTopicsInput.
    destruct (status_ok st); simpl.
    + destruct (first_message b) as [m|]; simpl.
      * erewrite Hfin; [done | exact (Hsame (inr _))].
      * erewrite Hfin; [done | exact (Hsame (inl _))].
    + erewrite Hfin; [done | exact (Hsame (inl _))].
  - unfold throw, json, ret, bind, setTables, message_toast.
    destruct (status_ok st); simpl.
    all: erewrite Hfin; [done | exact (Hsame (inl _))].
Qed.

End LaterHandlers.

(** ** Analysis runs *)

Section AnalysisRuns.

Import Later LaterSpec.

Variable backend : nat -> http_outcome.

Lemma concat_imap_singleton {A B} (f : nat -> B) (l : list A) :
  concat (imap (fun j _ => [f j]) l) = imap (fun j _ => f j) l.
Proof.
  revert f. induction l as [|x l IH]; intros f; [done|].
  simpl. f_equal. apply (IH (fun j => f (S j))).
Qed.

Lemma checkedMessage_fails f e o :
  exchangeFails o <-> exists msg, checkedMessage f e o = inl msg.
Proof.
  destruct o as [msg|st txt [b|]]; simpl.
  - split; [by exists msg|done].
  - destruct (status_ok st); simpl.
    + destruct (first_message b) as [m|]; split.
      * intros [?|?]; done.
      * intros [? ?]; done.
      * by exists e.
      * by right.
    + split; [by eexists|by left].
  - destruct (status_ok st); simpl; (split; [by eexists|]); intros _.
    + by right.
    + by left.
Qed.

(** The button of the analysis is disabled exactly for a table that is
    being analysed or has a non-empty analysis. *)
Lemma analyzeDisabled_iff (t : ProcessedTable) :
  analyzeDisabled t = true
  <-> isAnalyzing t = true \/ exists s, analysis t = Some s /\ s <> "".
Proof.
  unfold analyzeDisabled. rewrite orb_true_iff. split.
  - intros [H|H]; [by left|right].
    destruct (analysis t) as [s|]; [|done]. exists s. split; [done|].
    intros ->. done.
  - intros [H|(s & -> & Hs)]; [by left|right].
    by rewrite bool_decide_eq_false_2.
Qed.

(** A call of [handleAnalyze] on a table that is not being analysed sends
    requests: it does not leave the state as it was. *)
Lemma handleAnalyze_idle_sends (index : nat) (w : world) (t : ProcessedTable) :
  tables w !! index = Some t ->
  isAnalyzing t = false ->
  handleAnalyze backend index w <> (Ok tt, w).
Proof.
  intros Ht Hidle E.
  rewrite (handleAnalyze_run backend index w t Ht Hidle) in E.
  apply (f_equal (fun r => length (calls (snd r)))) in E.
  cbn [snd calls] in E. rewrite !length_app in E. cbn [length] in E. lia.
Qed.

(** C4, as the code has it.  In the current iteration the guard against a
    second analysis is split between the button and the handler.  A click
    on the button does nothing - same state, no request - exactly when the
    table is being analysed or has a non-empty analysis; [handleAnalyze]
    itself does nothing exactly when the table is being analysed.  In the
    first iteration the handler has the whole guard: on a table that is
    being analysed or has a non-empty analysis it sends no request and
    leaves the tables and the banner as they were, and it shows the pop-up
    该数据已经分析过了. *)
Theorem analyze_rerun_blocked (index : nat) (w : world) (t : ProcessedTable)
    (we : Earlier.world) (te : Earlier.ProcessedTable) :
  tables w !! index = Some t ->
  Earlier.processedTables we !! index = Some te ->
  (clickAnalyze backend index w = (Ok tt, w)
   <-> isAnalyzing t = true \/ exists s, analysis t = Some s /\ s <> "")
  /\ (handleAnalyze backend index w = (Ok tt, w) <-> isAnalyzing t = true)
  /\ (Earlier.isAnalyzing te = true
        \/ (exists s, Earlier.analysis te = Some s /\ s <> "") ->
      Earlier.handleAnalyze backend index we
      = (Ok tt,
         Earlier.mkWorld (Earlier.processedTables we) (Earlier.apiStatus we)
           (Earlier.calls we)
           (Earlier.toasts we ++ [Earlier.ToastInfo "该数据已经分析过了"]))).
Proof.
  intros Ht Hte. split; [|split].
  - unfold clickAnalyze, bind, getTables, ret. rewrite Ht.
    rewrite <- analyzeDisabled_iff.
    destruct (analyzeDisabled t) eqn:Hdis; [done|]. split; [|done].
    intros E. exfalso. revert E. apply (handleAnalyze_idle_sends index w t Ht).
    unfold analyzeDisabled in Hdis. by apply orb_false_iff in Hdis as [? _].
  - split.
    + intros E. destruct (isAnalyzing t) eqn:Hrun; [done|].
      by destruct (handleAnalyze_idle_sends index w t Ht Hrun).
    + intros Hrun. unfold handleAnalyze, bind, getTables, ret.
      by rewrite Ht, Hrun.
  - intros Hguard.
    unfold Earlier.handleAnalyze, bind, Earlier.getProcessedTables.
    rewrite Hte.
    assert (Earlier.isAnalyzing te || Earlier.has_analysis te = true) as ->;
      [|done].
    apply orb_true_iff. destruct Hguard as [H|(s & Hs & Hne)]; [by left|right].
    unfold Earlier.has_analysis. rewrite Hs.
    by rewrite bool_decide_eq_false_2.
Qed.

(** C6.  When the request of the reduce step fails - the exchange breaks,
    the status is outside 2xx, the body cannot be decoded or has no
    [choices[0].message] - the run ends with the table marked [error], a
    message that names the cause, [isAnalyzing] back to false and [analysis]
    as it was before the run, whatever the batches returned. *)
Theorem reduce_failure_fails_run (index : nat) (w : world) (t : ProcessedTable) :
  tables w !! index = Some t ->
  isAnalyzing t = false ->
  exchangeFails (backend (length (calls w) + length (createBatches (data t)))) ->
  let run := handleAnalyze backend index w in
  fst run = Ok tt
  /\ (exists entries,
        calls (snd run)
        = calls w ++ map (batchRequest t) (createBatches (data t))
            ++ [SummaryRequest entries])
  /\ toasts (snd run) = toasts w ++ [ToastError "整体分析失败，请重试"]
  /\ exists t' msg,
       tables (snd run) !! index = Some t'
       /\ analysisApiStatus t' = Some error
       /\ analysisApiMessage t' = Some ("分析失败: " +:+ msg)
       /\ isAnalyzing t' = false
       /\ analysis t' = analysis t.
Proof.
  intros Ht Hidle Hfail run. subst run.
  rewrite (handleAnalyze_run backend index w t Ht Hidle). cbn [fst snd].
  apply (checkedMessage_fails (fun tail => "最终汇总API请求失败: " +:+ tail)
           "最终汇总API返回数据格式错误") in Hfail as [msg Hmsg].
  unfold summaryChecked. rewrite Hmsg. cbn [tables calls toasts analysisToast].
  split; [done|]. split; [by eexists|]. split; [done|].
  exists (analysisDone (inl msg) t), msg.
  rewrite updateAt_lookup, Ht. simpl.
  by rewrite bool_decide_eq_true_2.
Qed.

(** The one entry of a batch whose exchange gives a text or fails a check
    of the handler. *)
Lemma batchEntries_absorbed (j : nat) (o : http_outcome) :
  exchangeFails o \/ (exists text, exchangeText o = Some text) ->
  exists entry,
    batchEntries j o = [Some entry] /\ absorbedEntry j o entry.
Proof.
  intros Hcase. unfold batchEntries, batchChecked, checkedMessage, absorbedEntry.
  destruct o as [msg|st txt p]; [by eexists|].
  cbn [exchangeFails exchangeText] in Hcase.
  destruct (status_ok st); [|by eexists].
  destruct p as [b|]; [|eexists; split; [done|by eexists]].
  cbn [reply_content] in Hcase.
  destruct (first_message b) as [m|]; [|by eexists].
  destruct (content m) as [text|]; [by eexists|].
  destruct Hcase as [[?|?]|[text ?]]; done.
Qed.

(** X13.  A run on an idle table whose batches each give a text or fail one
    of the checks of the handler - the exchange breaks, the status is
    outside 2xx, the body cannot be decoded or has no [choices[0].message].
    The run ends normally; the reduce step receives exactly one entry per
    batch, in batch order: the text of the batch, or the placeholder
    批次k分析失败: message of that batch; and when the request of the reduce
    step gives a text, the run is a success with that text as the
    analysis. *)
Theorem batch_failures_absorbed (index : nat) (w : world) (t : ProcessedTable) :
  tables w !! index = Some t ->
  isAnalyzing t = false ->
  let batches := createBatches (data t) in
  let first := length (calls w) in
  (forall j, j < length batches ->
     exchangeFails (backend (first + j))
     \/ exists text, exchangeText (backend (first + j)) = Some text) ->
  let run := handleAnalyze backend index w in
  fst run = Ok tt
  /\ exists entries : list string,
       calls (snd run) = calls w ++ map (batchRequest t) batches
                           ++ [SummaryRequest (map Some entries)]
       /\ length entries = length batches
       /\ (forall j entry,
             entries !! j = Some entry ->
             absorbedEntry j (backend (first + j)) entry)
       /\ forall text,
            exchangeText (backend (first + length batches)) = Some text ->
            toasts (snd run) = toasts w ++ [ToastSuccess "整体分析完成！"]
            /\ exists t', tables (snd run) !! index = Some t'
                 /\ analysisApiStatus t' = Some success
                 /\ isAnalyzing t' = false
                 /\ analysis t' = Some text.
Proof.
  intros Ht Hidle batches first Hcase run. subst run.
  rewrite (handleAnalyze_run backend index w t Ht Hidle).
  cbn [fst snd calls tables toasts].
  fold batches. fold first. split; [done|].
  assert (Hentries : forall (bs : list (list ExcelData)) k,
    (forall j, j < length bs ->
       exchangeFails (backend (first + (k + j)))
       \/ exists text, exchangeText (backend (first + (k + j))) = Some text) ->
    exists entries : list string,
      concat (imap (fun j _ => batchEntries (k + j) (backend (first + (k + j)))) bs)
      = map Some entries
      /\ length entries = length bs
      /\ forall j entry,
           entries !! j = Some entry ->
           absorbedEntry (k + j) (backend (first + (k + j))) entry).
  { induction bs as [|b bs IH]; intros k Hbs.
    - exists []. by split.
    - destruct (batchEntries_absorbed (k + 0) (backend (first + (k + 0))))
        as (entry & Hentry & Habs).
      { apply Hbs. simpl. lia. }
      destruct (IH (S k)) as (entries & Hrest & Hlen & Hall).
      { intros j Hj. replace (S k + j) with (k + S j) by lia.
        apply Hbs. simpl. lia. }
      exists (entry :: entries). split; [|split].
      + cbn [imap concat map]. rewrite Hentry. cbn [app]. f_equal.
        rewrite <- Hrest. f_equal. apply imap_ext. intros j x _. cbn.
        by replace (k + S j) with (S k + j) by lia.
      + simpl. by rewrite Hlen.
      + intros [|j] e He.
        * injection He as <-. exact Habs.
        * replace (k + S j) with (S k + j) by lia. by apply Hall. }
  destruct (Hentries batches 0) as (entries & Hconcat & Hlen & Hall).
  { intros j Hj. by apply Hcase. }
  exists entries. split.
  { unfold allEntries. by rewrite <- Hconcat. }
  split; [done|]. split; [exact Hall|].
  intros text Htext.
  assert (Hsum : summaryChecked (backend (first + length batches)) = inr text).
  { unfold summaryChecked, checkedMessage.
    destruct (backend (first + length batches)) as [msg|st txt p]; [done|].
    simpl in Htext. destruct (status_ok st); [|done].
    destruct p as [b|]; [|done]. simpl in Htext.
    destruct (first_message b) as [m|]; [|done].
    by rewrite Htext. }
  rewrite Hsum. split; [done|].
  exists (analysisDone (inr text) t).
  rewrite updateAt_lookup, Ht. simpl. by rewrite bool_decide_eq_true_2.
Qed.

End AnalysisRuns.

(** ** Classification runs *)

Section ClassificationRuns.

Import Later LaterSpec.

Variable backend : nat -> http_outcome.

Lemma topicsDone_data v t : data (topicsDone v t) = data t.
Proof. by destruct v. Qed.

(** C7.  On a table whose rows all have an answer text, and with at least
    one topic given, [handleTopicsAnalysis] ends normally and goes through
    every row: a row of white space only sends no request and is marked
    "内容为空"; every other row sends exactly one request and is marked with
    the answer of the backend, or with "分析失败" when that exchange fails or
    carries no text.  The requests of the rows are followed by the closing
    request, and the run is marked [error] exactly when the closing request
    fails, whatever happened to the rows. *)
Theorem classification_rows_independent (index : nat) (w : world)
    (t : ProcessedTable) :
  tables w !! index = Some t ->
  isAnalyzingTopics t = false ->
  topicsOf (commonTopicsInput w) <> [] ->
  forallb (rowHasText t) (data t) = true ->
  let topics := topicsOf (commonTopicsInput w) in
  let run := handleTopicsAnalysis backend index w in
  let sent g :=
    length (calls w)
    + length (flat_map (rowRequest t topics) (take g (data t))) in
  let closing := backend (sent (length (data t))) in
  fst run = Ok tt
  /\ calls (snd run)
     = calls w ++ flat_map (rowRequest t topics) (data t)
         ++ [TopicsSummaryRequest topics (analysisDataOf t)]
  /\ exists t',
       tables (snd run) !! index = Some t'
       /\ length (data t') = length (data t)
       /\ (forall g row text,
             data t !! g = Some row ->
             rowContent t row = Some (CStr text) ->
             (trim text = "" ->
                rowRequest t topics row = []
                /\ data t' !! g = Some (<[ "共性内容分析" := CStr "内容为空" ]> row))
             /\ (trim text <> "" ->
                rowRequest t topics row
                  = [TopicRequest (columnNameOf (name t)) text topics]
                /\ data t' !! g
                   = Some (<[ "共性内容分析" := CStr (topicVerdict (backend (sent g))) ]>
                             row)))
       /\ (exchangeFails closing ->
           topicsApiStatus t' = Some error /\ isAnalyzingTopics t' = false)
       /\ (~ exchangeFails closing ->
           topicsApiStatus t' = Some success /\ isAnalyzingTopics t' = false).
Proof.
  intros Ht Hidle Htopics Htext topics run sent closing. subst run.
  rewrite (handleTopicsAnalysis_run backend index w t Ht Hidle Htopics).
  cbn [fst snd calls tables]. fold topics.
  split; [done|]. split; [done|].
  set (v := topicsChecked
              (backend (length (calls w)
                        + length (flat_map (rowRequest t topics) (data t))))).
  set (D := markBatches backend t topics (createBatches (data t)) 0
              (length (calls w))).
  exists (topicsDone v (set_data (D (data t)) (set_commonTopics topics t))).
  split.
  { rewrite updateAt_lookup, Ht. simpl. by rewrite bool_decide_eq_true_2. }
  split.
  { rewrite topicsDone_data. simpl. apply marked_length. }
  assert (Hclosing : closing
            = backend (length (calls w)
                       + length (flat_map (rowRequest t topics) (data t)))).
  { unfold closing, sent. by rewrite firstn_all. }
  split; [|split].
  - intros g row text Hg Hrow.
    rewrite topicsDone_data. simpl. unfold D.
    rewrite (marked_lookup backend t topics _ _ g row Hg).
    assert (Hne : text <> "").
    { rewrite forallb_forall in Htext.
      assert (Hin : In row (data t)).
      { apply list_elem_of_In. by eapply list_elem_of_lookup_2. }
      specialize (Htext row Hin). unfold rowHasText in Htext.
      rewrite Hrow in Htext. intros ->. done. }
    unfold rowMark, rowRequest. rewrite Hrow.
    rewrite (bool_decide_eq_false_2 _ Hne).
    split; intros Hblank.
    + by rewrite (bool_decide_eq_true_2 _ Hblank).
    + by rewrite (bool_decide_eq_false_2 _ Hblank).
  - intros Hfail. rewrite Hclosing in Hfail.
    apply (checkedMessage_fails (fun tail => "API请求失败: " +:+ tail)
             "API返回数据格式错误") in Hfail as [msg Hmsg].
    subst v. unfold topicsChecked. by rewrite Hmsg.
  - intros Hok. rewrite Hclosing in Hok.
    subst v. unfold topicsChecked.
    destruct (checkedMessage _ _ _) as [msg|m] eqn:E; [|done].
    exfalso. apply Hok.
    apply (checkedMessage_fails (fun tail => "API请求失败: " +:+ tail)
             "API返回数据格式错误"). by exists msg.
Qed.

(** The closing request of a classification run is built from the table as
    it was when the handler was called: the records carry the 共性内容分析 that
    the rows had before the run. *)
Lemma closing_payload_from_snapshot (index : nat) (w : world)
    (t : ProcessedTable) :
  tables w !! index = Some t ->
  isAnalyzingTopics t = false ->
  topicsOf (commonTopicsInput w) <> [] ->
  let topics := topicsOf (commonTopicsInput w) in
  last (calls (snd (handleTopicsAnalysis backend index w)))
  = Some (TopicsSummaryRequest topics
            (map (fun row : ExcelData =>
                    {| a_userInfo := rowUserInfo row;
                       a_questionContent := rowContent t row;
                       a_topicAnalysis :=
                         js_or (row !! "共性内容分析") (Some (CStr "")) |})
               (data t))).
Proof.
  intros Ht Hidle Htopics topics.
  rewrite (handleTopicsAnalysis_run backend index w t Ht Hidle Htopics).
  cbn [snd calls]. by rewrite !app_assoc, last_snoc.
Qed.

End ClassificationRuns.

(** ** The first iteration *)

Section EarlierRuns.

Import Earlier.

Variable backend : nat -> http_outcome.

Lemma analysisText_nonempty o : analysisText o <> "".
Proof.
  destruct o as [msg|st txt p]; simpl; [done|].
  destruct (status_ok st); [|done].
  destruct (reply_content p) as [text|]; [|done].
  by case_bool_decide.
Qed.

Lemma analyzeDataWithDeepSeek_run rows columnName w :
  exists status,
    analyzeDataWithDeepSeek backend rows columnName w
    = (Ok (analysisText (backend (length (calls w)))),
       mkWorld (processedTables w) status
         (calls w ++ [AnalysisRequest columnName rows]) (toasts w)).
Proof.
  unfold analyzeDataWithDeepSeek, analysisText.
  unfold try_catch, bind, ret, setApiStatus, axios_post, log_call. simpl.
  destruct (backend (length (calls w))) as [msg|st txt p]; simpl.
  - by eexists.
  - destruct (status_ok st); simpl.
    + destruct (reply_content p) as [text|]; simpl.
      * case_bool_decide; simpl; by eexists.
      * by eexists.
    + by eexists.
Qed.

(** C10.  In the first iteration the request of [handleAnalyze] cannot
    make the run fail.  Whatever the exchange brings, the handler ends
    normally without the failure pop-up, and the table is the one it was
    with a non-empty [analysis] filled in and nothing else changed: the text
    of the answer when there is one, "无分析结果" when a 2xx body has no text,
    "数据分析失败，请稍后重试" when the exchange breaks or the status is outside
    2xx.  After that the guard of [handleAnalyze] holds: a second call only
    shows the pop-up "该数据已经分析过了" and sends nothing. *)
Theorem earlier_analysis_never_fails (index : nat) (w : world)
    (t : ProcessedTable) :
  processedTables w !! index = Some t ->
  isAnalyzing t = false ->
  has_analysis t = false ->
  columns t <> [] ->
  let o := backend (length (calls w)) in
  let run := handleAnalyze backend index w in
  fst run = Ok tt
  /\ toasts (snd run) = toasts w
  /\ length (calls (snd run)) = S (length (calls w))
  /\ processedTables (snd run)
     = <[ index := set_analysis (Some (analysisText o)) t ]> (processedTables w)
  /\ analysisText o <> ""
  /\ (forall text, exchangeText o = Some text -> text <> "" ->
        analysisText o = text)
  /\ (exchangeText o = None \/ exchangeText o = Some "" ->
        analysisText o = "无分析结果" \/ analysisText o = "数据分析失败，请稍后重试")
  /\ forall backend2,
       handleAnalyze backend2 index (snd run)
       = (Ok tt,
          mkWorld (processedTables (snd run)) (apiStatus (snd run))
            (calls (snd run))
            (toasts (snd run) ++ [ToastInfo "该数据已经分析过了"])).
Proof.
  intros Ht Hidle Hnone Hcols o run.
  assert (Hlt : index < length (processedTables w)) by (by eapply lookup_lt_Some).
  assert (Hrun : exists status,
    run = (Ok tt,
           mkWorld
             (<[ index := set_isAnalyzing false
                            (set_analysis (Some (analysisText o))
                               (set_isAnalyzing true t)) ]>
                (<[ index := set_isAnalyzing true t ]> (processedTables w)))
             status
             (calls w ++ [AnalysisRequest
                            (match last (columns t) with
                             | Some c => title c
                             | None => ""
                             end) (data t)])
             (toasts w))).
  { subst run. unfold handleAnalyze. unfold bind at 1. unfold getProcessedTables.
    rewrite Ht, Hidle, Hnone. cbn [orb].
    unfold bind at 1. unfold setProcessedTables at 1.
    unfold try_catch. cbn [columns set_isAnalyzing].
    destruct (last (columns t)) as [c|] eqn:Hlast.
    - unfold bind at 1.
      match goal with
      | |- context [analyzeDataWithDeepSeek _ ?rows ?cn ?W] =>
          destruct (analyzeDataWithDeepSeek_run rows cn W) as [status E];
          rewrite E
      end.
      exists status. unfold setProcessedTables. done.
    - exfalso. apply last_None in Hlast. done. }
  destruct Hrun as [status Hrun]. rewrite Hrun. cbn [fst snd toasts calls processedTables apiStatus].
  split; [done|]. split; [done|].
  split; [by rewrite length_app, Nat.add_1_r|].
  split.
  { rewrite list_insert_insert_eq. f_equal.
    destruct t; simpl in *. by subst. }
  split; [apply analysisText_nonempty|].
  split.
  { intros text Htext Hne. subst o. unfold analysisText.
    destruct (backend (length (calls w))) as [msg|st txt p]; [done|].
    simpl in Htext. destruct (status_ok st); [|done].
    rewrite Htext. by rewrite bool_decide_eq_false_2. }
  split.
  { intros Hno. subst o. unfold analysisText.
    destruct (backend (length (calls w))) as [msg|st txt p]; [by right|].
    simpl in Hno. destruct (status_ok st); [|by right].
    destruct Hno as [E|E]; rewrite E; by left. }
  intros backend2. unfold handleAnalyze. unfold bind at 1. unfold getProcessedTables.
  cbn [processedTables].
  rewrite list_lookup_insert_eq by (by rewrite length_insert).
  unfold has_analysis. cbn [isAnalyzing analysis set_isAnalyzing set_analysis].
  rewrite (bool_decide_eq_false_2 _ (analysisText_nonempty o)). done.
Qed.

End EarlierRuns.

(** ** The theorems at concrete sheets and backends *)

(** The tables of the examples are the ones the two iterations build from
    the sheet. *)
Lemma demo_table_built :
  Later.processExcelFile demo_columns demo_rows = Some [demo_table].
Proof. by vm_compute. Qed.

Lemma demo_table_earlier_built :
  Earlier.remainingColumns demo_columns demo_rows = ["Q_text"].
Proof. by vm_compute. Qed.

(** The tables analysed once with the answer "S", in both iterations: the
    click of the current iteration does nothing, and the handler of the
    first iteration only shows its pop-up. *)
Lemma analyze_rerun_blocked_witness :
  Later.analysis analyzed_table = Some "S"
  /\ Earlier.analysis analyzed_table_earlier = Some "S"
  /\ Later.clickAnalyze backend_ok 0 analyzed_world = (Ok tt, analyzed_world)
  /\ Earlier.handleAnalyze backend_ok 0 analyzed_world_earlier
     = (Ok tt,
        Earlier.mkWorld (Earlier.processedTables analyzed_world_earlier)
          (Earlier.apiStatus analyzed_world_earlier)
          (Earlier.calls analyzed_world_earlier)
          (Earlier.toasts analyzed_world_earlier
           ++ [Earlier.ToastInfo "该数据已经分析过了"])).
Proof.
  destruct (analyze_rerun_blocked backend_ok 0 analyzed_world analyzed_table
              analyzed_world_earlier analyzed_table_earlier)
    as (Hclick & _ & Hearlier).
  - vm_compute. reflexivity.
  - vm_compute. reflexivity.
  - split; [vm_compute; reflexivity|]. split; [vm_compute; reflexivity|].
    split.
    + apply Hclick. right. exists "S". split; [vm_compute; reflexivity|].
      discriminate.
    + apply Hearlier. right. exists "S". split; [vm_compute; reflexivity|].
      discriminate.
Defined.

(** Two clicks on the button of the analysis, the reduce step of the first
    run being answered with the empty string.  The first run ends as a
    success and stores the empty summary; the button is enabled again, and
    the second click analyses the table once more: two more requests, and
    another summary. *)
Lemma handleAnalyze_rerun_counterexample :
  let first := Later.clickAnalyze backend_empty_summary 0 demo_world in
  let second := Later.clickAnalyze backend_empty_summary 0 (snd first) in
  fst first = Ok tt
  /\ (exists t,
        Later.tables (snd first) !! 0 = Some t
        /\ Later.analysis t = Some ""
        /\ Later.analysisApiStatus t = Some Later.success
        /\ Later.analysisApiMessage t = Some "整体分析完成！"
        /\ Later.isAnalyzing t = false
        /\ Later.analyzeDisabled t = false)
  /\ Later.toasts (snd first) = [Later.ToastSuccess "整体分析完成！"]
  /\ length (Later.calls (snd first)) = 2
  /\ fst second = Ok tt
  /\ length (Later.calls (snd second)) = 4
  /\ exists t,
       Later.tables (snd second) !! 0 = Some t
       /\ Later.analysis t = Some "S".
Proof.
  cbv zeta. split; [by vm_compute|]. split.
  { eexists. split; [by vm_compute|]. by vm_compute. }
  split; [by vm_compute|]. split; [by vm_compute|]. split; [by vm_compute|].
  split; [by vm_compute|].
  eexists. split; by vm_compute.
Qed.

(** C5 at a run of one batch whose answer has a [message] without
    [content]: the value [undefined] is pushed, the log line that follows
    throws, and the placeholder is pushed as well.  The reduce step receives
    two entries for one batch. *)
Theorem batch_without_content_two_entries :
  let run := Later.handleAnalyze backend_no_content 0 demo_world in
  length (createBatches (Later.data demo_table)) = 1
  /\ last (Later.calls (snd run))
     = Some (Later.SummaryRequest
               [None;
                Some "批次1分析失败: Cannot read properties of undefined (reading 'length')"]).
Proof. by vm_compute. Qed.

Lemma reduce_failure_fails_run_witness :
  let run := Later.handleAnalyze backend_reduce_500 0 demo_world in
  fst run = Ok tt
  /\ (exists entries,
        Later.calls (snd run)
        = Later.calls demo_world
            ++ map (LaterSpec.batchRequest demo_table)
                 (createBatches (Later.data demo_table))
            ++ [Later.SummaryRequest entries])
  /\ Later.toasts (snd run)
     = Later.toasts demo_world ++ [Later.ToastError "整体分析失败，请重试"]
  /\ exists t' msg,
       Later.tables (snd run) !! 0 = Some t'
       /\ Later.analysisApiStatus t' = Some Later.error
       /\ Later.analysisApiMessage t' = Some ("分析失败: " +:+ msg)
       /\ Later.isAnalyzing t' = false
       /\ Later.analysis t' = Later.analysis demo_table.
Proof.
  apply (reduce_failure_fails_run backend_reduce_500 0 demo_world demo_table).
  - reflexivity.
  - reflexivity.
  - vm_compute. left. reflexivity.
Defined.

Lemma classification_rows_independent_witness :
  let t := demo_table in
  let w := demo_world in
  let topics := LaterSpec.topicsOf (Later.commonTopicsInput w) in
  let run := Later.handleTopicsAnalysis backend_row_failure 0 w in
  let sent g :=
    length (Later.calls w)
    + length (flat_map (LaterSpec.rowRequest t topics) (take g (Later.data t))) in
  let closing := backend_row_failure (sent (length (Later.data t))) in
  fst run = Ok tt
  /\ Later.calls (snd run)
     = Later.calls w ++ flat_map (LaterSpec.rowRequest t topics) (Later.data t)
         ++ [Later.TopicsSummaryRequest topics (Later.analysisDataOf t)]
  /\ exists t',
       Later.tables (snd run) !! 0 = Some t'
       /\ length (Later.data t') = length (Later.data t)
       /\ (forall g row text,
             Later.data t !! g = Some row ->
             Later.rowContent t row = Some (CStr text) ->
             (trim text = "" ->
                LaterSpec.rowRequest t topics row = []
                /\ Later.data t' !! g
                   = Some (<[ "共性内容分析" := CStr "内容为空" ]> row))
             /\ (trim text <> "" ->
                LaterSpec.rowRequest t topics row
                  = [Later.TopicRequest (columnNameOf (Later.name t)) text topics]
                /\ Later.data t' !! g
                   = Some (<[ "共性内容分析" :=
                                CStr (LaterSpec.topicVerdict
                                        (backend_row_failure (sent g))) ]> row)))
       /\ (exchangeFails closing ->
           Later.topicsApiStatus t' = Some Later.error
           /\ Later.isAnalyzingTopics t' = false)
       /\ (~ exchangeFails closing ->
           Later.topicsApiStatus t' = Some Later.success
           /\ Later.isAnalyzingTopics t' = false).
Proof.
  apply (classification_rows_independent backend_row_failure 0 demo_world
           demo_table).
  - reflexivity.
  - reflexivity.
  - vm_compute. discriminate.
  - vm_compute. reflexivity.
Defined.

(** C8 at a run in which every request is answered with "S".  The eleven
    rows of the table end marked "S", but for the second, of white space
    only, marked "内容为空"; the payload of the closing request carries an empty
    共性内容分析 for every row. *)
Theorem closing_payload_lacks_marks :
  let run := Later.handleTopicsAnalysis backend_ok 0 demo_world in
  map (fun t => map (fun r : ExcelData => r !! "共性内容分析") (Later.data t))
      (Later.tables (snd run))
    = [ Some (CStr "S") :: Some (CStr "内容为空") :: replicate 9 (Some (CStr "S")) ]
  /\ exists topics items,
       last (Later.calls (snd run))
         = Some (Later.TopicsSummaryRequest topics items)
       /\ map Later.a_topicAnalysis items = replicate 11 (Some (CStr "")).
Proof.
  split; [by vm_compute|].
  eexists _, _. split; [vm_compute; reflexivity|]. by vm_compute.
Qed.

Lemma earlier_analysis_never_fails_witness :
  let w := demo_world_earlier in
  let t := demo_table_earlier in
  let o := backend_down (length (Earlier.calls w)) in
  let run := Earlier.handleAnalyze backend_down 0 w in
  fst run = Ok tt
  /\ Earlier.toasts (snd run) = Earlier.toasts w
  /\ length (Earlier.calls (snd run)) = S (length (Earlier.calls w))
  /\ Earlier.processedTables (snd run)
     = <[ 0 := Earlier.set_analysis (Some (Earlier.analysisText o)) t ]>
         (Earlier.processedTables w)
  /\ Earlier.analysisText o <> ""
  /\ (forall text, exchangeText o = Some text -> text <> "" ->
        Earlier.analysisText o = text)
  /\ (exchangeText o = None \/ exchangeText o = Some "" ->
        Earlier.analysisText o = "无分析结果"
        \/ Earlier.analysisText o = "数据分析失败，请稍后重试")
  /\ forall backend2,
       Earlier.handleAnalyze backend2 0 (snd run)
       = (Ok tt,
          Earlier.mkWorld (Earlier.processedTables (snd run))
            (Earlier.apiStatus (snd run)) (Earlier.calls (snd run))
            (Earlier.toasts (snd run) ++ [Earlier.ToastInfo "该数据已经分析过了"])).
Proof.
  apply (earlier_analysis_never_fails backend_down 0 demo_world_earlier
           demo_table_earlier).
  - reflexivity.
  - reflexivity.
  - reflexivity.
  - vm_compute. discriminate.
Defined.

(* ================================================================== *)
(** ** Substrings and letter case *)
(* ================================================================== *)

Section Substrings.

Lemma prefix_iff (p s : string) :
  String.prefix p s = true <-> exists b, s = p +:+ b.
Proof.
  revert s. induction p as [|x p IH]; intros s; simpl.
  - split; [intros _; exists s; reflexivity|intros _; by destruct s].
  - destruct s as [|y s]; simpl.
    + split; [done|]. intros [b Hb]. by rewrite string_append_cons in Hb.
    + destruct (Ascii.ascii_dec x y) as [->|Hne].
      * rewrite IH. split; intros [b Hb]; exists b.
        -- by rewrite string_append_cons, Hb.
        -- rewrite string_append_cons in Hb. by injection Hb.
      * split; [done|]. intros [b Hb]. rewrite string_append_cons in Hb.
        injection Hb as E _. by destruct Hne.
Qed.

Lemma includes_iff (needle hay : string) :
  includes needle hay = true <-> exists a b, hay = a +:+ needle +:+ b.
Proof.
  induction hay as [|y hay IH].
  - cbn [includes]. rewrite orb_false_r, prefix_iff. split.
    + intros [b Hb]. exists "", b. by rewrite string_append_nil_l.
    + intros (a & b & E). destruct a as [|x a]; [|by rewrite string_append_cons in E].
      rewrite string_append_nil_l in E. by exists b.
  - cbn [includes]. rewrite orb_true_iff, prefix_iff, IH. split.
    + intros [[b Hb]|(a & b & E)].
      * exists "", b. by rewrite string_append_nil_l.
      * exists (String y a), b. by rewrite string_append_cons, E.
    + intros (a & b & E). destruct a as [|x a].
      * left. exists b. by rewrite string_append_nil_l in E.
      * right. rewrite string_append_cons in E. injection E as _ E. by exists a, b.
Qed.

Lemma toLowerCase_append (a b : string) :
  toLowerCase (a +:+ b) = toLowerCase a +:+ toLowerCase b.
Proof.
  induction a as [|x a IH]; [done|].
  rewrite string_append_cons. simpl. by rewrite IH, string_append_cons.
Qed.

Lemma toLowerCase_split (s x y : string) :
  toLowerCase s = x +:+ y ->
  exists s1 s2, s = s1 +:+ s2 /\ toLowerCase s1 = x /\ toLowerCase s2 = y.
Proof.
  revert s. induction x as [|c x IH]; intros s E.
  - exists "", s. by rewrite !string_append_nil_l in *.
  - rewrite string_append_cons in E. destruct s as [|d s]; [done|].
    simpl in E. injection E as Ec E.
    destruct (IH s E) as (s1 & s2 & -> & E1 & E2).
    exists (String d s1), s2. rewrite string_append_cons. simpl.
    by rewrite Ec, E1.
Qed.

(** A character that is not a small letter is the lower case of itself
    only. *)
Lemma lower_ascii_inv (a c : ascii) :
  lower_ascii a = c ->
  (nat_of_ascii c <? 97) || (122 <? nat_of_ascii c) = true ->
  a = c.
Proof.
  intros <-.
  destruct a as [[] [] [] [] [] [] [] []]; vm_compute; congruence.
Qed.

Lemma toLowerCase_inv (m s : string) :
  toLowerCase m = s ->
  (forall c, In c (list_ascii_of_string s) ->
     (nat_of_ascii c <? 97) || (122 <? nat_of_ascii c) = true) ->
  m = s.
Proof.
  revert s. induction m as [|a m IH]; intros s E Hs.
  - by destruct s.
  - destruct s as [|c s]; [done|]. simpl in E. injection E as Ea E.
    f_equal.
    + apply lower_ascii_inv; [done|]. apply Hs. by left.
    + apply IH; [done|]. intros c' Hc'. apply Hs. by right.
Qed.

End Substrings.

Section Policies.

(** X5.  The marker policy of the current iteration keeps a header exactly
    when the header contains 分列, or the letters t, e, x, t in a row in any
    mix of upper and lower case, anywhere in it. *)
Theorem marker_policy_keeps (columnName : string) :
  Later.shouldSkipColumn columnName = false <->
  exists a m b,
    columnName = a +:+ m +:+ b /\ (toLowerCase m = "text" \/ m = "分列").
Proof.
  unfold Later.shouldSkipColumn.
  rewrite <- negb_orb, negb_false_iff, orb_true_iff, !includes_iff.
  split.
  - intros [(a' & b' & E)|(a' & b' & E)].
    + apply toLowerCase_split in E as (a & r & -> & Ea & E).
      apply toLowerCase_split in E as (m & b & -> & Em & Eb).
      exists a, m, b. split; [done|by left].
    + apply toLowerCase_split in E as (a & r & -> & Ea & E).
      apply toLowerCase_split in E as (m & b & -> & Em & Eb).
      exists a, m, b. split; [done|right].
      apply toLowerCase_inv; [done|].
      intros c Hc. vm_compute in Hc.
      repeat (destruct Hc as [<-|Hc]; [by vm_compute|]). done.
  - intros (a & m & b & -> & [E|E]).
    + left. exists (toLowerCase a), (toLowerCase b).
      by rewrite !toLowerCase_append, E.
    + right. exists (toLowerCase a), (toLowerCase b).
      rewrite !toLowerCase_append, E. done.
Qed.


Lemma includes_mid (a p b : string) : includes p (a +:+ p +:+ b) = true.
Proof. apply includes_iff. by exists a, b. Qed.

(** The disjunct of the word that stands between [a] and [b]. *)
Ltac pick_word a b :=
  first [ left; by exists a, b | right; pick_word a b ].

(** X6.  The blacklist of the first iteration skips a header exactly
    when the header contains one of the thirteen words of the list, or the
    letters u, c, i, d in a row in any mix of upper and lower case.  The
    branch for a header that is nothing but a choice marker adds nothing:
    such a header contains 单选 or 多选 and is skipped by the list. *)
Theorem blacklist_policy_skips (columnName : string) :
  Earlier.shouldSkipColumn columnName = true <->
  exists a p b,
    columnName = a +:+ p +:+ b
    /\ (In p [ "单选"; "多选"; "开始时间"; "结束时间"; "组织编码"; "组织信息";
               "岗位名称"; "公司所在城市"; "工作所在城市"; "品牌"; "门店信息";
               "条线"; "所属组织" ]
        \/ toLowerCase p = "ucid").
Proof.
  unfold Earlier.shouldSkipColumn.
  match goal with
  | |- (if ?c then true else ?e) = true <-> _ =>
      assert (Hsame : (if c then true else e) = e)
  end.
  { cbn [existsb].
    destruct (includes "单选" columnName); [by destruct (bool_decide _)|].
    destruct (includes "多选" columnName); [by destruct (bool_decide _)|].
    done. }
  rewrite Hsame. clear Hsame. cbn [existsb].
  rewrite !orb_true_iff, !includes_iff. split.
  - intros H.
    repeat match type of H with
           | _ \/ _ => destruct H as [H|H]
           end;
      try done;
      destruct H as (a & b & E);
      try (exists a; eexists; exists b; split; [exact E|left; cbn; tauto]).
    apply toLowerCase_split in E as (a0 & r & -> & Ea & E).
    apply toLowerCase_split in E as (m & b0 & -> & Em & Eb).
    exists a0, m, b0. split; [done|by right].
  - intros (a & p & b & -> & [Hin|Hl]).
    + cbn in Hin.
      repeat (destruct Hin as [<-|Hin]; [pick_word a b|]). done.
    + do 6 right. left. exists (toLowerCase a), (toLowerCase b).
      by rewrite !toLowerCase_append, Hl.
Qed.

End Policies.

(* ================================================================== *)
(** ** The upload *)
(* ================================================================== *)

Section UploadFacts.

Import Upload.

Lemma split_dot_nonempty (s : string) : split_dot s <> [].
Proof.
  destruct s as [|a s]; simpl; [done|].
  destruct (Ascii.eqb a "."); [done|]. by destruct (split_dot s).
Qed.

Lemma includes_dot_cons (a : ascii) (s : string) :
  includes "." (String a s) = Ascii.eqb a "." || includes "." s.
Proof.
  cbn [includes]. f_equal.
  destruct a as [[] [] [] [] [] [] [] []]; simpl; try reflexivity; by destruct s.
Qed.

Lemma split_dot_no_dot (ext : string) :
  includes "." ext = false -> split_dot ext = [ext].
Proof.
  induction ext as [|a ext IH]; [done|].
  rewrite includes_dot_cons, orb_false_iff. intros [Ha Hext].
  simpl. by rewrite Ha, IH.
Qed.

Lemma split_dot_append (base ext : string) :
  split_dot (base +:+ "." +:+ ext) = split_dot base ++ split_dot ext.
Proof.
  induction base as [|a base IH].
  - by rewrite string_append_nil_l.
  - rewrite string_append_cons. simpl. rewrite IH.
    destruct (Ascii.eqb a "."); [done|].
    pose proof (split_dot_nonempty base). by destruct (split_dot base).
Qed.

Lemma dot_decompose (name : string) :
  includes "." name = false
  \/ exists base ext, name = base +:+ "." +:+ ext /\ includes "." ext = false.
Proof.
  induction name as [|a name IH]; [by left|].
  destruct IH as [Hno|(base & ext & -> & Hext)].
  - destruct (Ascii.eqb a ".") eqn:Ha.
    + right. apply Ascii.eqb_eq in Ha as ->. exists "", name.
      by rewrite string_append_nil_l.
    + left. by rewrite includes_dot_cons, Ha, Hno.
  - right. exists (String a base), ext. by rewrite string_append_cons.
Qed.

Lemma fileType_no_dot (ext : string) :
  includes "." ext = false -> fileType ext = Some (toLowerCase ext).
Proof. intros H. unfold fileType. by rewrite split_dot_no_dot. Qed.

Lemma fileType_dot (base ext : string) :
  includes "." ext = false ->
  fileType (base +:+ "." +:+ ext) = Some (toLowerCase ext).
Proof.
  intros H. unfold fileType.
  by rewrite split_dot_append, (split_dot_no_dot _ H), last_snoc.
Qed.

Lemma processExcelFile_ok (file : sheet_read) (w : world) :
  fst (processExcelFile file w) = Ok tt.
Proof.
  unfold processExcelFile. destruct file as [|cols rows]; [done|].
  unfold bind. simpl. by destruct (Later.processExcelFile cols rows).
Qed.

(** X7.  [handleUpload] goes by the piece of the file name after its last
    dot, the whole name when it has no dot: the sheet is processed when that
    piece, its letters A..Z made small, is "xlsx" or "xls"; otherwise the
    only effect is the pop-up 请上传Excel文件！.  Either way the handler returns
    [false]. *)
Theorem handleUpload_by_extension (file : UploadFile) (w : world) :
  let accepted :=
    exists base ext,
      (file_name file = ext \/ file_name file = base +:+ "." +:+ ext)
      /\ includes "." ext = false
      /\ (toLowerCase ext = "xlsx" \/ toLowerCase ext = "xls") in
  (accepted ->
     handleUpload file w = (Ok false, snd (processExcelFile (file_sheet file) w)))
  /\ (~ accepted ->
     handleUpload file w
     = (Ok false, mkWorld (tables w) (loading w) (toasts w ++ [NotExcel]))).
Proof.
  intros accepted. unfold handleUpload. split.
  - intros (base & ext & Hname & Hext & Hlow).
    assert (Hft : fileType (file_name file) = Some (toLowerCase ext)).
    { destruct Hname as [E|E]; rewrite E;
        [by apply fileType_no_dot|by apply fileType_dot]. }
    rewrite Hft.
    assert (Hc : negb (bool_decide (Some (toLowerCase ext) = Some "xlsx"))
                 && negb (bool_decide (Some (toLowerCase ext) = Some "xls"))
                 = false).
    { destruct Hlow as [E|E]; rewrite E; done. }
    rewrite Hc. unfold bind.
    pose proof (processExcelFile_ok (file_sheet file) w) as Hok.
    destruct (processExcelFile (file_sheet file) w) as [r w']. simpl in Hok.
    by rewrite Hok.
  - intros Hnot.
    assert (Hc : negb (bool_decide (fileType (file_name file) = Some "xlsx"))
                 && negb (bool_decide (fileType (file_name file) = Some "xls"))
                 = true).
    { apply andb_true_intro. split; apply negb_true_iff, bool_decide_eq_false_2;
        intros Hft; apply Hnot.
      - destruct (dot_decompose (file_name file)) as [Hno|(base & ext & E & Hext)].
        + exists "", (file_name file). split; [by left|]. split; [done|left].
          rewrite (fileType_no_dot _ Hno) in Hft. by injection Hft.
        + exists base, ext. split; [by right|]. split; [done|left].
          rewrite E, (fileType_dot _ _ Hext) in Hft. by injection Hft.
      - destruct (dot_decompose (file_name file)) as [Hno|(base & ext & E & Hext)].
        + exists "", (file_name file). split; [by left|]. split; [done|right].
          rewrite (fileType_no_dot _ Hno) in Hft. by injection Hft.
        + exists base, ext. split; [by right|]. split; [done|right].
          rewrite E, (fileType_dot _ _ Hext) in Hft. by injection Hft. }
    rewrite Hc. done.
Qed.

(** X8.  Every upload whose file is delivered by the reader ends with
    exactly one pop-up, and the pop-up tells what happened to the state.
    With the success pop-up the tables are replaced by the tables of the
    sheet, and the pop-up counts them; with any of the three error pop-ups
    the tables are the ones of before.  An accepted file never leaves
    [loading] set; a refused one does not touch it. *)
Theorem upload_outcome (file : UploadFile) (w : world) :
  let run := handleUpload file w in
  fst run = Ok false
  /\ exists pop,
       toasts (snd run) = toasts w ++ [pop]
       /\ match pop with
          | Processed n =>
              n = length (tables (snd run))
              /\ loading (snd run) = false
              /\ exists allColumns jsonData,
                   file_sheet file = Sheet allColumns jsonData
                   /\ Later.processExcelFile allColumns jsonData
                      = Some (tables (snd run))
          | EmptySheet =>
              tables (snd run) = tables w /\ loading (snd run) = false
              /\ exists allColumns, file_sheet file = Sheet allColumns []
          | ReadFailed =>
              tables (snd run) = tables w /\ loading (snd run) = false
              /\ file_sheet file = Unreadable
          | NotExcel =>
              tables (snd run) = tables w /\ loading (snd run) = loading w
          end.
Proof.
  intros run. subst run. unfold handleUpload.
  destruct (negb _ && negb _).
  { split; [done|]. exists NotExcel. done. }
  unfold processExcelFile, bind.
  destruct (file_sheet file) as [|allColumns jsonData] eqn:Hsheet.
  { split; [done|]. exists ReadFailed. done. }
  cbn. destruct (Later.processExcelFile allColumns jsonData) as [ts|] eqn:Hts.
  - split; [done|]. exists (Processed (length ts)). cbn. by eauto 10.
  - split; [done|]. exists EmptySheet. cbn. repeat (split; [done|]).
    unfold Later.processExcelFile in Hts.
    destruct jsonData; [by eexists|done].
Qed.

End UploadFacts.

(* ================================================================== *)
(** ** From the sheet to the tables *)
(* ================================================================== *)

Section SheetToTables.

Import Later.

Lemma length_remove_dups {A} `{EqDecision A} (l : list A) :
  length (remove_dups l) <= length l.
Proof.
  induction l as [|x l IH]; simpl; [done|].
  destruct (decide_rel elem_of x l); simpl; lia.
Qed.

Lemma uniqueCount_le_kept (jsonData : list ExcelData) (column : string) :
  uniqueCount jsonData column
  <= length (List.filter (fun row : ExcelData => is_answer (row !! column)) jsonData).
Proof.
  unfold uniqueCount, validValues.
  etrans; [apply length_remove_dups|].
  etrans; [apply filter_length_le|].
  by rewrite length_map.
Qed.

Lemma remainingColumns_enough allColumns (jsonData : list ExcelData) column :
  In column (remainingColumns allColumns jsonData) ->
  10 <= length (tableData (firstThree allColumns) column jsonData)
     <= length jsonData.
Proof.
  unfold remainingColumns. rewrite filter_In.
  intros [_ H]. apply andb_prop in H as [_ H].
  unfold hasEnoughUniqueValues in H. apply Nat.leb_le in H.
  pose proof (uniqueCount_le_kept jsonData column).
  unfold tableData. rewrite length_imap.
  pose proof (filter_length_le (fun row : ExcelData => is_answer (row !! column)) jsonData).
  lia.
Qed.

Lemma processExcelFile_columns allColumns (jsonData : list ExcelData) tables :
  processExcelFile allColumns jsonData = Some tables ->
  map (fun t => columnNameOf (name t)) tables
  = remainingColumns allColumns jsonData.
Proof.
  unfold processExcelFile. destruct jsonData as [|row0 rest] eqn:Hrows; [done|].
  rewrite <- Hrows. intros H. injection H as <-.
  rewrite map_map. erewrite map_ext; [apply map_id|].
  intros column. simpl. apply columnNameOf_tableName.
Qed.

Lemma List_filter_sublist {A} (f : A -> bool) (l : list A) :
  List.filter f l `sublist_of` l.
Proof.
  induction l as [|x l IH]; simpl; [constructor|].
  destruct (f x); by constructor.
Qed.

(** X1.  The name of a table codes its column: [handleAnalyze] and
    [handleTopicsAnalysis] recover from the name 表格 - column（共 n 条数据）
    exactly the header the table was built for, whatever the header is, also
    one that itself starts with 表格 - or ends with （共 n 条数据）. *)
Theorem table_name_round_trip (column : string) (n : nat)
    (firstThreeColumns : list string) (jsonData : list ExcelData) :
  columnNameOf (tableName column n) = column
  /\ columnNameOf (name (buildTable firstThreeColumns jsonData column)) = column.
Proof. split; apply columnNameOf_tableName. Qed.

(** X2.  The tables [processExcelFile] builds from a sheet: one table per
    admitted column, in the order of the headers.  Each table has at least
    ten rows and at most the rows of the sheet, its name carries its column
    and its number of rows, its last column definition is the analysed
    column, and it starts without analysis, idle, with no topics.  (A sheet
    of fewer than ten rows therefore gives no table.) *)
Theorem processExcelFile_tables (allColumns : list string)
    (jsonData : list ExcelData) (tables : list ProcessedTable) :
  processExcelFile allColumns jsonData = Some tables ->
  jsonData <> []
  /\ map (fun t => columnNameOf (name t)) tables
     = remainingColumns allColumns jsonData
  /\ forall i t,
       tables !! i = Some t ->
       let column := columnNameOf (name t) in
       10 <= length (data t) <= length jsonData
       /\ name t = tableName column (length (data t))
       /\ data t = tableData (firstThree allColumns) column jsonData
       /\ title <$> last (columns t) = Some column
       /\ analysis t = None /\ isAnalyzing t = false
       /\ commonTopics t = [] /\ isAnalyzingTopics t = false.
Proof.
  unfold processExcelFile. intros H.
  destruct jsonData as [|row0 rest] eqn:Hrows; [done|]. rewrite <- Hrows in *.
  injection H as <-. split; [by rewrite Hrows|]. split.
  - rewrite map_map. erewrite map_ext; [apply map_id|].
    intros column. simpl. apply columnNameOf_tableName.
  - intros i t Ht.
    change (map ?f ?l) with (f <$> l) in Ht.
    rewrite list_lookup_fmap in Ht.
    destruct (remainingColumns allColumns jsonData !! i) as [column|] eqn:Hcol;
      [|done].
    injection Ht as <-. cbn [name buildTable data columns analysis isAnalyzing
      commonTopics isAnalyzingTopics].
    rewrite columnNameOf_tableName.
    split.
    { apply remainingColumns_enough. rewrite <- list_elem_of_In.
      by eapply list_elem_of_lookup_2. }
    split; [done|]. split; [done|]. split; [|done].
    unfold tableColumns. by rewrite last_snoc.
Qed.

Lemma processExcelFile_tables_witness :
  demo_rows <> []
  /\ map (fun t => columnNameOf (name t)) [demo_table]
     = remainingColumns demo_columns demo_rows
  /\ forall i t,
       [demo_table] !! i = Some t ->
       let column := columnNameOf (name t) in
       10 <= length (data t) <= length demo_rows
       /\ name t = tableName column (length (data t))
       /\ data t = tableData (firstThree demo_columns) column demo_rows
       /\ title <$> last (columns t) = Some column
       /\ analysis t = None /\ isAnalyzing t = false
       /\ commonTopics t = [] /\ isAnalyzingTopics t = false.
Proof.
  apply (processExcelFile_tables demo_columns demo_rows [demo_table]).
  by vm_compute.
Defined.

(** X3.  Every record of a table comes from one row of the sheet, the
    i-th row that has an answer in the column: it carries the answer of that
    row unchanged, for each identity column the value of the row or '' when
    that value is falsy, its [key] is i unless a header of the sheet is the
    word key, and it has no property besides [key], the identity columns and
    the analysed column. *)
Theorem table_record_properties (firstThreeColumns : list string)
    (column : string) (jsonData : list ExcelData) (i : nat) (r : ExcelData) :
  tableData firstThreeColumns column jsonData !! i = Some r ->
  exists row,
    List.filter (fun row : ExcelData => is_answer (row !! column)) jsonData !! i
      = Some row
    /\ In row jsonData
    /\ r !! column = row !! column
    /\ is_answer (r !! column) = true
    /\ (forall col, col ∈ firstThreeColumns -> col <> column ->
          r !! col = Some (identityValue row col))
    /\ ("key" ∉ firstThreeColumns -> column <> "key" ->
          r !! "key" = Some (CNum (Z.of_nat i)))
    /\ forall k, is_Some (r !! k)
                 <-> k = "key" \/ k ∈ firstThreeColumns \/ k = column.
Proof.
  intros Hr. unfold tableData in Hr. rewrite list_lookup_imap in Hr.
  destruct (List.filter _ jsonData !! i) as [row|] eqn:Hrow; [|done].
  injection Hr as <-. exists row. split; [done|].
  assert (Hin : In row jsonData /\ is_answer (row !! column) = true).
  { apply (proj1 (filter_In (fun row : ExcelData => is_answer (row !! column))
                       row jsonData)).
    rewrite <- list_elem_of_In. by eapply list_elem_of_lookup_2. }
  destruct Hin as [Hin Hans]. split; [done|].
  split; [apply newRow_column|].
  split; [by rewrite newRow_column|].
  split.
  { intros col Hcol Hne. rewrite newRow_other by done.
    by rewrite bool_decide_eq_true_2. }
  split.
  { intros Hkey Hne. rewrite newRow_other by done.
    by rewrite bool_decide_eq_false_2, lookup_singleton_eq. }
  intros k. destruct (decide (k = column)) as [->|Hne].
  - rewrite newRow_column. split; [by right; right|]. intros _.
    destruct (row !! column); [by eexists|done].
  - rewrite newRow_other by done. case_bool_decide as Hk.
    + split; [by right; left|by eexists].
    + destruct (decide (k = "key")) as [->|Hkey].
      * split; [by left|]. intros _. by rewrite lookup_singleton_eq.
      * rewrite lookup_singleton_ne by done. split; [by intros []|].
        intros [?|[?|?]]; done.
Qed.

(** X4.  [allColumns] lists the keys of the first row in the order of
    [Object.keys]; the keys of an object are distinct.  Then the analysed
    columns are keys past the third of that list, in the order of the list,
    none of them is one of its first three keys (the identity columns), and
    no two tables have the same name. *)
Theorem analysed_columns_distinct (allColumns : list string)
    (jsonData : list ExcelData) (tables : list ProcessedTable) :
  NoDup allColumns ->
  processExcelFile allColumns jsonData = Some tables ->
  map (fun t => columnNameOf (name t)) tables `sublist_of` afterThree allColumns
  /\ (forall t, t ∈ tables -> columnNameOf (name t) ∉ firstThree allColumns)
  /\ NoDup (map name tables).
Proof.
  intros Hnd Htables. apply processExcelFile_columns in Htables.
  assert (Hsub : remainingColumns allColumns jsonData
                 `sublist_of` afterThree allColumns)
    by apply List_filter_sublist.
  rewrite <- (take_drop 3 allColumns) in Hnd.
  apply NoDup_app in Hnd as (_ & Hdisj & Hnd).
  split; [by rewrite Htables|]. split.
  - intros t Ht Hin. apply (Hdisj _ Hin).
    eapply elem_of_sublist; [|exact Hsub]. rewrite <- Htables.
    apply (list_elem_of_fmap_2 (fun t => columnNameOf (name t))). done.
  - apply (NoDup_fmap_1 columnNameOf).
    change (columnNameOf <$> map name tables)
      with (map columnNameOf (map name tables)).
    rewrite map_map, Htables. by eapply sublist_NoDup.
Qed.

Lemma analysed_columns_distinct_witness :
  map (fun t => columnNameOf (name t)) [demo_table]
    `sublist_of` afterThree demo_columns
  /\ (forall t, t ∈ [demo_table] ->
        columnNameOf (name t) ∉ firstThree demo_columns)
  /\ NoDup (map name [demo_table]).
Proof.
  apply (analysed_columns_distinct demo_columns demo_rows [demo_table]).
  - apply (bool_decide_unpack _). by vm_compute.
  - by vm_compute.
Defined.

Lemma countedValue_mono (jsonData jsonData' : list ExcelData) column v :
  (forall row, In row jsonData -> In row jsonData') ->
  countedValue jsonData column v -> countedValue jsonData' column v.
Proof.
  intros Hsub (Hne & row & Hin & Hans & Hv). split; [done|].
  exists row. by auto.
Qed.

(** X23.  With the headers fixed, the admitted columns depend on the set
    of rows only and grow with it: adding rows, repeating rows or reordering
    them never lowers the count of distinct answers of a column and never
    removes an analysed column. *)
Theorem admission_grows_with_rows (allColumns : list string)
    (jsonData jsonData' : list ExcelData) :
  (forall row, In row jsonData -> In row jsonData') ->
  (forall column, uniqueCount jsonData column <= uniqueCount jsonData' column)
  /\ forall column,
       In column (remainingColumns allColumns jsonData) ->
       In column (remainingColumns allColumns jsonData').
Proof.
  intros Hsub.
  assert (Hcount : forall column,
            uniqueCount jsonData column <= uniqueCount jsonData' column).
  { intros column. apply uniqueCount_ge.
    destruct (proj1 (uniqueCount_ge jsonData column (uniqueCount jsonData column)))
      as (vs & Hnd & Hlen & Hvs); [done|].
    exists vs. split; [done|]. split; [done|].
    intros v Hv. eapply countedValue_mono; [exact Hsub|]. by apply Hvs. }
  split; [done|].
  intros column. unfold remainingColumns.
  rewrite !filter_In. intros [Hin Hok]. split; [done|].
  apply andb_prop in Hok as [Hskip Henough]. apply andb_true_intro.
  split; [done|]. unfold hasEnoughUniqueValues in *.
  apply Nat.leb_le in Henough. apply Nat.leb_le. specialize (Hcount column). lia.
Qed.

Lemma admission_grows_with_rows_witness :
  (forall column,
     uniqueCount demo_rows column <= uniqueCount (demo_rows ++ C1_rows) column)
  /\ forall column,
       In column (remainingColumns demo_columns demo_rows) ->
       In column (remainingColumns demo_columns (demo_rows ++ C1_rows)).
Proof.
  apply (admission_grows_with_rows demo_columns demo_rows (demo_rows ++ C1_rows)).
  intros row Hrow. apply in_or_app. by left.
Defined.

Lemma table_record_properties_witness :
  let r := newRow (firstThree demo_columns) "Q_text"
             (answer_row "张三" "000" "a0") 0 in
  exists row,
    List.filter (fun row : ExcelData => is_answer (row !! "Q_text")) demo_rows !! 0
      = Some row
    /\ In row demo_rows
    /\ r !! "Q_text" = row !! "Q_text"
    /\ is_answer (r !! "Q_text") = true
    /\ (forall col, col ∈ firstThree demo_columns -> col <> "Q_text" ->
          r !! col = Some (identityValue row col))
    /\ ("key" ∉ firstThree demo_columns -> "Q_text" <> "key" ->
          r !! "key" = Some (CNum (Z.of_nat 0)))
    /\ forall k, is_Some (r !! k)
                 <-> k = "key" \/ k ∈ firstThree demo_columns \/ k = "Q_text".
Proof.
  apply (table_record_properties (firstThree demo_columns) "Q_text" demo_rows 0).
  by vm_compute.
Defined.

End SheetToTables.

(* ================================================================== *)
(** ** Runs of [handleAnalyze] *)
(* ================================================================== *)

Section AnalysisFacts.

Import Later LaterSpec.

Variable backend : nat -> http_outcome.

Lemma length_concat_imap_bounds {A B} (f : nat -> A -> list B) (l : list A) :
  (forall j x, 1 <= length (f j x) <= 2) ->
  length l <= length (concat (imap f l)) <= 2 * length l.
Proof.
  revert f. induction l as [|x l IH]; intros f Hf; simpl; [lia|].
  rewrite length_app. specialize (IH (f ∘ S)).
  pose proof (Hf 0 x). 
  assert (forall j y, 1 <= length ((f ∘ S) j y) <= 2) as H' by (intros; apply Hf).
  specialize (IH H'). lia.
Qed.

Lemma length_batchEntries j o : 1 <= length (batchEntries j o) <= 2.
Proof.
  unfold batchEntries. destruct (batchChecked j o) as [msg|m]; simpl; [lia|].
  destruct (content m); simpl; lia.
Qed.

Lemma flat_map_batchDataOf t (batches : list (list ExcelData)) :
  flat_map batchDataOf (map (batchRequest t) batches)
  = map (batchItem t) (concat batches).
Proof.
  induction batches as [|b bs IH]; simpl; [done|].
  by rewrite IH, map_app.
Qed.

Lemma length_createBatches (rows : list ExcelData) :
  length (createBatches rows) = ceil_div (length rows) BATCH_SIZE.
Proof.
  rewrite createBatches_closed. unfold batches_of.
  by rewrite length_map, length_seq.
Qed.

Lemma createBatches_sizes (rows : list ExcelData) i b :
  createBatches rows !! i = Some b -> 1 <= length b <= BATCH_SIZE.
Proof.
  rewrite createBatches_closed. intros H.
  apply batches_of_lookup in H as [Hi ->]. simpl in Hi |- *.
  rewrite length_slice.
  apply (ceil_div_gt (length rows) BATCH_SIZE i) in Hi;
    [|unfold BATCH_SIZE; lia].
  unfold BATCH_SIZE in *. lia.
Qed.

(** X9.  A run of [handleAnalyze] on an idle table sends one request per
    batch and then the request of the reduce step, whatever the backend
    answers: ceil(rows / 300) + 1 requests.  Every batch request carries
    between 1 and 300 rows, and the batch requests together carry every row
    of the table once, in order.  The reduce step receives, batch after
    batch, the entries of each batch: one or two of them, made from the
    answer to the request of that batch.  A table without rows still sends
    the request of the reduce step, with nothing to summarise. *)
Theorem analysis_sends_every_row_once (index : nat) (w : world)
    (t : ProcessedTable) :
  tables w !! index = Some t ->
  isAnalyzing t = false ->
  let run := handleAnalyze backend index w in
  exists batchRequests entries,
    calls (snd run) = calls w ++ batchRequests ++ [SummaryRequest entries]
    /\ length batchRequests = ceil_div (length (data t)) BATCH_SIZE
    /\ flat_map batchDataOf batchRequests = map (batchItem t) (data t)
    /\ (forall req, In req batchRequests ->
          1 <= length (batchDataOf req) <= BATCH_SIZE
          /\ req = BatchRequest (batchDataOf req))
    /\ (exists perBatch : list (list (option string)),
          entries = concat perBatch
          /\ length perBatch = length batchRequests
          /\ forall j es,
               perBatch !! j = Some es ->
               1 <= length es <= 2
               /\ es = batchEntries j (backend (length (calls w) + j)))
    /\ length batchRequests <= length entries <= 2 * length batchRequests
    /\ (data t = [] -> batchRequests = [] /\ entries = []).
Proof.
  intros Ht Hidle run. subst run. rewrite (handleAnalyze_run backend index w t Ht Hidle).
  cbn [snd calls].
  set (batches := createBatches (data t)).
  exists (map (batchRequest t) batches),
         (allEntries backend (length (calls w)) batches).
  split; [done|]. rewrite length_map.
  split; [apply length_createBatches|].
  split; [by rewrite flat_map_batchDataOf; unfold batches; rewrite concat_createBatches|].
  split.
  { intros req Hreq. apply in_map_iff in Hreq as (b & <- & Hb).
    split; [|done]. cbn [batchDataOf batchRequest]. rewrite length_map.
    rewrite <- list_elem_of_In in Hb.
    apply list_elem_of_lookup_1 in Hb as [i Hi].
    by eapply createBatches_sizes. }
  split.
  { exists (imap (fun j _ => batchEntries j (backend (length (calls w) + j)))
              batches).
    split; [done|]. split; [by rewrite length_imap|].
    intros j es Hes. rewrite list_lookup_imap in Hes.
    destruct (batches !! j) as [b|]; [|done]. injection Hes as <-.
    split; [apply length_batchEntries|done]. }
  split.
  { unfold allEntries. apply length_concat_imap_bounds.
    intros j _. apply length_batchEntries. }
  intros Hempty. subst batches. rewrite Hempty. by vm_compute.
Qed.

Lemma identity_userInfo (row : ExcelData) (col : string) :
  js_or (Some (identityValue row col)) (Some (CStr "")) = js_or (row !! col) (Some (CStr "")).
Proof.
  unfold identityValue, js_or.
  destruct (truthy (row !! col)) eqn:Htruthy.
  - destruct (row !! col) as [v|]; [|done]. cbn [default id]. by rewrite Htruthy.
  - done.
Qed.

Lemma built_row_item ft column (jsonData : list ExcelData) (row r : ExcelData) :
  "姓名" ∈ ft -> "系统号" ∈ ft -> column ∉ ft ->
  (exists text, row !! column = Some (CStr text)) ->
  is_answer (row !! column) = true ->
  r !! column = row !! column ->
  (forall col, col ∈ ft -> col <> column -> r !! col = Some (identityValue row col)) ->
  batchItem (buildTable ft jsonData column) r
  = {| userInfo := rowUserInfo row; questionContent := row !! column |}.
Proof.
  intros Hname Hid Hcol [text Htext] Hans Hr Hident.
  unfold batchItem, rowContent, rowUserInfo. cbn [name buildTable].
  rewrite columnNameOf_tableName.
  rewrite (Hident "姓名"), (Hident "系统号") by (try done; by intros <-).
  rewrite !identity_userInfo. f_equal.
  rewrite Hr, Htext in *. simpl in Hans. apply andb_prop in Hans as [Hne _].
  unfold js_or at 2. simpl. rewrite Hne. unfold js_or. simpl. by rewrite Hne.
Qed.

(** X10.  From the sheet to the prompt.  For a table that
    [processExcelFile] built from a sheet of texts whose identity columns
    include 姓名 and 系统号, the batch requests of [handleAnalyze] carry exactly
    the rows of the sheet that have an answer in the column, in sheet order:
    for each the text 姓名-系统号 of the row and its answer. *)
Theorem sheet_answers_reach_the_model (allColumns : list string)
    (jsonData : list ExcelData) (w : world) (index : nat) (t : ProcessedTable) :
  processExcelFile allColumns jsonData = Some (tables w) ->
  tables w !! index = Some t ->
  NoDup allColumns ->
  "姓名" ∈ firstThree allColumns ->
  "系统号" ∈ firstThree allColumns ->
  forallb (fun row : ExcelData =>
             match row !! columnNameOf (name t) with
             | Some (CNum _) => false
             | _ => true
             end) jsonData = true ->
  let column := columnNameOf (name t) in
  exists batchRequests entries,
    calls (snd (handleAnalyze backend index w))
    = calls w ++ batchRequests ++ [SummaryRequest entries]
    /\ flat_map batchDataOf batchRequests
       = map (fun row : ExcelData =>
                {| userInfo := rowUserInfo row; questionContent := row !! column |})
           (List.filter (fun row : ExcelData => is_answer (row !! column)) jsonData).
Proof.
  intros Htables Ht Hnd Hname Hid Htext column.
  assert (Hcolumn : remainingColumns allColumns jsonData !! index = Some column
                    /\ t = buildTable (firstThree allColumns) jsonData column).
  { unfold processExcelFile in Htables.
    destruct jsonData as [|row0 rest] eqn:Hrows; [done|]. rewrite <- Hrows in *.
    injection Htables as Htables. rewrite <- Htables in Ht.
    change (map ?f ?l) with (f <$> l) in Ht. rewrite list_lookup_fmap in Ht.
    destruct (remainingColumns allColumns jsonData !! index) as [c|] eqn:Hc; [|done].
    injection Ht as Ht. subst column. rewrite <- Ht. cbn [name buildTable].
    by rewrite columnNameOf_tableName. }
  destruct Hcolumn as [Hcolumn Hbuilt].
  assert (Hnotid : column ∉ firstThree allColumns).
  { rewrite <- (take_drop 3 allColumns) in Hnd.
    apply NoDup_app in Hnd as (_ & Hdisj & _). intros Hin. apply (Hdisj _ Hin).
    apply list_elem_of_lookup_2 in Hcolumn.
    eapply elem_of_sublist; [exact Hcolumn|]. apply List_filter_sublist. }
  assert (Hidle : isAnalyzing t = false) by (by rewrite Hbuilt).
  rewrite (handleAnalyze_run backend index w t Ht Hidle). cbn [snd calls].
  eexists _, _. split; [reflexivity|].
  rewrite flat_map_batchDataOf, concat_createBatches.
  rewrite Hbuilt at 2. cbn [data buildTable].
  pose proof (tableData_rows (firstThree allColumns) column jsonData) as [Hlen Hrows].
  apply list_eq. intros i. change (map ?f ?l) with (f <$> l).
  rewrite !list_lookup_fmap.
  destruct (List.filter _ jsonData !! i) as [row|] eqn:Hrow.
  - destruct (Hrows i row Hrow) as (r & -> & Hr & Hans & _ & Hident).
    simpl. f_equal. rewrite Hbuilt.
    assert (Hin : In row jsonData /\ is_answer (row !! column) = true).
    { apply (proj1 (filter_In (fun row : ExcelData => is_answer (row !! column))
                         row jsonData)).
      rewrite <- list_elem_of_In. by eapply list_elem_of_lookup_2. }
    destruct Hin as [Hin Hrowans].
    apply built_row_item; try done.
    rewrite forallb_forall in Htext. specialize (Htext row Hin). fold column in Htext.
    destruct (row !! column) as [[text|n]|] eqn:Hv; [by exists text|done|done].
  - apply lookup_ge_None in Hrow. rewrite <- Hlen in Hrow.
    apply lookup_ge_None in Hrow. by rewrite Hrow.
Qed.

Lemma handleAnalyze_busy (index : nat) (w : world) (t : ProcessedTable) :
  tables w !! index = Some t ->
  isAnalyzing t = true ->
  handleAnalyze backend index w = (Ok tt, w).
Proof.
  intros Ht Hbusy. unfold handleAnalyze, bind, getTables.
  by rewrite Ht, Hbusy.
Qed.

(** X11.  [handleAnalyze] writes nothing but the analysis of its table.
    Whatever the backend answers, the handler ends normally, the other
    tables and the input box are untouched, and the table keeps its name,
    rows, columns and every field of the classification.  [isAnalyzing] is
    left as it was found: a run never leaves the table marked as running. *)
Theorem analysis_keeps_the_rest (index : nat) (w : world) (t : ProcessedTable) :
  tables w !! index = Some t ->
  let run := handleAnalyze backend index w in
  fst run = Ok tt
  /\ length (tables (snd run)) = length (tables w)
  /\ (forall i, i <> index -> tables (snd run) !! i = tables w !! i)
  /\ commonTopicsInput (snd run) = commonTopicsInput w
  /\ exists t',
       tables (snd run) !! index = Some t'
       /\ isAnalyzing t' = isAnalyzing t
       /\ name t' = name t /\ data t' = data t /\ columns t' = columns t
       /\ commonTopics t' = commonTopics t
       /\ isAnalyzingTopics t' = isAnalyzingTopics t
       /\ topicsAnalysis t' = topicsAnalysis t
       /\ topicsApiStatus t' = topicsApiStatus t
       /\ topicsApiMessage t' = topicsApiMessage t.
Proof.
  intros Ht run. subst run.
  destruct (isAnalyzing t) eqn:Hidle.
  - rewrite (handleAnalyze_busy index w t Ht Hidle). cbn [fst snd].
    split; [done|]. split; [done|]. split; [done|]. split; [done|].
    exists t. by rewrite Hidle.
  - rewrite (handleAnalyze_run backend index w t Ht Hidle). cbn [fst snd tables commonTopicsInput].
    split; [done|]. split; [apply length_updateAt|]. split.
    { intros i Hi. rewrite updateAt_lookup, bool_decide_eq_false_2 by done.
      by destruct (tables w !! i). }
    split; [done|].
    eexists. split.
    { rewrite updateAt_lookup, bool_decide_eq_true_2, Ht by done. reflexivity. }
    match goal with |- context [analysisDone ?v t] => destruct v end;
      by rewrite ?Hidle.
Qed.

Lemma summaryChecked_cases (o : http_outcome) :
  match exchangeText o with
  | Some text => summaryChecked o = inr text
  | None => exists msg, summaryChecked o = inl msg
  end.
Proof.
  unfold summaryChecked, exchangeText, checkedMessage, reply_content.
  destruct o as [msg|st txt p]; [by eexists|].
  destruct (status_ok st); [|by eexists].
  destruct p as [b|]; [|by eexists].
  destruct (first_message b) as [m|]; [|by eexists].
  destruct (content m); [done|by eexists].
Qed.

(** X12.  The outcome of a run of [handleAnalyze] is decided by the
    closing exchange alone.  When it carries a text (status 2xx and a string
    at [choices[0].message.content]) the run is a success whatever happened
    to the batches: the text is stored, the status is success and the
    success pop-up is shown.  Otherwise the status is error with a message
    分析失败: ..., the failure pop-up is shown, and an analysis stored by an
    earlier run stays. *)
Theorem analysis_outcome (index : nat) (w : world) (t : ProcessedTable) :
  tables w !! index = Some t ->
  isAnalyzing t = false ->
  let run := handleAnalyze backend index w in
  let closing :=
    backend (length (calls w) + ceil_div (length (data t)) BATCH_SIZE) in
  exists t',
    tables (snd run) !! index = Some t'
    /\ match exchangeText closing with
       | Some text =>
           analysis t' = Some text
           /\ analysisApiStatus t' = Some success
           /\ analysisApiMessage t' = Some "整体分析完成！"
           /\ toasts (snd run) = toasts w ++ [ToastSuccess "整体分析完成！"]
       | None =>
           analysis t' = analysis t
           /\ analysisApiStatus t' = Some error
           /\ (exists msg, analysisApiMessage t' = Some ("分析失败: " +:+ msg))
           /\ toasts (snd run) = toasts w ++ [ToastError "整体分析失败，请重试"]
       end.
Proof.
  intros Ht Hidle run closing. subst run closing.
  rewrite (handleAnalyze_run backend index w t Ht Hidle).
  cbn [snd tables toasts]. rewrite length_createBatches.
  eexists. split.
  { rewrite updateAt_lookup, bool_decide_eq_true_2, Ht by done. reflexivity. }
  pose proof (summaryChecked_cases
    (backend (length (calls w) + ceil_div (length (data t)) BATCH_SIZE))) as Hc.
  destruct (exchangeText _) as [text|].
  - rewrite Hc. done.
  - destruct Hc as [msg Hc]. rewrite Hc. cbn. by eauto.
Qed.

End AnalysisFacts.

(* ================================================================== *)
(** ** Runs of [handleTopicsAnalysis] *)
(* ================================================================== *)

Section ClassificationFacts.

Import Later LaterSpec.

Variable backend : nat -> http_outcome.

Lemma handleTopicsAnalysis_busy (index : nat) (w : world) (t : ProcessedTable) :
  tables w !! index = Some t ->
  isAnalyzingTopics t = true ->
  handleTopicsAnalysis backend index w = (Ok tt, w).
Proof.
  intros Ht Hbusy. unfold handleTopicsAnalysis, bind, getTables.
  by rewrite Ht, Hbusy.
Qed.

Lemma handleTopicsAnalysis_no_topic (index : nat) (w : world)
    (t : ProcessedTable) :
  tables w !! index = Some t ->
  isAnalyzingTopics t = false ->
  topicsOf (commonTopicsInput w) = [] ->
  handleTopicsAnalysis backend index w
  = (Ok tt,
     mkWorld (tables w) (commonTopicsInput w) (calls w)
       (toasts w ++ [ToastError "请输入至少一个共性内容"]) (batchResults w)
       (events w)).
Proof.
  intros Ht Hidle Hnone. unfold handleTopicsAnalysis, bind, getTables.
  rewrite Ht, Hidle. unfold getCommonTopicsInput.
  unfold topicsOf in Hnone. rewrite Hnone. done.
Qed.

Lemma markWith_other mark (row : ExcelData) (k : string) :
  k <> "共性内容分析" -> markWith mark row !! k = row !! k.
Proof.
  intros Hk. destruct mark as [v|]; [|done].
  simpl. by rewrite lookup_insert_ne.
Qed.

(** X14.  [handleTopicsAnalysis] writes nothing but the classification of
    its table.  Whatever the backend answers and whatever the input box
    holds, the handler ends normally, the other tables are untouched, the
    table keeps its name, columns and every field of the analysis, it has
    as many rows as before, and each row keeps all its properties other than
    共性内容分析.  [isAnalyzingTopics] is left as it was found. *)
Theorem classification_keeps_the_rest (index : nat) (w : world)
    (t : ProcessedTable) :
  tables w !! index = Some t ->
  let run := handleTopicsAnalysis backend index w in
  fst run = Ok tt
  /\ length (tables (snd run)) = length (tables w)
  /\ (forall i, i <> index -> tables (snd run) !! i = tables w !! i)
  /\ exists t',
       tables (snd run) !! index = Some t'
       /\ isAnalyzingTopics t' = isAnalyzingTopics t
       /\ name t' = name t /\ columns t' = columns t
       /\ analysis t' = analysis t /\ isAnalyzing t' = isAnalyzing t
       /\ analysisApiStatus t' = analysisApiStatus t
       /\ analysisApiMessage t' = analysisApiMessage t
       /\ length (data t') = length (data t)
       /\ forall g row,
            data t !! g = Some row ->
            exists row',
              data t' !! g = Some row'
              /\ forall k, k <> "共性内容分析" -> row' !! k = row !! k.
Proof.
  intros Ht run. subst run.
  destruct (isAnalyzingTopics t) eqn:Hidle.
  { rewrite (handleTopicsAnalysis_busy index w t Ht Hidle). cbn [fst snd].
    split; [done|]. split; [done|]. split; [done|].
    exists t. rewrite Hidle. repeat (split; [done|]). eauto. }
  destruct (decide (topicsOf (commonTopicsInput w) = [])) as [Hnone|Hsome].
  { rewrite (handleTopicsAnalysis_no_topic index w t Ht Hidle Hnone).
    cbn [fst snd tables].
    split; [done|]. split; [done|]. split; [done|].
    exists t. rewrite Hidle. repeat (split; [done|]). eauto. }
  rewrite (handleTopicsAnalysis_run backend index w t Ht Hidle Hsome).
  cbn [fst snd tables].
  split; [done|]. split; [apply length_updateAt|]. split.
  { intros i Hi. rewrite updateAt_lookup, bool_decide_eq_false_2 by done.
    by destruct (tables w !! i). }
  eexists. split.
  { rewrite updateAt_lookup, bool_decide_eq_true_2, Ht by done. reflexivity. }
  match goal with |- context [topicsDone ?v _] => destruct v end;
    cbn; rewrite ?Hidle; repeat (split; [done|]);
    (split; [apply marked_length|]);
    intros g row Hrow; eexists;
    (split; [by apply marked_lookup|]);
    intros k Hk; by apply markWith_other.
Qed.

Lemma topicsChecked_cases (o : http_outcome) :
  (exchangeFails o -> exists msg, topicsChecked o = inl msg)
  /\ (~ exchangeFails o -> topicsChecked o = inr (exchangeText o)).
Proof.
  unfold topicsChecked, exchangeText, exchangeFails, checkedMessage, reply_content.
  destruct o as [msg|st txt p]; [split; [by eexists|by intros []]|].
  destruct (status_ok st); [|split; [by eexists|intros []; by left]].
  destruct p as [b|]; [|split; [by eexists|intros []; by right]].
  destruct (first_message b) as [m|]; [|split; [by eexists|intros []; by right]].
  split; [|done]. by intros [|].
Qed.

(** X15.  A run of [handleTopicsAnalysis] records the topics of the input
    box on the table, whether it succeeds or not.  The input box is emptied
    exactly when the closing exchange passes the handler's checks; the
    summary stored is then [choices[0].message.content], also when that is
    missing.  When the closing exchange fails the input box and the summary
    of an earlier run stay. *)
Theorem classification_input_and_topics (index : nat) (w : world)
    (t : ProcessedTable) :
  tables w !! index = Some t ->
  isAnalyzingTopics t = false ->
  topicsOf (commonTopicsInput w) <> [] ->
  let topics := topicsOf (commonTopicsInput w) in
  let run := handleTopicsAnalysis backend index w in
  let closing :=
    backend (length (calls w)
             + length (flat_map (rowRequest t topics) (data t))) in
  exists t',
    tables (snd run) !! index = Some t'
    /\ commonTopics t' = topics
    /\ (exchangeFails closing ->
          commonTopicsInput (snd run) = commonTopicsInput w
          /\ topicsAnalysis t' = topicsAnalysis t
          /\ toasts (snd run) = toasts w ++ [ToastError "共性内容分析失败，请重试"])
    /\ (~ exchangeFails closing ->
          commonTopicsInput (snd run) = ""
          /\ topicsAnalysis t' = exchangeText closing
          /\ toasts (snd run) = toasts w ++ [ToastSuccess "共性内容分析完成！"]).
Proof.
  intros Ht Hidle Hsome topics run closing. subst run closing topics.
  rewrite (handleTopicsAnalysis_run backend index w t Ht Hidle Hsome).
  cbn [snd tables toasts commonTopicsInput].
  eexists. split.
  { rewrite updateAt_lookup, bool_decide_eq_true_2, Ht by done. reflexivity. }
  match goal with
  | |- context [topicsChecked ?o] =>
      destruct (topicsChecked_cases o) as [Hfail Hgood]
  end.
  split.
  { match goal with |- context [topicsDone ?v _] => by destruct v end. }
  split.
  - intros H. destruct (Hfail H) as [msg E]. rewrite E. done.
  - intros H. rewrite (Hgood H). done.
Qed.

(** X16.  [handleTopicsAnalysis] does nothing for a table that is being
    classified, and for an input box in which the split finds no topic, such
    as ，、 , it only shows the pop-up 请输入至少一个共性内容: no request is sent,
    and the tables and the input box are unchanged. *)
Theorem classification_needs_idle_table_and_topic (index : nat) (w : world)
    (t : ProcessedTable) :
  tables w !! index = Some t ->
  isAnalyzingTopics t = true \/ topicsOf (commonTopicsInput w) = [] ->
  let run := handleTopicsAnalysis backend index w in
  fst run = Ok tt
  /\ calls (snd run) = calls w
  /\ tables (snd run) = tables w
  /\ commonTopicsInput (snd run) = commonTopicsInput w
  /\ toasts (snd run)
     = if isAnalyzingTopics t then toasts w
       else toasts w ++ [ToastError "请输入至少一个共性内容"].
Proof.
  intros Ht Hguard run. subst run.
  destruct (isAnalyzingTopics t) eqn:Hidle.
  - by rewrite (handleTopicsAnalysis_busy index w t Ht Hidle).
  - destruct Hguard as [|Hnone]; [done|].
    by rewrite (handleTopicsAnalysis_no_topic index w t Ht Hidle Hnone).
Qed.

Lemma batchItems_agree (t t1 : ProcessedTable) :
  name t1 = name t ->
  name t <> "共性内容分析" ->
  columnNameOf (name t) <> "共性内容分析" ->
  length (data t1) = length (data t) ->
  (forall g row,
     data t !! g = Some row ->
     exists row',
       data t1 !! g = Some row'
       /\ forall k, k <> "共性内容分析" -> row' !! k = row !! k) ->
  map (batchItem t1) (data t1) = map (batchItem t) (data t).
Proof.
  intros Hname Hn1 Hn2 Hlen Hrows. apply list_eq. intros g.
  change (map ?f ?l) with (f <$> l). rewrite !list_lookup_fmap.
  destruct (data t !! g) as [row|] eqn:Hrow.
  - destruct (Hrows g row Hrow) as (row' & -> & Hsame). simpl. f_equal.
    unfold batchItem, rowUserInfo, rowContent. rewrite Hname.
    by rewrite !Hsame.
  - apply lookup_ge_None in Hrow. rewrite <- Hlen in Hrow.
    apply lookup_ge_None in Hrow. by rewrite Hrow.
Qed.

Lemma batchRequests_of_items (t t1 : ProcessedTable) (d d1 : list ExcelData) :
  map (batchItem t1) d1 = map (batchItem t) d ->
  map (batchRequest t1) (createBatches d1) = map (batchRequest t) (createBatches d).
Proof.
  intros Hitems. rewrite !createBatches_closed.
  assert (Hlen : length d1 = length d).
  { apply (f_equal length) in Hitems. by rewrite !length_map in Hitems. }
  rewrite Hlen. unfold batches_of. rewrite !map_map. apply map_ext. intros b.
  unfold batchRequest. f_equal.
  change (map (batchItem t1) (slice (b * BATCH_SIZE) (b * BATCH_SIZE + BATCH_SIZE) d1)
          = map (batchItem t) (slice (b * BATCH_SIZE) (b * BATCH_SIZE + BATCH_SIZE) d)).
  unfold slice. change (map ?f ?l) with (f <$> l) in *.
  by rewrite !fmap_take, !fmap_drop, Hitems.
Qed.

(** X17.  The two analyses do not see each other's results.  The batch
    requests of [handleAnalyze] after a classification are the ones it
    sends before it: the marks written in 共性内容分析 do not enter them.  The
    requests of [handleTopicsAnalysis] after an analysis are the ones it
    sends before it. *)
Theorem analysis_and_classification_requests (index : nat) (w : world)
    (t : ProcessedTable) :
  tables w !! index = Some t ->
  isAnalyzing t = false ->
  isAnalyzingTopics t = false ->
  topicsOf (commonTopicsInput w) <> [] ->
  name t <> "共性内容分析" ->
  columnNameOf (name t) <> "共性内容分析" ->
  let topics := topicsOf (commonTopicsInput w) in
  let classified := snd (handleTopicsAnalysis backend index w) in
  let analysed := snd (handleAnalyze backend index w) in
  (exists entries,
     calls (snd (handleAnalyze backend index classified))
     = calls classified ++ map (batchRequest t) (createBatches (data t))
         ++ [SummaryRequest entries])
  /\ calls (snd (handleTopicsAnalysis backend index analysed))
     = calls analysed ++ flat_map (rowRequest t topics) (data t)
         ++ [TopicsSummaryRequest topics (analysisDataOf t)].
Proof.
  intros Ht Hidle Hidle' Hsome Hn1 Hn2 topics classified analysed. split.
  - subst classified.
    rewrite (handleTopicsAnalysis_run backend index w t Ht Hidle' Hsome).
    cbn [snd]. fold topics.
    match goal with
    | |- context [updateAt index ?F (tables w)] =>
        set (t1 := F t);
        set (w1 := mkWorld (updateAt index F (tables w)) _ _ _ _ _)
    end.
    assert (Ht1 : tables w1 !! index = Some t1).
    { subst w1. cbn [tables].
      rewrite updateAt_lookup, bool_decide_eq_true_2, Ht by done. done. }
    assert (Hfields : isAnalyzing t1 = false /\ name t1 = name t
              /\ data t1 = markBatches backend t topics (createBatches (data t)) 0
                             (length (calls w)) (data t)).
    { subst t1. by destruct (topicsChecked _). }
    destruct Hfields as (Hidle1 & Hname & Hdata).
    rewrite (handleAnalyze_run backend index w1 t1 Ht1 Hidle1).
    cbn [snd calls]. eexists. f_equal. f_equal.
    apply batchRequests_of_items. apply batchItems_agree; try done.
    + rewrite Hdata. apply marked_length.
    + intros g row Hrow. rewrite Hdata. eexists.
      split; [by apply marked_lookup|].
      intros k Hk. by apply markWith_other.
  - subst analysed. rewrite (handleAnalyze_run backend index w t Ht Hidle).
    cbn [snd].
    match goal with
    | |- context [updateAt index (analysisDone ?v) (tables w)] =>
        set (t2 := analysisDone v t);
        set (w2 := mkWorld (updateAt index (analysisDone v) (tables w)) _ _ _ _ _)
    end.
    assert (Ht2 : tables w2 !! index = Some t2).
    { subst w2. cbn [tables].
      rewrite updateAt_lookup, bool_decide_eq_true_2, Ht by done. done. }
    assert (Hidle2 : isAnalyzingTopics t2 = false).
    { subst t2. by destruct (summaryChecked _). }
    assert (Hsome2 : topicsOf (commonTopicsInput w2) <> []) by done.
    rewrite (handleTopicsAnalysis_run backend index w2 t2 Ht2 Hidle2 Hsome2).
    cbn [snd calls]. subst t2 w2. cbn [commonTopicsInput]. fold topics.
    by destruct (summaryChecked _).
Qed.

Lemma built_row_request ft column (jsonData : list ExcelData) topics
    (row r : ExcelData) :
  (forall n, row !! column <> Some (CNum n)) ->
  is_answer (row !! column) = true ->
  r !! column = row !! column ->
  rowRequest (buildTable ft jsonData column) topics r
  = match row !! column with
    | Some (CStr text) =>
        if bool_decide (trim text = "") then []
        else [TopicRequest column text topics]
    | _ => []
    end.
Proof.
  intros Htext Hans Hr. unfold rowRequest, rowContent. cbn [name buildTable].
  rewrite columnNameOf_tableName, Hr.
  destruct (row !! column) as [[text|n]|] eqn:Hv; [|by destruct (Htext n)|done].
  simpl in Hans. apply andb_prop in Hans as [Hne _].
  unfold js_or at 2. simpl. rewrite Hne. unfold js_or. simpl. rewrite Hne.
  apply negb_true_iff in Hne. by rewrite Hne.
Qed.

(** X25.  From the sheet to the classifier.  For a table that
    [processExcelFile] built from a sheet of texts, a run of
    [handleTopicsAnalysis] sends, in sheet order, one request for each row
    of the sheet whose answer is neither empty, the sentinel 无 nor blank,
    with the header of the column, the answer as it stands in the sheet and
    the topics; the closing request follows. *)
Theorem sheet_answers_reach_the_classifier (allColumns : list string)
    (jsonData : list ExcelData) (w : world) (index : nat) (t : ProcessedTable) :
  processExcelFile allColumns jsonData = Some (tables w) ->
  tables w !! index = Some t ->
  topicsOf (commonTopicsInput w) <> [] ->
  forallb (fun row : ExcelData =>
             match row !! columnNameOf (name t) with
             | Some (CNum _) => false
             | _ => true
             end) jsonData = true ->
  let column := columnNameOf (name t) in
  let topics := topicsOf (commonTopicsInput w) in
  exists closing,
    calls (snd (handleTopicsAnalysis backend index w))
    = calls w
      ++ flat_map (fun row : ExcelData =>
                     match row !! column with
                     | Some (CStr text) =>
                         if bool_decide (trim text = "") then []
                         else [TopicRequest column text topics]
                     | _ => []
                     end)
           (List.filter (fun row : ExcelData => is_answer (row !! column)) jsonData)
      ++ [closing].
Proof.
  intros Htables Ht Hsome Htext column topics.
  assert (Hbuilt : t = buildTable (firstThree allColumns) jsonData column).
  { unfold processExcelFile in Htables.
    destruct jsonData as [|row0 rest] eqn:Hrows; [done|]. rewrite <- Hrows in *.
    injection Htables as Htables. rewrite <- Htables in Ht.
    change (map ?f ?l) with (f <$> l) in Ht. rewrite list_lookup_fmap in Ht.
    destruct (remainingColumns allColumns jsonData !! index) as [c|] eqn:Hc; [|done].
    injection Ht as Ht. subst column. rewrite <- Ht. cbn [name buildTable].
    by rewrite columnNameOf_tableName. }
  assert (Hidle : isAnalyzingTopics t = false) by (by rewrite Hbuilt).
  rewrite (handleTopicsAnalysis_run backend index w t Ht Hidle Hsome).
  cbn [snd calls]. fold topics. eexists. f_equal. f_equal.
  rewrite !flat_map_concat_map. f_equal.
  rewrite Hbuilt at 2. cbn [data buildTable].
  pose proof (tableData_rows (firstThree allColumns) column jsonData) as [Hlen Hrows].
  apply list_eq. intros i. change (map ?f ?l) with (f <$> l).
  rewrite !list_lookup_fmap.
  destruct (List.filter _ jsonData !! i) as [row|] eqn:Hrow.
  - destruct (Hrows i row Hrow) as (r & -> & Hr & Hans & _).
    simpl. f_equal. rewrite Hbuilt.
    assert (Hin : In row jsonData /\ is_answer (row !! column) = true).
    { apply (proj1 (filter_In (fun row : ExcelData => is_answer (row !! column))
                         row jsonData)).
      rewrite <- list_elem_of_In. by eapply list_elem_of_lookup_2. }
    destruct Hin as [Hin Hrowans].
    apply built_row_request; try done.
    rewrite forallb_forall in Htext. specialize (Htext row Hin). fold column in Htext.
    intros n Hn. by rewrite Hn in Htext.
  - apply lookup_ge_None in Hrow. rewrite <- Hlen in Hrow.
    apply lookup_ge_None in Hrow. by rewrite Hrow.
Qed.

End ClassificationFacts.

(* ================================================================== *)
(** ** The classification of one row, in both iterations *)
(* ================================================================== *)

Section TopicRequests.

Import Later LaterSpec.

Variable backend : nat -> http_outcome.

(** One [axios.post]: the request is logged as sent and answered, and the
    promise resolves with the payload of a 2xx answer and rejects
    otherwise. *)
Lemma axios_post_run (req : request) (w : world) :
  axios_post backend req w
  = (match backend (length (calls w)) with
     | NetworkError msg => Thrown (mk_error msg true None None)
     | HttpResponse st txt p =>
         if status_ok st then Ok p
         else Thrown (mk_error ("Request failed with status code " +:+ pretty st)
                        true (Some st) (p ≫= error_message))
     end,
     log_call req w).
Proof.
  unfold axios_post, send, await, bind, throw, ret, log_call.
  cbn [tables commonTopicsInput calls toasts batchResults events].
  rewrite <- app_assoc. cbn [app].
  destruct (backend (length (calls w))) as [msg|st txt p]; [done|].
  by destruct (status_ok st).
Qed.

(** X18.  [analyzeTopicWithDeepSeek] of the current iteration.  An answer
    of white space only gives 内容为空 without a request.  Any other text
    sends exactly one request; the call resolves exactly when the exchange
    carries a non-empty text, with that text; otherwise it rejects with a
    plain [Error] whose message is the one for status 401, the one for
    status 429, or starts with 分析失败: . *)
Theorem topic_request_outcomes (text : string) (topics : list string)
    (columnName : string) (w : world) :
  let o := backend (length (calls w)) in
  let run := analyzeTopicWithDeepSeek backend (Some (CStr text)) topics columnName w in
  (trim text = "" -> run = (Ok "内容为空", w))
  /\ (trim text <> "" ->
      snd run = log_call (TopicRequest columnName text topics) w
      /\ (forall answer,
            fst run = Ok answer <-> exchangeText o = Some answer /\ answer <> "")
      /\ forall e,
           fst run = Thrown e ->
           exists m,
             e = Error m
             /\ ((exists txt p, o = HttpResponse 401 txt p)
                   /\ m = "API认证失败，请检查API密钥"
                 \/ (exists txt p, o = HttpResponse 429 txt p)
                   /\ m = "API请求过于频繁，请稍后重试"
                 \/ (forall txt p, o <> HttpResponse 401 txt p)
                   /\ (forall txt p, o <> HttpResponse 429 txt p)
                   /\ exists detail, m = "分析失败: " +:+ detail)).
Proof.
  intros o run. subst run. unfold analyzeTopicWithDeepSeek, try_catch.
  destruct (truthy (Some (CStr text))) eqn:Htruthy; cbn [negb].
  2:{ simpl in Htruthy. apply negb_false_iff, bool_decide_eq_true_1 in Htruthy.
      subst text. split; [done|]. intros H. by destruct H. }
  split.
  { intros Hblank. by rewrite (bool_decide_eq_true_2 _ Hblank). }
  intros Hblank. rewrite (bool_decide_eq_false_2 _ Hblank).
  unfold bind. rewrite axios_post_run. fold o.
  destruct o as [msg|st txt p] eqn:Ho.
  - cbn. split; [done|]. split; [by split; [|intros []]|].
    intros e He. injection He as <-. eexists. split; [done|].
    right. right. split; [done|]. split; [done|]. by eexists.
  - unfold exchangeText.
    destruct (status_ok st) eqn:Hst.
    + destruct (reply_content p) as [answer|] eqn:Hreply.
      * destruct (decide (answer = "")) as [->|Hne].
        -- cbn. split; [done|]. split.
           { split; [done|]. intros [H1 H2]. by injection H1 as <-. }
           intros e He. injection He as <-. eexists. split; [done|].
           right. right. split.
           { intros txt' p' E. injection E as -> _ _. done. }
           split; [|by eexists].
           intros txt' p' E. injection E as -> _ _. done.
        -- rewrite (bool_decide_eq_false_2 _ Hne). cbn.
           split; [done|]. split.
           { split; [intros H; by injection H as <-|]. intros [H1 _].
             by injection H1 as <-. }
           done.
      * cbn. split; [done|]. split; [by split; [|intros []]|].
        intros e He. injection He as <-. eexists. split; [done|].
        right. right. split.
        { intros txt' p' E. injection E as -> _ _. done. }
        split; [|by eexists].
        intros txt' p' E. injection E as -> _ _. done.
    + cbn [err_status].
      destruct (decide (st = 401%Z)) as [->|H401].
      { cbn. split; [done|]. split; [by split; [|intros []]|].
        intros e He. injection He as <-. eexists. split; [done|].
        left. split; [by eauto|done]. }
      rewrite (bool_decide_eq_false_2 (Some st = Some 401%Z)) by congruence.
      destruct (decide (st = 429%Z)) as [->|H429].
      { cbn. split; [done|]. split; [by split; [|intros []]|].
        intros e He. injection He as <-. eexists. split; [done|].
        right. left. split; [by eauto|done]. }
      rewrite (bool_decide_eq_false_2 (Some st = Some 429%Z)) by congruence.
      cbn. split; [done|]. split; [by split; [|intros []]|].
      intros e He. injection He as <-. eexists. split; [done|].
      right. right. split; [intros ?? E; by injection E|].
      split; [intros ?? E; by injection E|]. by eexists.
Qed.

Lemma topicVerdict_nonempty (o : http_outcome) : topicVerdict o <> "".
Proof.
  unfold topicVerdict. destruct (exchangeText o) as [answer|]; [|done].
  by case_bool_decide.
Qed.

(** X19.  [analyzeTopicWithDeepSeek] of the first iteration never rejects.
    It sends one request whatever the content is, also for an empty or
    missing one, and resolves with the text of the answer or with 分析失败,
    never with the empty string. *)
Theorem earlier_topic_request_never_rejects (value : option cell)
    (topics : list string) (columnName : string) (w : EarlierTopics.world) :
  let run := EarlierTopics.analyzeTopicWithDeepSeek backend value topics columnName w in
  fst run = Ok (topicVerdict (backend (length w)))
  /\ topicVerdict (backend (length w)) <> ""
  /\ snd run
     = w ++ [ {| EarlierTopics.req_columnName := columnName;
                 EarlierTopics.req_content := ToString value;
                 EarlierTopics.req_topics := topics |} ].
Proof.
  intros run. subst run.
  split; [|split; [apply topicVerdict_nonempty|]];
    unfold EarlierTopics.analyzeTopicWithDeepSeek, try_catch, bind,
      EarlierTopics.axios_post, topicVerdict, exchangeText;
    destruct (backend (length w)) as [msg|st txt p]; try done;
    destruct (status_ok st); try done;
    destruct (reply_content p) as [answer|]; try done;
    by destruct (bool_decide (answer = "")).
Qed.

End TopicRequests.

(* ================================================================== *)
(** ** The first iteration, from the sheet to the request *)
(* ================================================================== *)

Section EarlierFacts.

Import Earlier.

Variable backend : nat -> http_outcome.

Lemma length_filter_map {A B} (f : B -> bool) (g : A -> B) (l : list A) :
  length (List.filter f (map g l)) = length (List.filter (fun x => f (g x)) l).
Proof.
  induction l as [|x l IH]; simpl; [done|].
  destruct (f (g x)); simpl; by rewrite IH.
Qed.

Lemma earlier_remainingColumns_enough allColumns (jsonData : list ExcelData) column :
  In column (remainingColumns allColumns jsonData) ->
  11 <= length (tableData (firstThree allColumns) column jsonData)
     <= length jsonData.
Proof.
  unfold remainingColumns. rewrite filter_In.
  intros [_ H]. apply andb_prop in H as [_ H].
  unfold hasEnoughUniqueValues in H. apply Nat.ltb_lt in H.
  pose proof (length_remove_dups
    (List.filter is_nonempty (map (fun row : ExcelData => row !! column) jsonData))) as Hle.
  rewrite length_filter_map in Hle.
  unfold tableData. rewrite length_imap.
  pose proof (filter_length_le (fun row : ExcelData => is_nonempty (row !! column)) jsonData).
  lia.
Qed.

(** X20.  The first iteration, from the sheet to the request.  Every table
    of [processExcelFile] has at least eleven rows, and [handleAnalyze] sends
    all of them in one request, asking about the header the table was built
    for. *)
Theorem earlier_table_goes_in_one_request (allColumns : list string)
    (jsonData : list ExcelData) (w : world) (index : nat) (t : ProcessedTable) :
  EarlierSheet.processExcelFile allColumns jsonData = Some (processedTables w) ->
  processedTables w !! index = Some t ->
  exists column,
    remainingColumns allColumns jsonData !! index = Some column
    /\ name t = tableName column (length (data t))
    /\ data t = tableData (firstThree allColumns) column jsonData
    /\ 11 <= length (data t) <= length jsonData
    /\ calls (snd (handleAnalyze backend index w))
       = calls w ++ [AnalysisRequest column (data t)].
Proof.
  unfold EarlierSheet.processExcelFile. intros Htables Ht.
  destruct jsonData as [|row0 rest] eqn:Hrows; [done|]. rewrite <- Hrows in *.
  injection Htables as Htables. rewrite <- Htables in Ht.
  change (map ?f ?l) with (f <$> l) in Ht. rewrite list_lookup_fmap in Ht.
  destruct (remainingColumns allColumns jsonData !! index) as [column|] eqn:Hcol;
    [|done].
  injection Ht as Ht. exists column. split; [done|].
  assert (Hlookup : processedTables w !! index = Some t).
  { rewrite <- Htables. change (map ?f ?l) with (f <$> l).
    by rewrite list_lookup_fmap, Hcol, <- Ht. }
  subst t. cbn [EarlierSheet.buildTable name data]. split; [done|]. split; [done|].
  split.
  { apply earlier_remainingColumns_enough. rewrite <- list_elem_of_In.
    by eapply list_elem_of_lookup_2. }
  unfold handleAnalyze. unfold bind at 1. unfold getProcessedTables.
  rewrite Hlookup. cbn [isAnalyzing has_analysis analysis EarlierSheet.buildTable orb].
  unfold bind at 1. unfold setProcessedTables at 1. unfold try_catch.
  cbn [columns set_isAnalyzing EarlierSheet.buildTable].
  unfold tableColumns. rewrite last_snoc. cbn [title].
  unfold bind at 1.
  match goal with
  | |- context [analyzeDataWithDeepSeek _ ?rows ?cn ?W] =>
      destruct (analyzeDataWithDeepSeek_run backend rows cn W) as [status E];
      rewrite E
  end.
  done.
Qed.

(** X24.  The banner after a request of the first iteration.  It shows
    success exactly when the exchange brought a non-empty text.  A failed
    exchange is reported as API调用失败: followed by the message of the
    server's error object when the response carries one, and by the message
    of the network error when the exchange broke. *)
Theorem earlier_banner_after_analysis (rows : list ExcelData)
    (columnName : string) (w : world) :
  let o := backend (length (calls w)) in
  let w' := snd (analyzeDataWithDeepSeek backend rows columnName w) in
  (snd (apiStatus w') = success
   <-> exists text, exchangeText o = Some text /\ text <> "")
  /\ (forall st txt b m,
        o = HttpResponse st txt (Some b) -> status_ok st = false ->
        error_message b = Some m -> m <> "" ->
        apiStatus w' = (Text ("API调用失败: " +:+ m), error))
  /\ (forall msg,
        o = NetworkError msg ->
        apiStatus w' = (Text ("API调用失败: " +:+ msg), error))
  /\ (forall st txt p,
        o = HttpResponse st txt p -> status_ok st = true ->
        exchangeText o = None \/ exchangeText o = Some "" ->
        apiStatus w' = (Text "未获取到有效的分析结果", error)).
Proof.
  intros o w'. subst w'.
  unfold analyzeDataWithDeepSeek, try_catch, bind, setApiStatus, axios_post,
    log_call. cbn [calls]. fold o.
  destruct o as [msg|st txt p] eqn:Ho.
  - cbn. split; [split; [done|by intros (text & ? & _)]|].
    split; [done|]. split; [|done]. intros msg' E. by injection E as <-.
  - unfold exchangeText. destruct (status_ok st) eqn:Hst.
    + assert (Hnot : forall st' txt' (b : body) (m : string) banner,
                HttpResponse st txt p = HttpResponse st' txt' (Some b) ->
                status_ok st' = false -> error_message b = Some m -> m <> "" ->
                banner = (Text ("API调用失败: " +:+ m), error)).
      { intros st' txt' b m banner E Hst'. injection E as <- _ _. congruence. }
      destruct (reply_content p) as [text|] eqn:Hreply.
      * destruct (decide (text = "")) as [->|Hne].
        -- rewrite (bool_decide_eq_true_2 ("" = "")) by done. cbn.
           split; [split; [done|]|].
           { intros (text & E & Hne). by injection E as <-. }
           split; [intros; by eapply Hnot|]. by split.
        -- rewrite (bool_decide_eq_false_2 _ Hne). cbn.
           split; [split; [by eauto|done]|].
           split; [intros; by eapply Hnot|]. split; [done|].
           intros ??? _ _ [E|E]; [done|]. by injection E.
      * cbn. split; [split; [done|by intros (text & ? & _)]|].
        split; [intros; by eapply Hnot|]. by split.
    + cbn. split; [split; [done|by intros (text & ? & _)]|].
      split.
      { intros st' txt' b m E _ Hm Hne. injection E as <- <- ->.
        cbn. rewrite Hm. by rewrite (bool_decide_eq_false_2 _ Hne). }
      split; [done|]. intros ??? E. injection E as <- _ _. congruence.
Qed.

End EarlierFacts.

(* ================================================================== *)
(** ** The topics of the input box *)
(* ================================================================== *)

Section Topics.

Import LaterSpec.

Lemma sep1_bytes (a : ascii) :
  sep1 a = true -> nat_of_ascii a = 44 \/ nat_of_ascii a = 10.
Proof.
  unfold sep1. rewrite orb_true_iff, !Nat.eqb_eq. tauto.
Qed.

Lemma sep3_bytes (a b c : ascii) :
  sep3 a b c = true ->
  (nat_of_ascii a = 227 /\ nat_of_ascii b = 128 /\ nat_of_ascii c = 129)
  \/ (nat_of_ascii a = 239 /\ nat_of_ascii b = 188 /\ nat_of_ascii c = 140).
Proof.
  unfold sep3. rewrite orb_true_iff, !andb_true_iff, !Nat.eqb_eq. tauto.
Qed.

Lemma sep3_not_second (a b c : ascii) :
  sep1 b = true \/ nat_of_ascii b = 227 \/ nat_of_ascii b = 239 ->
  sep3 a b c = false.
Proof.
  intros H. destruct (sep3 a b c) eqn:E; [|done].
  apply sep3_bytes in E. destruct H as [H|H]; [apply sep1_bytes in H|]; lia.
Qed.

Lemma sep3_not_third (a b c : ascii) :
  sep1 c = true \/ nat_of_ascii c = 227 \/ nat_of_ascii c = 239 ->
  sep3 a b c = false.
Proof.
  intros H. destruct (sep3 a b c) eqn:E; [|done].
  apply sep3_bytes in E. destruct H as [H|H]; [apply sep1_bytes in H|]; lia.
Qed.

(** A separator: one of the two single bytes, or one of the two characters
    of three bytes. *)
Lemma split_go_separator (sep b : string) :
  (exists s, sep = String s "" /\ sep1 s = true)
  \/ (exists x y z, sep = String x (String y (String z "")) /\ sep3 x y z = true) ->
  forall n a cur,
    String.length a <= n ->
    split_go (a +:+ sep +:+ b) cur = split_go a cur ++ split_go b "".
Proof.
  intros Hsep.
  assert (Hhead : forall cur, split_go (sep +:+ b) cur = [String.rev cur] ++ split_go b "").
  { intros cur. destruct Hsep as [(s & -> & Hs)|(x & y & z & -> & Hxyz)].
    - rewrite string_append_cons, string_append_nil_l. cbn [split_go].
      by rewrite Hs.
    - rewrite !string_append_cons, string_append_nil_l. cbn [split_go].
      destruct (sep1 x) eqn:Hx.
      { apply sep1_bytes in Hx. apply sep3_bytes in Hxyz. lia. }
      by rewrite Hxyz. }
  assert (Hfirst : exists s rest, sep +:+ b = String s rest
            /\ (sep1 s = true \/ nat_of_ascii s = 227 \/ nat_of_ascii s = 239)).
  { destruct Hsep as [(s & -> & Hs)|(x & y & z & -> & Hxyz)].
    - exists s, b. rewrite string_append_cons, string_append_nil_l. by split; [|left].
    - eexists x, _. rewrite string_append_cons. split; [done|right].
      apply sep3_bytes in Hxyz. lia. }
  assert (Hsecond : forall s1 s2 rest, sep +:+ b = String s1 (String s2 rest) ->
            forall a, sep3 a s1 s2 = false).
  { intros s1 s2 rest E a.
    destruct Hsep as [(s & -> & Hs)|(x & y & z & -> & Hxyz)].
    - rewrite string_append_cons, string_append_nil_l in E. injection E as <- _.
      apply sep3_not_second. by left.
    - rewrite !string_append_cons in E. injection E as <- <- _.
      apply sep3_not_second. right. apply sep3_bytes in Hxyz. lia. }
  induction n as [|n IH]; intros a cur Hlen.
  { destruct a; [|simpl in Hlen; lia]. rewrite string_append_nil_l. apply Hhead. }
  destruct a as [|c a]; [rewrite string_append_nil_l; apply Hhead|].
  simpl in Hlen. rewrite string_append_cons. cbn [split_go].
  destruct (sep1 c) eqn:Hc.
  { rewrite IH by lia. done. }
  destruct a as [|y a].
  { rewrite string_append_nil_l.
    destruct Hfirst as (s & rest & E & Hs). rewrite E.
    assert (Hgo : split_go (String s rest) (String c cur)
                  = [String.rev (String c cur)] ++ split_go b "").
    { rewrite <- E. apply Hhead. }
    destruct rest as [|s2 rest].
    - rewrite Hgo. done.
    - rewrite (sep3_not_second c s s2 Hs). rewrite Hgo. done. }
  destruct a as [|z a].
  { rewrite string_append_cons, string_append_nil_l.
    destruct Hfirst as (s & rest & E & Hs). rewrite E.
    rewrite (sep3_not_third c y s Hs).
    rewrite <- E.
    change (String y (sep +:+ b)) with (String y ("" +:+ sep +:+ b)).
    rewrite <- string_append_cons. rewrite IH by (simpl in *; lia). done. }
  rewrite !string_append_cons.
  destruct (sep3 c y z).
  - rewrite IH by (simpl in *; lia). done.
  - rewrite <- !string_append_cons. rewrite IH by (simpl in *; lia). done.
Qed.

(** X21.  The topics of the input box are taken piece by piece: at each of
    the four separators 、 , ， and the line feed, the topics of the input
    are the topics of what stands before the separator followed by the
    topics of what stands after it. *)
Theorem topics_split_at_separator (a sep b : string) :
  In sep ["、"; ","; "，"; String "010" ""] ->
  topicsOf (a +:+ sep +:+ b) = topicsOf a ++ topicsOf b.
Proof.
  intros Hsep. unfold topicsOf, split_topics.
  rewrite (split_go_separator sep b) with (n := String.length a) by
    (try lia;
     cbn in Hsep;
     destruct Hsep as [<-|[<-|[<-|[<-|[]]]]];
     first [ left; eexists; split; [reflexivity|by vm_compute]
           | right; eexists _, _, _; split; [reflexivity|by vm_compute] ]).
  by rewrite List.filter_app.
Qed.

End Topics.

(* ================================================================== *)
(** ** A blank input box *)
(* ================================================================== *)

Section BlankInput.

Import Later LaterSpec TopicsButton.

Variable backend : nat -> http_outcome.

Lemma trimStart_cases (s : string) :
  (s = "" /\ trimStart s = "")
  \/ (exists a r, s = String a r /\ ws1 a = true /\ trimStart s = trimStart r)
  \/ (exists a b r, s = String a (String b r) /\ ws1 a = false /\ ws2 a b = true
        /\ trimStart s = trimStart r)
  \/ (exists a b c r, s = String a (String b (String c r))
        /\ ws1 a = false /\ ws2 a b = false /\ ws3 a b c = true
        /\ trimStart s = trimStart r)
  \/ (s <> "" /\ starts_ws s = false /\ trimStart s = s).
Proof.
  destruct s as [|a r1]; [by left|]. right. cbn [trimStart starts_ws].
  destruct (ws1 a) eqn:H1; [left; by eauto|]. right.
  destruct r1 as [|b r2]; [by repeat right|].
  destruct (ws2 a b) eqn:H2; [left; by eauto 10|]. right.
  destruct r2 as [|c r3]; [by right|].
  destruct (ws3 a b c) eqn:H3; [left; by eauto 10|]. by right.
Qed.

Lemma trimStart_rev_cases (s : string) :
  (s = "" /\ trimStart_rev s = "")
  \/ (exists c r, s = String c r /\ ws1 c = true /\ trimStart_rev s = trimStart_rev r)
  \/ (exists c b r, s = String c (String b r) /\ ws2 b c = true
        /\ trimStart_rev s = trimStart_rev r)
  \/ (exists c b a r, s = String c (String b (String a r)) /\ ws3 a b c = true
        /\ trimStart_rev s = trimStart_rev r)
  \/ (s <> "" /\ trimStart_rev s = s).
Proof.
  destruct s as [|c r1]; [by left|]. right. cbn [trimStart_rev].
  destruct (ws1 c) eqn:H1; [left; by eauto|]. right.
  destruct r1 as [|b r2]; [by repeat right|].
  destruct (ws2 b c) eqn:H2; [left; by eauto 10|]. right.
  destruct r2 as [|a r3]; [by right|].
  destruct (ws3 a b c) eqn:H3; [left; by eauto 10|]. by right.
Qed.

Lemma starts_ws_trimStart (s : string) : starts_ws (trimStart s) = false.
Proof.
  assert (H : forall n s, String.length s <= n -> starts_ws (trimStart s) = false).
  { induction n as [|n IH]; intros r Hr.
    - destruct r; [done|simpl in Hr; lia].
    - destruct (trimStart_cases r)
        as [[-> ->]|[(a & r' & -> & _ & ->)|[(a & b & r' & -> & _ & _ & ->)
           |[(a & b & c & r' & -> & _ & _ & _ & ->)|(_ & H & ->)]]]];
        try done; apply IH; simpl in *; lia. }
  by apply (H (String.length s)).
Qed.

Lemma starts_ws_append (x y : string) :
  starts_ws x = true -> starts_ws (x +:+ y) = true.
Proof.
  destruct x as [|a [|b [|c x]]]; simpl; try done.
  - rewrite !orb_false_r. by intros ->.
  - rewrite !orb_false_r. intros H.
    apply orb_true_iff in H as [E|E]; rewrite E; [done|by rewrite orb_true_r].
Qed.

(** A string that the scan from the right eats whole starts with a
    white-space character. *)
Lemma trimStart_rev_eats (v : string) :
  trimStart_rev v = "" -> v <> "" -> starts_ws (String.rev v) = true.
Proof.
  assert (H : forall n v, String.length v <= n ->
                trimStart_rev v = "" -> v <> "" -> starts_ws (String.rev v) = true).
  { induction n as [|n IH]; intros r Hr Heat Hne.
    { destruct r; [done|simpl in Hr; lia]. }
    destruct (trimStart_rev_cases r)
      as [[-> _]|[(c & r' & -> & Hc & E)|[(c & b & r' & -> & Hbc & E)
         |[(c & b & a & r' & -> & Habc & E)|(_ & E)]]]].
    - done.
    - rewrite string_rev_cons. destruct r' as [|x r'].
      + simpl. by rewrite Hc.
      + apply starts_ws_append. apply IH; [simpl in *; lia|congruence|done].
    - rewrite !string_rev_cons, string_append_assoc. destruct r' as [|x r'].
      + simpl. by rewrite Hbc, orb_true_r.
      + apply starts_ws_append. apply IH; [simpl in *; lia|congruence|done].
    - rewrite !string_rev_cons, !string_append_assoc. destruct r' as [|x r'].
      + simpl. by rewrite Habc, !orb_true_r.
      + apply starts_ws_append. apply IH; [simpl in *; lia|congruence|done].
    - congruence. }
  by apply (H (String.length v)).
Qed.

Lemma string_rev_nil (s : string) : String.rev s = "" -> s = "".
Proof.
  intros H. apply (f_equal String.length) in H.
  rewrite string_length_rev in H. by destruct s.
Qed.

(** A blank string is eaten whole by the scan from the left. *)
Lemma trim_blank (s : string) : trim s = "" -> trimStart s = "".
Proof.
  unfold trim, trimEnd. intros H. apply string_rev_nil in H.
  destruct (decide (trimStart s = "")) as [|Hne]; [done|].
  assert (Hrev : String.rev (trimStart s) <> "").
  { intros E. by apply string_rev_nil in E. }
  pose proof (trimStart_rev_eats _ H Hrev) as Hstart.
  by rewrite string_rev_involutive, starts_ws_trimStart in Hstart.
Qed.

Lemma ws1_bytes (a : ascii) :
  ws1 a = true ->
  9 <= nat_of_ascii a <= 13 \/ nat_of_ascii a = 32.
Proof.
  unfold ws1. rewrite orb_true_iff, andb_true_iff, !Nat.leb_le, Nat.eqb_eq. tauto.
Qed.

Lemma ws2_bytes (a b : ascii) :
  ws2 a b = true -> nat_of_ascii a = 194 /\ nat_of_ascii b = 160.
Proof. unfold ws2. by rewrite andb_true_iff, !Nat.eqb_eq. Qed.

Lemma ws3_bytes (a b c : ascii) :
  ws3 a b c = true ->
  (nat_of_ascii a = 225 \/ nat_of_ascii a = 226
   \/ (nat_of_ascii a = 227 /\ nat_of_ascii c = 128)
   \/ (nat_of_ascii a = 239 /\ nat_of_ascii c = 191))
  /\ 128 <= nat_of_ascii b <= 187
  /\ 128 <= nat_of_ascii c <= 191.
Proof.
  unfold ws3.
  rewrite !orb_true_iff, !andb_true_iff, !orb_true_iff, !andb_true_iff,
    !Nat.leb_le, !Nat.eqb_eq.
  lia.
Qed.

Lemma sep1_false (a : ascii) :
  nat_of_ascii a <> 44 -> nat_of_ascii a <> 10 -> sep1 a = false.
Proof.
  intros H1 H2. destruct (sep1 a) eqn:E; [|done].
  apply sep1_bytes in E. lia.
Qed.

Lemma sep3_false (a b c : ascii) :
  (nat_of_ascii a = 227 -> nat_of_ascii c <> 129) ->
  (nat_of_ascii a = 239 -> nat_of_ascii c <> 140) ->
  sep3 a b c = false.
Proof.
  intros H1 H2. destruct (sep3 a b c) eqn:E; [|done].
  apply sep3_bytes in E. lia.
Qed.

(** A byte that neither is a separator nor starts one joins the piece
    being read. *)
Lemma split_go_step (a : ascii) (r cur : string) :
  sep1 a = false ->
  nat_of_ascii a <> 227 -> nat_of_ascii a <> 239 ->
  split_go (String a r) cur = split_go r (String a cur).
Proof.
  intros H1 H2 H3. cbn [split_go]. rewrite H1.
  destruct r as [|b [|c r3]]; try done.
  by rewrite sep3_false by lia.
Qed.

Lemma split_go_step3 (a b c : ascii) (r cur : string) :
  sep1 a = false ->
  sep3 a b c = false ->
  split_go (String a (String b (String c r))) cur
  = split_go (String b (String c r)) (String a cur).
Proof. intros H1 H2. cbn [split_go]. by rewrite H1, H2. Qed.

(** White space before a string is eaten with it. *)
Lemma trimStart_append (x y : string) :
  trimStart x = "" -> trimStart (x +:+ y) = trimStart y.
Proof.
  assert (H : forall n x, String.length x <= n ->
                trimStart x = "" -> trimStart (x +:+ y) = trimStart y).
  { induction n as [|n IH]; intros r Hr Hblank.
    { destruct r; [by rewrite string_append_nil_l|simpl in Hr; lia]. }
    destruct (trimStart_cases r)
      as [[-> _]|[(a & r' & -> & Ha & E)|[(a & b & r' & -> & Ha & Hab & E)
         |[(a & b & c & r' & -> & Ha & Hab & Habc & E)|(Hne & _ & E)]]]].
    - by rewrite string_append_nil_l.
    - rewrite string_append_cons. cbn [trimStart]. rewrite Ha.
      apply IH; [simpl in *; lia|congruence].
    - rewrite !string_append_cons. cbn [trimStart]. rewrite Ha, Hab.
      apply IH; [simpl in *; lia|congruence].
    - rewrite !string_append_cons. cbn [trimStart]. rewrite Ha, Hab, Habc.
      apply IH; [simpl in *; lia|congruence].
    - congruence. }
  by apply (H (String.length x)).
Qed.

(** The pieces of a blank string are blank. *)
Lemma split_go_blank (s : string) :
  forall cur,
    trimStart s = "" ->
    trimStart (String.rev cur) = "" ->
    Forall (fun piece => trimStart piece = "") (split_go s cur).
Proof.
  assert (H : forall n s cur, String.length s <= n ->
                trimStart s = "" ->
                trimStart (String.rev cur) = "" ->
                Forall (fun piece => trimStart piece = "") (split_go s cur)).
  { induction n as [|n IH]; intros r cur Hr Hblank Hcur.
    { destruct r; [by constructor|simpl in Hr; lia]. }
    destruct (trimStart_cases r)
      as [[-> _]|[(a & r' & -> & Ha & E)|[(a & b & r' & -> & Ha & Hab & E)
         |[(a & b & c & r' & -> & Ha & Hab & Habc & E)|(Hne & _ & E)]]]].
    - by constructor.
    - rewrite E in Hblank. pose proof (ws1_bytes a Ha) as Hbytes.
      destruct (sep1 a) eqn:Hsep.
      + cbn [split_go]. rewrite Hsep. constructor; [done|].
        apply IH; [simpl in *; lia|done|done].
      + rewrite split_go_step by (try done; lia).
        apply IH; [simpl in *; lia|done|].
        rewrite string_rev_cons, trimStart_append by done.
        cbn [trimStart]. by rewrite Ha.
    - rewrite E in Hblank. pose proof (ws2_bytes a b Hab) as Hbytes.
      rewrite !split_go_step by (try apply sep1_false; lia).
      apply IH; [simpl in *; lia|done|].
      rewrite !string_rev_cons, string_append_assoc, trimStart_append by done.
      rewrite ?string_append_cons, ?string_append_nil_l.
      cbn [trimStart]. by rewrite Ha, Hab.
    - rewrite E in Hblank. pose proof (ws3_bytes a b c Habc) as Hbytes.
      rewrite split_go_step3 by (first [apply sep1_false|apply sep3_false]; lia).
      rewrite !split_go_step by (try apply sep1_false; lia).
      apply IH; [simpl in *; lia|done|].
      rewrite !string_rev_cons, !string_append_assoc, trimStart_append by done.
      rewrite ?string_append_cons, ?string_append_nil_l.
      cbn [trimStart]. by rewrite Ha, Hab, Habc.
    - congruence. }
  intros cur. by apply (H (String.length s)).
Qed.

Lemma blank_input_has_no_topic (input : string) :
  trim input = "" -> topicsOf input = [].
Proof.
  intros Hblank. apply trim_blank in Hblank.
  pose proof (split_go_blank input "" Hblank eq_refl) as Hpieces.
  unfold topicsOf, split_topics. induction Hpieces as [|piece pieces Hp _ IH]; [done|].
  assert (Hpiece : trim piece = "") by (unfold trim; by rewrite Hp).
  cbn [List.filter]. by rewrite (bool_decide_eq_true_2 _ Hpiece).
Qed.

(** The button is enabled for inputs in which the handler finds no topic. *)
Lemma topics_button_looser_than_guard :
  topicsDisabled demo_table "，、" = false /\ topicsOf "，、" = [].
Proof. by vm_compute. Qed.

(** X22.  The button of the classification blocks only what the handler
    itself refuses.  When the button is disabled, because the table is being
    classified or because the input box is blank, the table is busy or the
    split of the input finds no topic: the click does nothing, and a call of
    [handleTopicsAnalysis] all the same would send no request and change no
    table. *)
Theorem topics_button_within_guards (index : nat) (w : world)
    (t : ProcessedTable) :
  tables w !! index = Some t ->
  topicsDisabled t (commonTopicsInput w) = true ->
  (isAnalyzingTopics t = true \/ topicsOf (commonTopicsInput w) = [])
  /\ clickTopics backend index w = (Ok tt, w)
  /\ calls (snd (handleTopicsAnalysis backend index w)) = calls w
  /\ tables (snd (handleTopicsAnalysis backend index w)) = tables w.
Proof.
  intros Ht Hdisabled.
  assert (Hguard : isAnalyzingTopics t = true \/ topicsOf (commonTopicsInput w) = []).
  { unfold topicsDisabled in Hdisabled.
    apply orb_true_iff in Hdisabled as [Hbusy|Hblank]; [by left|right].
    apply bool_decide_eq_true_1 in Hblank. by apply blank_input_has_no_topic. }
  split; [done|]. split.
  { unfold clickTopics, bind, getTables, getCommonTopicsInput.
    by rewrite Ht, Hdisabled. }
  destruct (isAnalyzingTopics t) eqn:Hidle.
  - by rewrite (handleTopicsAnalysis_busy backend index w t Ht Hidle).
  - destruct Hguard as [|Hnone]; [done|].
    by rewrite (handleTopicsAnalysis_no_topic backend index w t Ht Hidle Hnone).
Qed.

End BlankInput.

(* ================================================================== *)
(** ** The theorems above at the sheet of the examples *)
(* ================================================================== *)

Section Instances.

Import Later LaterSpec.

Lemma analysis_sends_every_row_once_witness :
  let run := handleAnalyze backend_ok 0 demo_world in
  exists batchRequests entries,
    calls (snd run) = calls demo_world ++ batchRequests ++ [SummaryRequest entries]
    /\ length batchRequests = ceil_div (length (data demo_table)) BATCH_SIZE
    /\ flat_map batchDataOf batchRequests
       = map (batchItem demo_table) (data demo_table)
    /\ (forall req, In req batchRequests ->
          1 <= length (batchDataOf req) <= BATCH_SIZE
          /\ req = BatchRequest (batchDataOf req))
    /\ (exists perBatch : list (list (option string)),
          entries = concat perBatch
          /\ length perBatch = length batchRequests
          /\ forall j es,
               perBatch !! j = Some es ->
               1 <= length es <= 2
               /\ es = batchEntries j (backend_ok (length (calls demo_world) + j)))
    /\ length batchRequests <= length entries <= 2 * length batchRequests
    /\ (data demo_table = [] -> batchRequests = [] /\ entries = []).
Proof.
  apply (analysis_sends_every_row_once backend_ok 0 demo_world demo_table).
  - reflexivity.
  - reflexivity.
Defined.

Lemma analysis_keeps_the_rest_witness :
  let t := demo_table in
  let run := handleAnalyze backend_reduce_500 0 demo_world in
  fst run = Ok tt
  /\ length (tables (snd run)) = length (tables demo_world)
  /\ (forall i, i <> 0 -> tables (snd run) !! i = tables demo_world !! i)
  /\ commonTopicsInput (snd run) = commonTopicsInput demo_world
  /\ exists t',
       tables (snd run) !! 0 = Some t'
       /\ isAnalyzing t' = isAnalyzing t
       /\ name t' = name t /\ data t' = data t /\ columns t' = columns t
       /\ commonTopics t' = commonTopics t
       /\ isAnalyzingTopics t' = isAnalyzingTopics t
       /\ topicsAnalysis t' = topicsAnalysis t
       /\ topicsApiStatus t' = topicsApiStatus t
       /\ topicsApiMessage t' = topicsApiMessage t.
Proof.
  apply (analysis_keeps_the_rest backend_reduce_500 0 demo_world demo_table).
  reflexivity.
Defined.

Lemma analysis_outcome_witness :
  let t := demo_table in
  let run := handleAnalyze backend_ok 0 demo_world in
  let closing :=
    backend_ok (length (calls demo_world)
                + ceil_div (length (data t)) BATCH_SIZE) in
  exists t',
    tables (snd run) !! 0 = Some t'
    /\ match exchangeText closing with
       | Some text =>
           analysis t' = Some text
           /\ analysisApiStatus t' = Some success
           /\ analysisApiMessage t' = Some "整体分析完成！"
           /\ toasts (snd run) = toasts demo_world ++ [ToastSuccess "整体分析完成！"]
       | None =>
           analysis t' = analysis t
           /\ analysisApiStatus t' = Some error
           /\ (exists msg, analysisApiMessage t' = Some ("分析失败: " +:+ msg))
           /\ toasts (snd run) = toasts demo_world ++ [ToastError "整体分析失败，请重试"]
       end.
Proof.
  apply (analysis_outcome backend_ok 0 demo_world demo_table).
  - reflexivity.
  - reflexivity.
Defined.

Lemma sheet_answers_reach_the_model_witness :
  let column := columnNameOf (name demo_table) in
  exists batchRequests entries,
    calls (snd (handleAnalyze backend_ok 0 demo_world))
    = calls demo_world ++ batchRequests ++ [SummaryRequest entries]
    /\ flat_map batchDataOf batchRequests
       = map (fun row : ExcelData =>
                {| userInfo := rowUserInfo row; questionContent := row !! column |})
           (List.filter (fun row : ExcelData => is_answer (row !! column)) demo_rows).
Proof.
  apply (sheet_answers_reach_the_model backend_ok demo_columns demo_rows
           demo_world 0 demo_table).
  - by vm_compute.
  - reflexivity.
  - apply (bool_decide_unpack _). by vm_compute.
  - apply (bool_decide_unpack _). by vm_compute.
  - apply (bool_decide_unpack _). by vm_compute.
  - by vm_compute.
Defined.

Lemma classification_keeps_the_rest_witness :
  let t := demo_table in
  let run := handleTopicsAnalysis backend_row_failure 0 demo_world in
  fst run = Ok tt
  /\ length (tables (snd run)) = length (tables demo_world)
  /\ (forall i, i <> 0 -> tables (snd run) !! i = tables demo_world !! i)
  /\ exists t',
       tables (snd run) !! 0 = Some t'
       /\ isAnalyzingTopics t' = isAnalyzingTopics t
       /\ name t' = name t /\ columns t' = columns t
       /\ analysis t' = analysis t /\ isAnalyzing t' = isAnalyzing t
       /\ analysisApiStatus t' = analysisApiStatus t
       /\ analysisApiMessage t' = analysisApiMessage t
       /\ length (data t') = length (data t)
       /\ forall g row,
            data t !! g = Some row ->
            exists row',
              data t' !! g = Some row'
              /\ forall k, k <> "共性内容分析" -> row' !! k = row !! k.
Proof.
  apply (classification_keeps_the_rest backend_row_failure 0 demo_world demo_table).
  reflexivity.
Defined.

Lemma classification_input_and_topics_witness :
  let t := demo_table in
  let w := demo_world in
  let topics := topicsOf (commonTopicsInput w) in
  let run := handleTopicsAnalysis backend_ok 0 w in
  let closing :=
    backend_ok (length (calls w)
                + length (flat_map (rowRequest t topics) (data t))) in
  exists t',
    tables (snd run) !! 0 = Some t'
    /\ commonTopics t' = topics
    /\ (exchangeFails closing ->
          commonTopicsInput (snd run) = commonTopicsInput w
          /\ topicsAnalysis t' = topicsAnalysis t
          /\ toasts (snd run) = toasts w ++ [ToastError "共性内容分析失败，请重试"])
    /\ (~ exchangeFails closing ->
          commonTopicsInput (snd run) = ""
          /\ topicsAnalysis t' = exchangeText closing
          /\ toasts (snd run) = toasts w ++ [ToastSuccess "共性内容分析完成！"]).
Proof.
  apply (classification_input_and_topics backend_ok 0 demo_world demo_table).
  - reflexivity.
  - reflexivity.
  - by vm_compute.
Defined.

Lemma classification_needs_idle_table_and_topic_witness :
  let w := mkWorld [demo_table] "，、" [] [] [] [] in
  let run := handleTopicsAnalysis backend_ok 0 w in
  fst run = Ok tt
  /\ calls (snd run) = calls w
  /\ tables (snd run) = tables w
  /\ commonTopicsInput (snd run) = commonTopicsInput w
  /\ toasts (snd run)
     = if isAnalyzingTopics demo_table then toasts w
       else toasts w ++ [ToastError "请输入至少一个共性内容"].
Proof.
  apply (classification_needs_idle_table_and_topic backend_ok 0
           (mkWorld [demo_table] "，、" [] [] [] []) demo_table).
  - reflexivity.
  - right. by vm_compute.
Defined.

Lemma analysis_and_classification_requests_witness :
  let t := demo_table in
  let w := demo_world in
  let topics := topicsOf (commonTopicsInput w) in
  let classified := snd (handleTopicsAnalysis backend_ok 0 w) in
  let analysed := snd (handleAnalyze backend_ok 0 w) in
  (exists entries,
     calls (snd (handleAnalyze backend_ok 0 classified))
     = calls classified ++ map (batchRequest t) (createBatches (data t))
         ++ [SummaryRequest entries])
  /\ calls (snd (handleTopicsAnalysis backend_ok 0 analysed))
     = calls analysed ++ flat_map (rowRequest t topics) (data t)
         ++ [TopicsSummaryRequest topics (analysisDataOf t)].
Proof.
  apply (analysis_and_classification_requests backend_ok 0 demo_world demo_table).
  - reflexivity.
  - reflexivity.
  - reflexivity.
  - by vm_compute.
  - by vm_compute.
  - by vm_compute.
Defined.

(** One batch whose request gets a 500, and a reduce step that is answered:
    the placeholder of the batch is summarised and the run is a success. *)
Lemma batch_failures_absorbed_witness :
  let t := demo_table in
  let w := demo_world in
  let batches := createBatches (data t) in
  let first := length (calls w) in
  let run := handleAnalyze backend_batch_500 0 w in
  exchangeFails (backend_batch_500 0)
  /\ exchangeText (backend_batch_500 1) = Some "S"
  /\ fst run = Ok tt
  /\ exists entries : list string,
       calls (snd run) = calls w ++ map (batchRequest t) batches
                           ++ [SummaryRequest (map Some entries)]
       /\ length entries = length batches
       /\ (forall j entry,
             entries !! j = Some entry ->
             absorbedEntry j (backend_batch_500 (first + j)) entry)
       /\ forall text,
            exchangeText (backend_batch_500 (first + length batches)) = Some text ->
            toasts (snd run) = toasts w ++ [ToastSuccess "整体分析完成！"]
            /\ exists t', tables (snd run) !! 0 = Some t'
                 /\ analysisApiStatus t' = Some success
                 /\ isAnalyzing t' = false
                 /\ analysis t' = Some text.
Proof.
  split; [by left|]. split; [reflexivity|].
  apply (batch_failures_absorbed backend_batch_500 0 demo_world demo_table).
  - reflexivity.
  - reflexivity.
  - intros j Hj. destruct j as [|j]; [|vm_compute in Hj; lia].
    left. by left.
Defined.

Lemma topics_split_at_separator_witness :
  topicsOf ("主题A" +:+ "、" +:+ " 主题B ") = topicsOf "主题A" ++ topicsOf " 主题B ".
Proof.
  apply (topics_split_at_separator "主题A" "、" " 主题B ").
  left. reflexivity.
Defined.

Lemma sheet_answers_reach_the_classifier_witness :
  let column := columnNameOf (name demo_table) in
  let topics := topicsOf (commonTopicsInput demo_world) in
  exists closing,
    calls (snd (handleTopicsAnalysis backend_ok 0 demo_world))
    = calls demo_world
      ++ flat_map (fun row : ExcelData =>
                     match row !! column with
                     | Some (CStr text) =>
                         if bool_decide (trim text = "") then []
                         else [TopicRequest column text topics]
                     | _ => []
                     end)
           (List.filter (fun row : ExcelData => is_answer (row !! column)) demo_rows)
      ++ [closing].
Proof.
  apply (sheet_answers_reach_the_classifier backend_ok demo_columns demo_rows
           demo_world 0 demo_table).
  - by vm_compute.
  - reflexivity.
  - by vm_compute.
  - by vm_compute.
Defined.

Lemma topics_button_within_guards_witness :
  let w := mkWorld [demo_table] "  " [] [] [] [] in
  (isAnalyzingTopics demo_table = true \/ topicsOf (commonTopicsInput w) = [])
  /\ TopicsButton.clickTopics backend_ok 0 w = (Ok tt, w)
  /\ calls (snd (handleTopicsAnalysis backend_ok 0 w)) = calls w
  /\ tables (snd (handleTopicsAnalysis backend_ok 0 w)) = tables w.
Proof.
  apply (topics_button_within_guards backend_ok 0
           (mkWorld [demo_table] "  " [] [] [] []) demo_table).
  - reflexivity.
  - by vm_compute.
Defined.

End Instances.

Lemma earlier_table_goes_in_one_request_witness :
  let t := demo_table_earlier in
  let w := demo_world_earlier in
  exists column,
    Earlier.remainingColumns demo_columns demo_rows !! 0 = Some column
    /\ Earlier.name t = tableName column (length (Earlier.data t))
    /\ Earlier.data t = Earlier.tableData (firstThree demo_columns) column demo_rows
    /\ 11 <= length (Earlier.data t) <= length demo_rows
    /\ Earlier.calls (snd (Earlier.handleAnalyze backend_down 0 w))
       = Earlier.calls w ++ [Earlier.AnalysisRequest column (Earlier.data t)].
Proof.
  apply (earlier_table_goes_in_one_request backend_down demo_columns demo_rows
           demo_world_earlier 0 demo_table_earlier).
  - by vm_compute.
  - reflexivity.
Defined.

(** ** Requests in flight *)

Section InFlight.

Import LaterSpec.

Lemma inFlight_sent (k : nat) (ids : list nat) (rest : list event) :
  inFlight k (map Sent ids ++ rest)
  = seq (S k) (length ids) ++ inFlight (k + length ids) rest.
Proof.
  revert k. induction ids as [|id ids IH]; intros k; cbn [map app length seq inFlight].
  - by rewrite Nat.add_0_r.
  - rewrite IH. by replace (S k + length ids) with (k + S (length ids)) by lia.
Qed.

Lemma inFlight_answered (k : nat) (ids : list nat) (rest : list event) :
  inFlight k (map Answered ids ++ rest)
  = map (fun i => k - S i) (seq 0 (length ids))
    ++ inFlight (k - length ids) rest.
Proof.
  revert k. induction ids as [|id ids IH]; intros k; cbn [map app length seq inFlight].
  - by rewrite Nat.sub_0_r.
  - rewrite IH. f_equal; [lia|]. f_equal.
    + rewrite <- seq_shift, map_map. apply map_ext. intros i. lia.
    + f_equal. lia.
Qed.

Lemma foldr_max_le (b : nat) (l : list nat) :
  Forall (fun n => n <= b) l -> foldr Nat.max 0 l <= b.
Proof. induction 1 as [|n l Hn _ IH]; cbn [foldr]; lia. Qed.

Lemma foldr_max_ge (n : nat) (l : list nat) :
  In n l -> n <= foldr Nat.max 0 l.
Proof.
  induction l as [|m l IH]; [done|]. cbn [foldr].
  intros [->|Hin]; [lia|]. specialize (IH Hin). lia.
Qed.

Lemma inFlight_awaited (first n : nat) :
  inFlight 0 (awaited first n) = concat (replicate n [1; 0]).
Proof.
  revert first. induction n as [|n IH]; intros first; [done|].
  unfold awaited in *. cbn [seq flat_map app inFlight Nat.pred replicate concat].
  by rewrite IH.
Qed.

(** Requests that are each awaited before the next is sent: never more than
    one in flight. *)
Lemma peakInFlight_awaited (first n : nat) :
  peakInFlight (awaited first n) = Nat.min 1 n.
Proof.
  unfold peakInFlight. rewrite inFlight_awaited.
  destruct n as [|n]; [done|]. cbn [replicate concat app foldr].
  assert (foldr Nat.max 0 (concat (replicate n [1; 0])) <= 1); [|lia].
  apply foldr_max_le. induction n as [|n IH]; cbn [replicate concat app]; auto.
Qed.

Lemma runEvents_app (before new : list event) :
  runEvents before (before ++ new) = new.
Proof. unfold runEvents. by rewrite drop_app_length. Qed.

End InFlight.

(** ** The classification of the first iteration *)

Section EarlierClassificationRuns.

Import EarlierClassification.

Variable backend : nat -> http_outcome.
Variable arrival : list nat -> list nat.

(** The calls of the callback of [map]: one request per row, sent in row
    order. *)
Lemma map_rows_run (topics : list string) (columnName : string)
    (rows : list ExcelData) (w : world) :
  map_rows topics columnName rows w
  = (Ok (seq (length (calls w)) (length rows)),
     mkWorld (processedTables w) (apiStatus w) (commonTopicsInput w)
       (calls w ++ map (rowRequest topics columnName) rows) (toasts w)
       (events w ++ map Sent (seq (length (calls w)) (length rows)))).
Proof.
  revert w. induction rows as [|row rows IH]; intros w.
  - cbn [map_rows map length seq]. unfold ret. rewrite !app_nil_r. by destruct w.
  - cbn [map_rows]. unfold bind at 1.
    unfold analyzeTopicWithDeepSeek_called, send.
    unfold bind at 1. rewrite IH. unfold ret.
    cbn [processedTables apiStatus commonTopicsInput calls toasts events].
    rewrite length_app. cbn [length map seq].
    rewrite Nat.add_1_r, <- !app_assoc. done.
Qed.

(** The rest of [handleAnalyze] logs the answer and sends nothing. *)
Lemma handleAnalyze_settled_log (index : nat) (p : pending) (w : world) :
  let run := handleAnalyze_settled backend index p w in
  fst run = Ok tt
  /\ calls (snd run) = calls w
  /\ events (snd run) = events w ++ [Answered (promise p)].
Proof.
  unfold handleAnalyze_settled, await, analyzeDataWithDeepSeek_settled,
    axios_settled.
  unfold try_catch, bind, ret, throw, setApiStatus, setProcessedTables,
    message_toast.
  cbn [processedTables apiStatus commonTopicsInput calls toasts events].
  destruct (backend (promise p)) as [msg|st txt b]; [done|].
  destruct (status_ok st); [|done].
  destruct (reply_content b) as [r|]; [|done].
  by case_bool_decide.
Qed.

(** The call of [handleAnalyze] from the handler of the classification, on
    a table with a column: nothing but the pop-up when the guard holds,
    otherwise the request of the analysis is sent and the call returns. *)
Lemma handleAnalyze_called_run (closure : list Earlier.ProcessedTable)
    (index : nat) (table0 : Earlier.ProcessedTable) (c : column_def) (w : world) :
  closure !! index = Some table0 ->
  last (Earlier.columns table0) = Some c ->
  let run := handleAnalyze_called closure index w in
  if Earlier.isAnalyzing table0 || Earlier.has_analysis table0 then
    run = (Ok None,
           mkWorld (processedTables w) (apiStatus w) (commonTopicsInput w)
             (calls w) (toasts w ++ [Earlier.ToastInfo "该数据已经分析过了"])
             (events w))
  else
    exists p,
      fst run = Ok (Some p)
      /\ promise p = length (calls w)
      /\ calls (snd run)
         = calls w ++ [AnalysisRequest (title c) (Earlier.data table0)]
      /\ events (snd run) = events w ++ [Sent (length (calls w))].
Proof.
  intros Hlookup Hlast run. subst run. unfold handleAnalyze_called.
  rewrite Hlookup.
  destruct (Earlier.isAnalyzing table0 || Earlier.has_analysis table0); [done|].
  cbn [Earlier.set_isAnalyzing Earlier.columns Earlier.data]. rewrite Hlast.
  unfold try_catch, bind, analyzeDataWithDeepSeek_called, bind, ret,
    setApiStatus, setProcessedTables, send.
  cbn [processedTables apiStatus commonTopicsInput calls toasts events].
  by eexists.
Qed.

(** A click on the button of the classification, for a table that is not
    being classified and has a column, and an input with a topic: the
    requests of all rows are sent, in row order, before any answer is
    awaited; the request of the analysis follows when the guard of
    [handleAnalyze] lets the table pass. *)
Lemma classificationRun_log (index : nat) (w : world)
    (t : Earlier.ProcessedTable) (c : column_def) :
  processedTables w !! index = Some t ->
  Earlier.isAnalyzingTopics t = false ->
  topicsOf (commonTopicsInput w) <> [] ->
  last (Earlier.columns t) = Some c ->
  let topics := topicsOf (commonTopicsInput w) in
  let rows := length (Earlier.data t) in
  let first := length (calls w) in
  let run := classificationRun backend arrival index w in
  fst run = Ok tt
  /\ calls (snd run)
     = calls w ++ map (rowRequest topics (title c)) (Earlier.data t)
       ++ (if Earlier.isAnalyzing t || Earlier.has_analysis t then []
           else [AnalysisRequest (title c) (Earlier.data t)])
  /\ events (snd run)
     = events w ++ map Sent (seq first rows)
       ++ map Answered (arrival (seq first rows))
       ++ followUpEvents t (first + rows).
Proof.
  intros Ht Hidle Htopics Hlast topics rows first run.
  assert (Erun : run = classificationRun backend arrival index w) by done.
  clearbody run.
  unfold classificationRun in Erun. unfold bind at 1 in Erun.
  unfold handleTopicsAnalysis in Erun. unfold bind at 1 in Erun.
  unfold getProcessedTables in Erun.
  rewrite Ht, Hidle in Erun.
  unfold bind at 1 in Erun. unfold getCommonTopicsInput in Erun.
  fold topics in Erun.
  rewrite bool_decide_eq_false_2 in Erun by done.
  unfold bind at 1 in Erun. unfold setProcessedTables at 1 in Erun.
  unfold try_catch at 1 in Erun. unfold bind at 1 in Erun.
  unfold setApiStatus at 1 in Erun.
  cbn [set_commonTopics set_isAnalyzingTopics Earlier.columns Earlier.data]
    in Erun.
  rewrite Hlast in Erun.
  unfold bind at 1 in Erun. rewrite map_rows_run in Erun.
  cbn [processedTables apiStatus commonTopicsInput calls toasts events] in Erun.
  fold rows in Erun. fold first in Erun.
  unfold bind at 1 in Erun. unfold Promise_all in Erun.
  cbn [processedTables apiStatus commonTopicsInput calls toasts events] in Erun.
  unfold bind at 1 in Erun. unfold setProcessedTables at 1 in Erun.
  cbn [processedTables apiStatus commonTopicsInput calls toasts events] in Erun.
  unfold bind at 1 in Erun. unfold try_catch at 1 in Erun.
  match type of Erun with
  | context [handleAnalyze_called ?cl index ?W] =>
      pose proof (handleAnalyze_called_run cl index
                    (Earlier.mkTable (Earlier.name t) (Earlier.data t)
                       (Earlier.columns t) (Earlier.analysis t)
                       (Earlier.isAnalyzing t) topics true) c W) as Hcalled;
      set (w1 := W) in *
  end.
  cbv zeta in Hcalled.
  unfold Earlier.has_analysis in Hcalled |- *.
  cbn [Earlier.isAnalyzing Earlier.analysis Earlier.columns Earlier.data]
    in Hcalled.
  assert (Hlookup : (<[index := Earlier.mkTable (Earlier.name t) (Earlier.data t)
                          (Earlier.columns t) (Earlier.analysis t)
                          (Earlier.isAnalyzing t) topics true]>
                       (processedTables w)) !! index
                    = Some (Earlier.mkTable (Earlier.name t) (Earlier.data t)
                          (Earlier.columns t) (Earlier.analysis t)
                          (Earlier.isAnalyzing t) topics true)).
  { rewrite list_lookup_insert_eq; [done|]. by eapply lookup_lt_Some. }
  specialize (Hcalled Hlookup Hlast). clear Hlookup.
  unfold followUpEvents, Earlier.has_analysis.
  destruct (Earlier.isAnalyzing t || _).
  - rewrite Hcalled in Erun.
    unfold bind, setApiStatus, ret in Erun. subst w1 run.
    cbn [processedTables apiStatus commonTopicsInput calls toasts events fst snd].
    by rewrite !app_nil_r, <- !app_assoc.
  - destruct Hcalled as (p & Hp & Hpromise & Hcalls & Hevents).
    destruct (handleAnalyze_called _ index w1) as [r w2].
    cbn [fst snd] in Hp, Hcalls, Hevents. subst r.
    unfold bind at 1 in Erun. unfold setApiStatus at 1 in Erun.
    unfold ret in Erun.
    match type of Erun with
    | context [handleAnalyze_settled backend index p ?W] =>
        destruct (handleAnalyze_settled_log index p W) as (Hok & Hc & He)
    end.
    subst run.
    cbn [processedTables apiStatus commonTopicsInput calls toasts events] in *.
    rewrite Hok, Hc, He, Hcalls, Hevents, Hpromise. subst w1.
    cbn [processedTables apiStatus commonTopicsInput calls toasts events].
    rewrite length_app, length_map. fold rows. fold first.
    split; [done|]. split; [by rewrite <- !app_assoc|].
    by rewrite <- !app_assoc.
Qed.

(** The two halves of [analyzeTopicWithDeepSeek] make the function that is
    awaited as a whole: the same request, and the same result. *)
Lemma analyzeTopicWithDeepSeek_halves (value : option cell)
    (topics : list string) (columnName : string)
    (sent : EarlierTopics.world) (w : world) :
  let whole :=
    EarlierTopics.analyzeTopicWithDeepSeek backend value topics columnName sent in
  let called := analyzeTopicWithDeepSeek_called value topics columnName w in
  fst whole = Ok (analyzeTopicWithDeepSeek_settled (backend (length sent)))
  /\ exists req,
       snd whole = sent ++ [req]
       /\ calls (snd called) = calls w ++ [TopicRequest req].
Proof.
  cbv zeta. split.
  - unfold EarlierTopics.analyzeTopicWithDeepSeek, EarlierTopics.axios_post,
      analyzeTopicWithDeepSeek_settled, try_catch, bind, ret.
    destruct (backend (length sent)) as [msg|st txt p]; [done|].
    destruct (status_ok st); [|done].
    destruct (reply_content p) as [answer|]; [|done].
    by case_bool_decide.
  - eexists. split; [|reflexivity].
    unfold EarlierTopics.analyzeTopicWithDeepSeek, EarlierTopics.axios_post,
      try_catch, bind, ret.
    destruct (backend (length sent)) as [msg|st txt p]; [done|].
    destruct (status_ok st); [|done].
    destruct (reply_content p) as [answer|]; [|done].
    by case_bool_decide.
Qed.

(** The two halves of [handleAnalyze], the second run as soon as the first
    has returned, are the handler of a click on the button of the
    analysis. *)
Lemma handleAnalyze_halves (index : nat) (w : world)
    (requests : list Earlier.request) :
  length requests = length (calls w) ->
  let run := handleAnalyze backend index w in
  let whole :=
    Earlier.handleAnalyze backend index
      (Earlier.mkWorld (processedTables w) (apiStatus w) requests (toasts w)) in
  fst run = fst whole
  /\ processedTables (snd run) = Earlier.processedTables (snd whole)
  /\ apiStatus (snd run) = Earlier.apiStatus (snd whole)
  /\ toasts (snd run) = Earlier.toasts (snd whole).
Proof.
  intros Hlen. cbv zeta.
  unfold handleAnalyze, Earlier.handleAnalyze, handleAnalyze_called,
    handleAnalyze_settled, analyzeDataWithDeepSeek_called,
    analyzeDataWithDeepSeek_settled, Earlier.analyzeDataWithDeepSeek,
    axios_settled, Earlier.axios_post, Earlier.log_call, send, await,
    getProcessedTables, Earlier.getProcessedTables.
  unfold try_catch, bind, ret, throw, setApiStatus, Earlier.setApiStatus,
    setProcessedTables, Earlier.setProcessedTables, message_toast,
    Earlier.message_toast.
  cbn [processedTables apiStatus commonTopicsInput calls toasts events
       Earlier.processedTables Earlier.apiStatus Earlier.calls Earlier.toasts].
  destruct (processedTables w !! index) as [table0|]; [|done].
  destruct (Earlier.isAnalyzing table0 || Earlier.has_analysis table0); [done|].
  cbn [processedTables apiStatus commonTopicsInput calls toasts events
       Earlier.processedTables Earlier.apiStatus Earlier.calls Earlier.toasts].
  destruct (last (Earlier.columns (Earlier.set_isAnalyzing true table0)))
    as [lastColumn|]; [|done].
  cbn [processedTables apiStatus commonTopicsInput calls toasts events
       Earlier.processedTables Earlier.apiStatus Earlier.calls Earlier.toasts
       fst snd promise pending_tables pending_table].
  rewrite Hlen.
  destruct (backend (length (calls w))) as [msg|st txt p]; [done|].
  destruct (status_ok st); [|done].
  cbn [processedTables apiStatus commonTopicsInput calls toasts events
       Earlier.processedTables Earlier.apiStatus Earlier.calls Earlier.toasts
       fst snd].
  destruct (reply_content p) as [r|]; [|done].
  by case_bool_decide.
Qed.

End EarlierClassificationRuns.

(** ** Sequential and concurrent runs *)

Section RunsInFlight.

Variable backend : nat -> http_outcome.
Variable arrival : list nat -> list nat.

Lemma peakInFlight_all_rows (first rows : nat) (followUp : list event) :
  length (arrival (seq first rows)) = rows ->
  followUp = [] \/ (exists id, followUp = [Sent id; Answered id]) ->
  let log := map Sent (seq first rows)
             ++ map Answered (arrival (seq first rows)) ++ followUp in
  rows <= peakInFlight log /\ peakInFlight log <= Nat.max rows 1.
Proof.
  intros Hlen HfollowUp log. subst log. unfold peakInFlight.
  rewrite inFlight_sent, inFlight_answered, length_seq, Hlen.
  cbn [Nat.add]. rewrite Nat.sub_diag. split.
  - destruct rows as [|rows]; [lia|]. apply foldr_max_ge.
    apply in_or_app. left. apply in_seq. lia.
  - apply foldr_max_le. rewrite !Forall_app. split; [|split].
    + apply Forall_forall. intros n Hn.
      apply list_elem_of_In, in_seq in Hn. lia.
    + apply Forall_forall. intros n Hn.
      apply list_elem_of_In, in_map_iff in Hn as (i & <- & _). lia.
    + destruct HfollowUp as [->|[id ->]]; cbn [inFlight Nat.pred].
      * constructor.
      * repeat constructor; lia.
Qed.

(** C9, as the code has it.  In the current iteration the runs are
    sequential.  An analysis run sends the request of a batch only when the
    one before is answered, then the request of the reduce step; a
    classification run sends the request of a row only when the one before
    is answered, then the closing request.  One request of the run is in
    flight at most, and the reduce step receives the entries of the batches
    in batch order, the entries of batch [j] being made from the answer to
    the request of batch [j].  In the first iteration a classification run
    sends the requests of all rows, in row order, before the first answer
    is awaited: as many requests are in flight at once as the table has
    rows, in whatever order the answers come.  The request of the analysis
    that the handler starts afterwards is sent when all rows are answered. *)
Theorem requests_in_flight (index : nat)
    (w : Later.world) (t : Later.ProcessedTable)
    (we : EarlierClassification.world) (te : Earlier.ProcessedTable) :
  Later.tables w !! index = Some t ->
  Later.isAnalyzing t = false ->
  Later.isAnalyzingTopics t = false ->
  LaterSpec.topicsOf (Later.commonTopicsInput w) <> [] ->
  EarlierClassification.processedTables we !! index = Some te ->
  Earlier.isAnalyzingTopics te = false ->
  EarlierClassification.topicsOf (EarlierClassification.commonTopicsInput we)
    <> [] ->
  Earlier.columns te <> [] ->
  (forall ids, arrival ids ≡ₚ ids) ->
  let batches := createBatches (Later.data t) in
  let first := length (Later.calls w) in
  let analysis := Later.handleAnalyze backend index w in
  let classification := Later.handleTopicsAnalysis backend index w in
  let rowRequests :=
    flat_map (LaterSpec.rowRequest t
                (LaterSpec.topicsOf (Later.commonTopicsInput w)))
      (Later.data t) in
  let rows := length (Earlier.data te) in
  let firstE := length (EarlierClassification.calls we) in
  let earlier :=
    EarlierClassification.classificationRun backend arrival index we in
  let earlierEvents :=
    runEvents (EarlierClassification.events we)
      (EarlierClassification.events (snd earlier)) in
  runEvents (Later.events w) (Later.events (snd analysis))
  = LaterSpec.awaited first (length batches + 1)
  /\ peakInFlight (runEvents (Later.events w) (Later.events (snd analysis))) = 1
  /\ Later.calls (snd analysis)
     = Later.calls w ++ map (LaterSpec.batchRequest t) batches
       ++ [Later.SummaryRequest
             (concat (imap (fun j _ =>
                              LaterSpec.batchEntries j (backend (first + j)))
                        batches))]
  /\ runEvents (Later.events w) (Later.events (snd classification))
     = LaterSpec.awaited first (length rowRequests + 1)
  /\ peakInFlight (runEvents (Later.events w)
                     (Later.events (snd classification))) = 1
  /\ earlierEvents
     = map Sent (seq firstE rows)
       ++ map Answered (arrival (seq firstE rows))
       ++ EarlierClassification.followUpEvents te (firstE + rows)
  /\ rows <= peakInFlight earlierEvents
  /\ peakInFlight earlierEvents <= Nat.max rows 1.
Proof.
  intros Ht Hidle HidleTopics Htopics Hte HidleE HtopicsE Hcolumns Harrival.
  intros batches first analysis classification rowRequests rows firstE
    earlier earlierEvents.
  assert (Hanalysis :
    Later.events (snd analysis)
    = Later.events w ++ LaterSpec.awaited first (length batches + 1)
    /\ Later.calls (snd analysis)
       = Later.calls w ++ map (LaterSpec.batchRequest t) batches
         ++ [Later.SummaryRequest
               (concat (imap (fun j _ =>
                                LaterSpec.batchEntries j (backend (first + j)))
                          batches))]).
  { subst analysis. by rewrite (handleAnalyze_run backend index w t Ht Hidle). }
  assert (Hclassification :
    Later.events (snd classification)
    = Later.events w ++ LaterSpec.awaited first (length rowRequests + 1)).
  { subst classification.
    by rewrite (handleTopicsAnalysis_run backend index w t Ht HidleTopics Htopics). }
  destruct (last (Earlier.columns te)) as [c|] eqn:Hlast.
  2:{ apply last_None in Hlast. done. }
  destruct (classificationRun_log backend arrival index we te c
              Hte HidleE HtopicsE Hlast) as (_ & _ & Hearlier).
  fold rows firstE earlier in Hearlier.
  destruct Hanalysis as [Hevents Hcalls].
  subst earlierEvents.
  rewrite Hevents, Hclassification, Hearlier, !runEvents_app.
  rewrite !peakInFlight_awaited.
  split; [done|]. split; [lia|]. split; [done|]. split; [done|].
  split; [lia|]. split; [done|].
  apply peakInFlight_all_rows.
  - rewrite (Permutation_length (Harrival _)). apply length_seq.
  - unfold EarlierClassification.followUpEvents.
    destruct (_ || _); [by left|right; by eexists].
Qed.

End RunsInFlight.

(** The table of eleven answers in both iterations, every request being
    answered, and the answers of the first iteration coming in reverse
    order. *)
Lemma requests_in_flight_witness :
  let backend := backend_ok in
  let arrival := @reverse nat in
  let w := demo_world in
  let t := demo_table in
  let we := demo_world_classification in
  let te := demo_table_earlier in
  let batches := createBatches (Later.data t) in
  let first := length (Later.calls w) in
  let analysis := Later.handleAnalyze backend 0 w in
  let classification := Later.handleTopicsAnalysis backend 0 w in
  let rowRequests :=
    flat_map (LaterSpec.rowRequest t
                (LaterSpec.topicsOf (Later.commonTopicsInput w)))
      (Later.data t) in
  let rows := length (Earlier.data te) in
  let firstE := length (EarlierClassification.calls we) in
  let earlier :=
    EarlierClassification.classificationRun backend arrival 0 we in
  let earlierEvents :=
    runEvents (EarlierClassification.events we)
      (EarlierClassification.events (snd earlier)) in
  runEvents (Later.events w) (Later.events (snd analysis))
  = LaterSpec.awaited first (length batches + 1)
  /\ peakInFlight (runEvents (Later.events w) (Later.events (snd analysis))) = 1
  /\ Later.calls (snd analysis)
     = Later.calls w ++ map (LaterSpec.batchRequest t) batches
       ++ [Later.SummaryRequest
             (concat (imap (fun j _ =>
                              LaterSpec.batchEntries j (backend (first + j)))
                        batches))]
  /\ runEvents (Later.events w) (Later.events (snd classification))
     = LaterSpec.awaited first (length rowRequests + 1)
  /\ peakInFlight (runEvents (Later.events w)
                     (Later.events (snd classification))) = 1
  /\ earlierEvents
     = map Sent (seq firstE rows)
       ++ map Answered (arrival (seq firstE rows))
       ++ EarlierClassification.followUpEvents te (firstE + rows)
  /\ rows <= peakInFlight earlierEvents
  /\ peakInFlight earlierEvents <= Nat.max rows 1.
Proof.
  apply (requests_in_flight backend_ok reverse 0 demo_world demo_table
           demo_world_classification demo_table_earlier).
  - reflexivity.
  - reflexivity.
  - reflexivity.
  - by vm_compute.
  - reflexivity.
  - reflexivity.
  - by vm_compute.
  - by vm_compute.
  - intros ids. apply reverse_Permutation.
Defined.

(** The classification of the table of eleven answers in the first
    iteration: the eleven requests of the rows are sent before the first
    answer comes, so eleven requests of the run are in flight at once. *)
Lemma requests_in_flight_counterexample :
  let run :=
    EarlierClassification.classificationRun backend_ok reverse 0
      demo_world_classification in
  fst run = Ok tt
  /\ length (Earlier.data demo_table_earlier) = 11
  /\ EarlierClassification.events (snd run)
     = map Sent (seq 0 11) ++ map Answered (reverse (seq 0 11))
       ++ [Sent 11; Answered 11]
  /\ inFlight 0 (EarlierClassification.events (snd run))
     = seq 1 11 ++ reverse (seq 0 11) ++ [1; 0]
  /\ peakInFlight (EarlierClassification.events (snd run)) = 11
  /\ ~ peakInFlight (EarlierClassification.events (snd run)) <= 1.
Proof.
  cbv zeta. split; [by vm_compute|]. split; [by vm_compute|].
  split; [by vm_compute|]. split; [by vm_compute|]. split; [by vm_compute|].
  intros H. vm_compute in H. lia.
Qed.
